(** * coinben: the policy gate of the trade server

    A shallow embedding of the two classes of [server/gate.js],
    [RateLimiter] (lines 8-24) and [PolicyGate] (lines 26-140), and of the
    second copy of that module kept after the trade server in
    [server/trade.js] (lines 283-446), whose [canExecute] starts with an
    empty-order guard and is otherwise the same text; then of the trade
    server of [server/trade.js] (lines 20-282) as far as it drives the gate:
    the configuration loader and the two order routes, up to the point where
    a route hands the order to the exchange.  The properties of the rate
    limiter, of the decision pipeline and of the routes follow.

    Conventions of the embedding.
    - JavaScript values are restricted to the primitives the gate inspects
      (undefined, null, booleans, numbers, strings).  A finite number is a
      rational: the gate only compares configured and ordered numbers, it
      never computes with them, so no rounding is involved.  NaN and the two
      infinities are kept, because [Number(...)] produces them and [||] and
      the comparisons test for them.  The negative zero is not told from
      zero: the program never divides by a number, and [||], the
      comparisons and [String] treat the two alike.
    - Instants, the counter of the rate limiter and its window are integers:
      they only ever come from [Date.now()], [Math.floor] and [++].
    - A string is held as the bytes of its UTF-8 encoding.  The built-ins
      that depend on the engine belong to the [Host]: the conversions
      between strings and numbers, and the case conversions of a string that
      has a character beyond ASCII, which need the tables of the Unicode
      Character Database.  On a string of ASCII characters the case
      conversions are written out.  The theorems hold for every host; the
      host [ecma_host], with [Number], [String] and the case conversions of
      ECMAScript, runs the model on inputs.
    - [Date.now()] and [new Date()] read a clock that hands out one reading
      per call; nothing is assumed about the readings.
    - A method that mutates [this] takes the object and returns the new one.
    - An order is a finite map from keys to values; a key that is absent
      reads as [undefined]. *)

From Stdlib Require Import ZArith QArith Qround String Ascii List Lia Bool
  DecimalString.
From stdpp Require Import base option gmap sets strings list.

Local Open Scope string_scope.
Local Open Scope Z_scope.

(** ** JavaScript primitives *)

Inductive JsNum :=
| NaN
| Num (q : Q)
| Infinity (negative : bool).

Inductive JsVal :=
| JUndefined
| JNull
| JBool (b : bool)
| JNumber (n : JsNum)
| JString (s : string).

Definition num_of_Z (z : Z) : JsNum := Num (inject_Z z).

(** What the model takes from the engine: the two conversions between
    strings and numbers ([Number(s)] on a string, [String(n)] on a number),
    and [toUpperCase] and [toLowerCase] on a string that has a character
    beyond ASCII. *)
Class Host := {
  StringToNumber : string -> JsNum;
  NumberToString : JsNum -> string;
  UnicodeUpperCase : string -> string;
  UnicodeLowerCase : string -> string
}.

Definition Qltb (x y : Q) : bool := (Qnum x * QDen y <? Qnum y * QDen x)%Z.
Definition Qleb (x y : Q) : bool := (Qnum x * QDen y <=? Qnum y * QDen x)%Z.
Definition Qzerob (x : Q) : bool := (Qnum x =? 0)%Z.

(** [a > b] and [a >= b] on numbers: false as soon as one side is NaN. *)
Definition num_gt (a b : JsNum) : bool :=
  match a, b with
  | Num x, Num y => Qltb y x
  | Infinity false, Num _ => true
  | Infinity false, Infinity true => true
  | Num _, Infinity true => true
  | _, _ => false
  end.

Definition num_ge (a b : JsNum) : bool :=
  match a, b with
  | Num x, Num y => Qleb y x
  | Infinity false, Num _ => true
  | Infinity false, Infinity _ => true
  | Num _, Infinity true => true
  | Infinity true, Infinity true => true
  | _, _ => false
  end.

Definition num_truthy (n : JsNum) : bool :=
  match n with
  | NaN => false
  | Num q => negb (Qzerob q)
  | Infinity _ => true
  end.

#[global] Arguments num_gt : simpl never.
#[global] Arguments num_ge : simpl never.

Definition str_truthy (s : string) : bool :=
  match s with
  | EmptyString => false
  | String _ _ => true
  end.

(** ToBoolean. *)
Definition truthy (v : JsVal) : bool :=
  match v with
  | JUndefined | JNull => false
  | JBool b => b
  | JNumber n => num_truthy n
  | JString s => str_truthy s
  end.

(** [a || b] on values and on numbers. *)
Definition js_or (a b : JsVal) : JsVal := if truthy a then a else b.
Definition num_or (a b : JsNum) : JsNum := if num_truthy a then a else b.
Definition Z_or (a b : Z) : Z := if (a =? 0)%Z then b else a.

Section Conversions.
Context `{Host}.

(** [Number(v)]. *)
Definition ToNumber (v : JsVal) : JsNum :=
  match v with
  | JUndefined => NaN
  | JNull => Num 0
  | JBool true => Num 1
  | JBool false => Num 0
  | JNumber n => n
  | JString s => StringToNumber s
  end.

(** [String(v)]. *)
Definition ToString (v : JsVal) : string :=
  match v with
  | JUndefined => "undefined"
  | JNull => "null"
  | JBool true => "true"
  | JBool false => "false"
  | JNumber n => NumberToString n
  | JString s => s
  end.
End Conversions.

(** The case of the ASCII letters: [a]-[z] and [A]-[Z] are 32 apart, and
    no other ASCII character has a case. *)
Definition is_lower (c : ascii) : bool :=
  ((97 <=? N_of_ascii c) && (N_of_ascii c <=? 122))%N.
Definition is_upper (c : ascii) : bool :=
  ((65 <=? N_of_ascii c) && (N_of_ascii c <=? 90))%N.
Definition upper_ascii (c : ascii) : ascii :=
  if is_lower c then ascii_of_N (N_of_ascii c - 32) else c.
Definition lower_ascii (c : ascii) : ascii :=
  if is_upper c then ascii_of_N (N_of_ascii c + 32) else c.

(** A string of ASCII characters: in UTF-8 these are the bytes below 128,
    and every other character is made of bytes from 128 on. *)
Definition is_ascii (c : ascii) : bool := (N_of_ascii c <? 128)%N.

Fixpoint ascii_only (s : string) : bool :=
  match s with
  | EmptyString => true
  | String c r => is_ascii c && ascii_only r
  end.

Fixpoint map_string (f : ascii -> ascii) (s : string) : string :=
  match s with
  | EmptyString => EmptyString
  | String c r => String (f c) (map_string f r)
  end.

(** [s.toUpperCase()] and [s.toLowerCase()]. *)
Definition toUpperCase `{Host} (s : string) : string :=
  if ascii_only s then map_string upper_ascii s else UnicodeUpperCase s.

Definition toLowerCase `{Host} (s : string) : string :=
  if ascii_only s then map_string lower_ascii s else UnicodeLowerCase s.

(** ** Strings as sequences of characters

    The code points of a string held in UTF-8, and back.  A byte that is not
    part of a well-formed character is kept as it is: it travels as a number
    beyond the last code point, 1114111. *)
Definition continuation (b : N) : bool := ((128 <=? b) && (b <? 192))%N.

Fixpoint code_points (s : string) : list N :=
  match s with
  | EmptyString => []
  | String b0 r0 =>
    let n0 := N_of_ascii b0 in
    let stray (_ : unit) := (1114112 + n0)%N :: code_points r0 in
    if (n0 <? 128)%N then n0 :: code_points r0
    else
    match r0 with
    | EmptyString => stray tt
    | String b1 r1 =>
      let n1 := N_of_ascii b1 in
      if negb (continuation n1) then stray tt
      else if (n0 <? 224)%N then
        if (194 <=? n0)%N
        then ((n0 - 192) * 64 + (n1 - 128))%N :: code_points r1
        else stray tt
      else
      match r1 with
      | EmptyString => stray tt
      | String b2 r2 =>
        let n2 := N_of_ascii b2 in
        if negb (continuation n2) then stray tt
        else if (n0 <? 240)%N then
          let cp := ((n0 - 224) * 4096 + (n1 - 128) * 64 + (n2 - 128))%N in
          if ((2048 <=? cp) && negb ((55296 <=? cp) && (cp <=? 57343)))%N
          then cp :: code_points r2
          else stray tt
        else
        match r2 with
        | EmptyString => stray tt
        | String b3 r3 =>
          let n3 := N_of_ascii b3 in
          let cp := ((n0 - 240) * 262144 + (n1 - 128) * 4096
                     + (n2 - 128) * 64 + (n3 - 128))%N in
          if (continuation n3 && (n0 <? 248) && (65536 <=? cp)
              && (cp <=? 1114111))%N
          then cp :: code_points r3
          else stray tt
        end
      end
    end
  end.

Definition utf8 (cp : N) : list N :=
  (if cp <? 128 then [cp]
   else if cp <? 2048 then [192 + cp / 64; 128 + cp mod 64]
   else if cp <? 65536
     then [224 + cp / 4096; 128 + (cp / 64) mod 64; 128 + cp mod 64]
   else if cp <? 1114112
     then [240 + cp / 262144; 128 + (cp / 4096) mod 64;
           128 + (cp / 64) mod 64; 128 + cp mod 64]
   else [cp - 1114112])%N.

Definition string_of_bytes (l : list N) : string :=
  fold_right (fun b s => String (ascii_of_N b) s) EmptyString l.

Definition string_of_code_points (l : list N) : string :=
  string_of_bytes (flat_map utf8 l).

(** The white space and the line terminators of ECMAScript: what [trim]
    removes and [Number] skips. *)
Definition is_space (cp : N) : bool :=
  ((9 <=? cp) && (cp <=? 13) || (cp =? 32) || (cp =? 160) || (cp =? 5760)
   || (8192 <=? cp) && (cp <=? 8202) || (cp =? 8232) || (cp =? 8233)
   || (cp =? 8239) || (cp =? 8287) || (cp =? 12288) || (cp =? 65279))%N.

Fixpoint trim_start (l : list N) : list N :=
  match l with
  | [] => []
  | c :: r => if is_space c then trim_start r else l
  end.

Fixpoint trim_end (l : list N) : list N :=
  match l with
  | [] => []
  | c :: r =>
    match trim_end r with
    | [] => if is_space c then [] else [c]
    | r' => c :: r'
    end
  end.

(** [s.trim()] *)
Definition trim (s : string) : string :=
  string_of_code_points (trim_end (trim_start (code_points s))).

(** ** The clock *)

Record Clock := { readings : nat -> Z; cursor : nat }.

Definition Clk (A : Type) : Type := Clock -> A * Clock.

Definition ret {A} (a : A) : Clk A := fun c => (a, c).
Definition bind {A B} (m : Clk A) (k : A -> Clk B) : Clk B :=
  fun c => let (a, c') := m c in k a c'.

Notation "x <- c1 ;; c2" := (bind c1 (fun x => c2))
  (at level 100, c1 at next level, right associativity).

(** [Date.now()]: the reading under the cursor, and the cursor moves on. *)
Definition Date_now : Clk Z :=
  fun c => (readings c (cursor c),
            {| readings := readings c; cursor := S (cursor c) |}).

(** A clock that stands still at [t], and one that starts at [t] and gains
    [step] milliseconds between two readings. *)
Definition frozen_clock (t : Z) : Clock :=
  {| readings := fun _ => t; cursor := 0 |}.
Definition ticking_clock (t step : Z) : Clock :=
  {| readings := fun i => t + step * Z.of_nat i; cursor := 0 |}.

(** ** RateLimiter (gate.js, lines 8-24) *)

Record RateLimiter := {
  maxPerSec : JsNum;
  bucket : Z;
  ts : Z
}.

Section Gate.
Context `{Host}.

(** [constructor(maxPerSec = 5)]: the default parameter replaces
    [undefined] only. *)
Definition new_RateLimiter (arg : JsVal) : RateLimiter :=
  let maxPerSec := match arg with JUndefined => JNumber (Num 5) | v => v end in
  {| maxPerSec := num_or (ToNumber maxPerSec) (Num 5);
     bucket := 0;
     ts := 0 |}.

(** [allow()], lines 14-23. *)
Definition RateLimiter_allow (this : RateLimiter) : Clk (bool * RateLimiter) :=
  t <- Date_now ;;
  let now := t / 1000 in
  let this :=
    if negb (ts this =? now)
    then {| maxPerSec := maxPerSec this; bucket := 0; ts := now |}
    else this in
  if num_ge (num_of_Z (bucket this)) (maxPerSec this)
  then ret (false, this)
  else ret (true, {| maxPerSec := maxPerSec this;
                     bucket := bucket this + 1;
                     ts := ts this |}).
End Gate.

(** ** PolicyGate: the data *)

(** The configuration object, flattened: [kill_switch], [limits.rate_per_sec],
    [limits.max_order_usdt] and [guards.max_staleness_ms].  The gate reads
    them through [?.], so a missing [limits] or [guards] object and a missing
    field both read as [undefined]. *)
Record Config := {
  kill_switch : JsVal;
  rate_per_sec : JsVal;
  max_order_usdt : JsVal;
  max_staleness_ms : JsVal
}.

(** [{}] *)
Definition empty_config : Config :=
  {| kill_switch := JUndefined; rate_per_sec := JUndefined;
     max_order_usdt := JUndefined; max_staleness_ms := JUndefined |}.

(** [`pg-${new Date().toISOString()}`]: the ISO rendering is one-to-one on
    the millisecond instants a date can hold, so a version is named by its
    instant. *)
Record Version := pg { instant : Z }.

(** An order is a JavaScript object used as a record of optional fields. *)
Abbreviation Order := (gmap string JsVal).

(** [order.k] *)
Definition prop (order : Order) (k : string) : JsVal :=
  default JUndefined (order !! k).

(** What a caller can pass for the parameter [order]. *)
Inductive OrderArg :=
| ArgUndefined
| ArgNull
| ArgObject (order : Order).

Record PolicyGate := {
  config : Config;
  version : Version;
  symbolHalt : gset string;
  globalHalt : bool;
  safeMode : bool;
  rateLimiter : RateLimiter;
  lastSnapshotAt : Z;
  startedAt : Z
}.

Definition set_lastSnapshotAt (t : Z) (g : PolicyGate) : PolicyGate :=
  {| config := config g; version := version g; symbolHalt := symbolHalt g;
     globalHalt := globalHalt g; safeMode := safeMode g;
     rateLimiter := rateLimiter g; lastSnapshotAt := t;
     startedAt := startedAt g |}.

Definition set_rateLimiter (r : RateLimiter) (g : PolicyGate) : PolicyGate :=
  {| config := config g; version := version g; symbolHalt := symbolHalt g;
     globalHalt := globalHalt g; safeMode := safeMode g;
     rateLimiter := r; lastSnapshotAt := lastSnapshotAt g;
     startedAt := startedAt g |}.

Definition set_symbolHalt (s : gset string) (g : PolicyGate) : PolicyGate :=
  {| config := config g; version := version g; symbolHalt := s;
     globalHalt := globalHalt g; safeMode := safeMode g;
     rateLimiter := rateLimiter g; lastSnapshotAt := lastSnapshotAt g;
     startedAt := startedAt g |}.

Definition set_globalHalt (b : bool) (g : PolicyGate) : PolicyGate :=
  {| config := config g; version := version g; symbolHalt := symbolHalt g;
     globalHalt := b; safeMode := safeMode g;
     rateLimiter := rateLimiter g; lastSnapshotAt := lastSnapshotAt g;
     startedAt := startedAt g |}.

Definition set_safeMode (b : bool) (g : PolicyGate) : PolicyGate :=
  {| config := config g; version := version g; symbolHalt := symbolHalt g;
     globalHalt := globalHalt g; safeMode := b;
     rateLimiter := rateLimiter g; lastSnapshotAt := lastSnapshotAt g;
     startedAt := startedAt g |}.

(** The two shapes of a decision record. *)
Inductive Decision :=
| Allowed (reason_code : string) (policy_version : Version) (expires_at : Z)
| Denied (reason_code : string) (reason_detail : string)
         (policy_version : Version) (denied_at : Z).

Definition decision_allow (d : Decision) : bool :=
  match d with Allowed _ _ _ => true | Denied _ _ _ _ => false end.
Definition reason_code (d : Decision) : string :=
  match d with Allowed r _ _ => r | Denied r _ _ _ => r end.
Definition reason_detail (d : Decision) : option string :=
  match d with Allowed _ _ _ => None | Denied _ m _ _ => Some m end.
Definition policy_version (d : Decision) : Version :=
  match d with Allowed _ v _ => v | Denied _ _ v _ => v end.

(** [canExecute] is an async function: it settles with a decision, or is
    rejected with the TypeError of a property read on [null]. *)
Inductive Settled :=
| Resolved (d : Decision)
| Rejected_TypeError.

(** ** PolicyGate: the methods *)

Section PolicyGateMethods.
Context `{Host}.

(** [constructor(config)], lines 27-36; [None] stands for a missing or
    [null] argument, which [config || {}] replaces by [{}]. *)
Definition new_PolicyGate (cfg : option Config) : Clk PolicyGate :=
  let config := default empty_config cfg in
  tv <- Date_now ;;
  t1 <- Date_now ;;
  t2 <- Date_now ;;
  ret {| config := config;
         version := pg tv;
         symbolHalt := ∅;
         globalHalt := false;
         safeMode := false;
         rateLimiter :=
           new_RateLimiter (js_or (rate_per_sec config) (JNumber (Num 5)));
         lastSnapshotAt := t1;
         startedAt := t2 |}.

(** [updateConfig(newCfg)], lines 38-42. *)
Definition updateConfig (this : PolicyGate) (newCfg : option Config)
  : Clk PolicyGate :=
  let config := default empty_config newCfg in
  tv <- Date_now ;;
  ret {| config := config;
         version := pg tv;
         symbolHalt := symbolHalt this;
         globalHalt := globalHalt this;
         safeMode := safeMode this;
         rateLimiter :=
           new_RateLimiter (js_or (rate_per_sec config) (JNumber (Num 5)));
         lastSnapshotAt := lastSnapshotAt this;
         startedAt := startedAt this |}.

(** [setGlobalHalt], [setSymbolHalt], [setSafeMode], lines 44-55. *)
Definition setGlobalHalt (this : PolicyGate) (on : JsVal) : PolicyGate :=
  set_globalHalt (truthy on) this.

Definition setSymbolHalt (this : PolicyGate) (sym on : JsVal) : PolicyGate :=
  let S := toUpperCase (ToString (js_or sym (JString ""))) in
  if negb (str_truthy S) then this
  else if truthy on then set_symbolHalt ({[ S ]} ∪ symbolHalt this) this
  else set_symbolHalt (symbolHalt this ∖ {[ S ]}) this.

Definition setSafeMode (this : PolicyGate) (on : JsVal) : PolicyGate :=
  set_safeMode (truthy on) this.

(** [allow(reason)] and [deny(code, detail)], lines 118-134. *)
Definition allow (this : PolicyGate) (reason : string) : Clk Decision :=
  t <- Date_now ;;
  ret (Allowed reason (version this) (t + 3000)).

Definition deny (this : PolicyGate) (code detail : string) : Clk Decision :=
  t <- Date_now ;;
  ret (Denied code detail (version this) t).

(** [v === true] and [v === "s"]. *)
Definition is_true (v : JsVal) : bool :=
  match v with JBool true => true | _ => false end.
Definition is_string (v : JsVal) (s : string) : bool :=
  match v with JString x => String.eqb x s | _ => false end.

(** [_isCloseOnly(order)], lines 135-139. *)
Definition _isCloseOnly (order : Order) : bool :=
  truthy (prop order "reduceOnly")
  || is_true (prop order "closeOnly")
  || is_string (prop order "intent") "close".

(** The rules of [canExecute], from the kill switch to the default allow:
    lines 74-115 of gate.js, and the same statements at lines 366-417 of the
    copy.  A [return] ends the method, so each rule that does not fire nests
    the rest. *)
Definition rules (this : PolicyGate) (order : Order)
  : Clk (Decision * PolicyGate) :=
  if truthy (kill_switch (config this)) then
    if _isCloseOnly order
    then d <- allow this "KILL_SWITCH_CLOSE_ONLY" ;; ret (d, this)
    else d <- deny this "KILL_SWITCH" "Global kill switch enabled" ;;
         ret (d, this)
  else if globalHalt this && negb (_isCloseOnly order) then
    d <- deny this "GLOBAL_HALT" "Trading globally halted" ;; ret (d, this)
  else
  let sym := toUpperCase (ToString (js_or (prop order "symbol") (JString ""))) in
  if str_truthy sym && bool_decide (sym ∈ symbolHalt this)
     && negb (_isCloseOnly order) then
    d <- deny this "SYMBOL_HALT" ("Symbol " +:+ sym +:+ " halted") ;;
    ret (d, this)
  else
  ar <- RateLimiter_allow (rateLimiter this) ;;
  let this := set_rateLimiter (snd ar) this in
  if negb (fst ar) then
    d <- deny this "RATE_LIMIT" "Too many requests per second" ;;
    ret (d, this)
  else if safeMode this && negb (_isCloseOnly order) then
    d <- deny this "SAFE_MODE" "Safe mode: close-only" ;; ret (d, this)
  else
  let maxStale :=
    ToNumber (js_or (max_staleness_ms (config this)) (JNumber (Num 0))) in
  stale <- (if num_gt maxStale (Num 0) then
              t <- Date_now ;;
              let age := t - Z_or (lastSnapshotAt this) 0 in
              if num_gt (num_of_Z age) maxStale && negb (_isCloseOnly order)
              then ret (Some age) else ret None
            else ret None) ;;
  match stale with
  | Some age =>
    d <- deny this "DATA_STALE"
           ("Snapshot stale: " +:+ NumberToString (num_of_Z age) +:+ "ms") ;;
    ret (d, this)
  | None =>
  let notional :=
    ToNumber (js_or (js_or (prop order "notional") (prop order "quote"))
                    (JNumber (Num 0))) in
  let maxOrder :=
    ToNumber (js_or (max_order_usdt (config this)) (JNumber (Num 0))) in
  if num_gt maxOrder (Num 0) && num_gt notional (Num 0)
     && num_gt notional maxOrder && negb (_isCloseOnly order) then
    d <- deny this "MAX_ORDER"
           ("Notional " +:+ NumberToString notional +:+ " > "
            +:+ NumberToString maxOrder) ;;
    ret (d, this)
  else if _isCloseOnly order then
    d <- allow this "CLOSE_ONLY" ;; ret (d, this)
  else
    d <- allow this "PASS" ;; ret (d, this)
  end.

(** [canExecute(order = {})] of gate.js, lines 71-116.  The default
    parameter replaces [undefined] by [{}].  On [null] every path reads a
    property of [order] before any other effect (line 75 under the kill
    switch, line 79 under a global halt, line 82 otherwise), which throws. *)
Definition canExecute (this : PolicyGate) (arg : OrderArg)
  : Clk (Settled * PolicyGate) :=
  t <- Date_now ;;
  let this := set_lastSnapshotAt t this in
  match arg with
  | ArgNull => ret (Rejected_TypeError, this)
  | ArgUndefined =>
    r <- rules this ∅ ;; ret (Resolved (fst r), snd r)
  | ArgObject order =>
    r <- rules this order ;; ret (Resolved (fst r), snd r)
  end.
End PolicyGateMethods.

(** The copy of the module with the empty-order guard (trade.js, lines
    357-418): its [canExecute] returns [EMPTY_ORDER_PASS] for
    [!order || Object.keys(order).length === 0] before the kill switch is
    looked at; everything else is the same text. *)
Module Guarded.
Section Methods.
Context `{Host}.

Definition canExecute (this : PolicyGate) (arg : OrderArg)
  : Clk (Settled * PolicyGate) :=
  t <- Date_now ;;
  let this := set_lastSnapshotAt t this in
  match arg with
  | ArgNull | ArgUndefined =>
    d <- allow this "EMPTY_ORDER_PASS" ;; ret (Resolved d, this)
  | ArgObject order =>
    if (size order =? 0)%nat then
      d <- allow this "EMPTY_ORDER_PASS" ;; ret (Resolved d, this)
    else
      r <- rules this order ;; ret (Resolved (fst r), snd r)
  end.
End Methods.
End Guarded.

(** ** Drivers and inputs *)

(** The two copies of the module. *)
Inductive Variant := GateJs | GuardedCopy.

Definition canExecute_in `{Host} (v : Variant)
  : PolicyGate -> OrderArg -> Clk (Settled * PolicyGate) :=
  match v with
  | GateJs => canExecute
  | GuardedCopy => Guarded.canExecute
  end.

(** [n] calls of [allow()] in a row. *)
Fixpoint allow_times (n : nat) (this : RateLimiter)
  : Clk (list bool * RateLimiter) :=
  match n with
  | O => ret ([], this)
  | S n =>
    ar <- RateLimiter_allow this ;;
    rest <- allow_times n (snd ar) ;;
    ret (fst ar :: fst rest, snd rest)
  end.

(** The orders of a list evaluated one after the other on the same gate. *)
Fixpoint evaluate_all `{Host} (v : Variant) (this : PolicyGate)
    (orders : list OrderArg) : Clk (list Settled * PolicyGate) :=
  match orders with
  | [] => ret ([], this)
  | o :: rest =>
    r <- canExecute_in v this o ;;
    rs <- evaluate_all v (snd r) rest ;;
    ret (fst r :: fst rs, snd rs)
  end.

(** The second of a millisecond instant, [Math.floor(t / 1000)]. *)
Definition second_of (t : Z) : Z := t / 1000.

(** The [i]-th reading from now on, and the clock after one read. *)
Definition reading (c : Clock) (i : nat) : Z := readings c (cursor c + i).
Definition tick (c : Clock) : Clock :=
  {| readings := readings c; cursor := S (cursor c) |}.

(** The next [k] readings of the clock all fall in second [s]. *)
Definition within_second (c : Clock) (k : nat) (s : Z) : Prop :=
  forall i, (i < k)%nat -> second_of (readings c (cursor c + i)) = s.

(** An order record that is missing or has no key. *)
Definition empty_or_missing (arg : OrderArg) : bool :=
  match arg with
  | ArgUndefined | ArgNull => true
  | ArgObject order => (size order =? 0)%nat
  end.

(** Two strings that are equal up to the case of their ASCII letters: the
    same length and, place by place, the same byte or the two cases of one
    ASCII letter. *)
Definition same_letter (a b : ascii) : bool :=
  Ascii.eqb a b
  || (is_lower a && Ascii.eqb (upper_ascii a) b)
  || (is_upper a && Ascii.eqb (lower_ascii a) b).

Fixpoint same_up_to_ascii_case (s t : string) : bool :=
  match s, t with
  | EmptyString, EmptyString => true
  | String a s', String b t' => same_letter a b && same_up_to_ascii_case s' t'
  | _, _ => false
  end.

(** ** The host of ECMAScript

    [Number] on a string (StringToNumber), [String] on a number
    (Number::toString with radix 10) and the case conversions of
    [String.prototype], as ECMA-262 defines them.  A Number is an IEEE 754
    double: a decimal literal is rounded to the nearest double, ties to
    even, and a number is printed with the fewest digits that read back as
    the same double. *)
Module Ecma.

(** *** Rounding to a double *)

(** [n / d] rounded to the nearest integer, ties to even; [0 <= n], [0 < d]. *)
Definition round_half_even (n d : Z) : Z :=
  let q := n / d in
  match 2 * (n mod d) ?= d with
  | Lt => q
  | Gt => q + 1
  | Eq => if Z.even q then q else q + 1
  end.

(** The largest [e] with [2^e <= n / d]; [0 < n], [0 < d]. *)
Definition floor_log2 (n d : Z) : Z :=
  let e := Z.log2 n - Z.log2 d in
  if (if 0 <=? e then d * 2 ^ e <=? n else d <=? n * 2 ^ (- e))
  then e else e - 1.

(** A positive double is [m * 2^u] with [m <= 2^53] and [-1074 <= u]; the
    result of rounding is such a pair, or an overflow. *)
Inductive Rounded :=
| Finite (m u : Z)
| Overflow.

Definition binary64 (n d : Z) : Rounded :=
  let u := Z.max (floor_log2 n d - 52) (-1074) in
  let m := if 0 <=? u then round_half_even n (d * 2 ^ u)
           else round_half_even (n * 2 ^ (- u)) d in
  if (971 <? u) || ((u =? 971) && (2 ^ 53 <=? m)) then Overflow
  else Finite m u.

Definition Q_of_double (m u : Z) : Q :=
  if 0 <=? u then inject_Z (m * 2 ^ u)
  else Qred (m # Z.to_pos (2 ^ (- u))).

(** The Number value of a rational. *)
Definition number_of_Q (q : Q) : JsNum :=
  if Qzerob q then Num 0
  else
    match binary64 (Z.abs (Qnum q)) (Z.pos (Qden q)) with
    | Overflow => Infinity (Qnum q <? 0)
    | Finite m u =>
      if m =? 0 then Num 0
      else Num (Q_of_double (if Qnum q <? 0 then - m else m) u)
    end.

(** *** StringToNumber *)

Definition digit_of (radix : N) (c : ascii) : option N :=
  let n := N_of_ascii c in
  let v := (if (48 <=? n) && (n <=? 57) then Some (n - 48)
            else if (97 <=? n) && (n <=? 102) then Some (n - 87)
            else if (65 <=? n) && (n <=? 70) then Some (n - 55)
            else None)%N in
  match v with
  | Some d => if (d <? radix)%N then Some d else None
  | None => None
  end.

(** The longest run of digits at the head of [l], and the rest. *)
Fixpoint take_digits (radix : N) (l : list ascii) : list N * list ascii :=
  match l with
  | [] => ([], [])
  | c :: r =>
    match digit_of radix c with
    | Some d => let (ds, rest) := take_digits radix r in (d :: ds, rest)
    | None => ([], l)
    end
  end.

Definition value_of (radix : N) (ds : list N) : Z :=
  Z.of_N (fold_left (fun a d => radix * a + d)%N ds 0%N).

Definition take_sign (l : list ascii) : bool * list ascii :=
  match l with
  | "-"%char :: r => (true, r)
  | "+"%char :: r => (false, r)
  | _ => (false, l)
  end.

(** The number of digits of [ds] from its first digit that is not zero. *)
Fixpoint significant (ds : list N) : Z :=
  match ds with
  | [] => 0
  | d :: r => if (d =? 0)%N then significant r else Z.of_nat (length ds)
  end.

(** [digits * 10^e], rounded.  Written as [0.d1d2... * 10^p] with [d1] not
    zero, the value has [p = significant ds + e].  The largest double is
    below [10^309] and the smallest above [10^-324]: beyond [p = 400] the
    value overflows and below [p = -400] it rounds to zero, so the power of
    ten is computed only in between. *)
Definition decimal_value (ds : list N) (e : Z) : JsNum :=
  let n := value_of 10 ds in
  if n =? 0 then Num 0
  else if 400 <? significant ds + e then Infinity false
  else if significant ds + e <? - 400 then Num 0
  else if 0 <=? e then number_of_Q (inject_Z (n * 10 ^ e))
  else number_of_Q (n # Z.to_pos (10 ^ (- e))).

Definition negate (n : JsNum) : JsNum :=
  match n with
  | NaN => NaN
  | Num q => if Qzerob q then Num 0 else Num (- q)
  | Infinity s => Infinity (negb s)
  end.

(** StrUnsignedDecimalLiteral: [Infinity], digits with an optional
    fraction, or a fraction alone; then an optional exponent. *)
Definition unsigned_decimal (l : list ascii) : JsNum :=
  if String.eqb (string_of_list_ascii l) "Infinity" then Infinity false
  else
    let (ip, r1) := take_digits 10 l in
    let '(fp, r2) :=
      match r1 with
      | "."%char :: r => take_digits 10 r
      | _ => ([], r1)
      end in
    match ip, fp with
    | [], [] => NaN
    | _, _ =>
      let e := - Z.of_nat (length fp) in
      match r2 with
      | [] => decimal_value (ip ++ fp) e
      | c :: r3 =>
        if Ascii.eqb c "e" || Ascii.eqb c "E" then
          let (neg, r4) := take_sign r3 in
          match take_digits 10 r4 with
          | ((_ :: _) as ed, []) =>
            decimal_value (ip ++ fp)
              (e + (if neg then - value_of 10 ed else value_of 10 ed))
          | _ => NaN
          end
        else NaN
      end
    end.

(** NonDecimalIntegerLiteral: [0b], [0o], [0x] and at least one digit. *)
Definition non_decimal (radix : N) (l : list ascii) : JsNum :=
  match take_digits radix l with
  | ((_ :: _) as ds, []) => number_of_Q (inject_Z (value_of radix ds))
  | _ => NaN
  end.

Definition string_to_number (s : string) : JsNum :=
  match list_ascii_of_string (trim s) with
  | [] => Num 0
  | "0"%char :: "b"%char :: l | "0"%char :: "B"%char :: l => non_decimal 2 l
  | "0"%char :: "o"%char :: l | "0"%char :: "O"%char :: l => non_decimal 8 l
  | "0"%char :: "x"%char :: l | "0"%char :: "X"%char :: l => non_decimal 16 l
  | l =>
    let (neg, r) := take_sign l in
    if neg then negate (unsigned_decimal r) else unsigned_decimal r
  end.

(** *** Number::toString *)

Definition pow10 (e : Z) : Q :=
  if 0 <=? e then inject_Z (10 ^ e) else 1 # Z.to_pos (10 ^ (- e)).

Definition pow2 (e : Z) : Q :=
  if 0 <=? e then inject_Z (2 ^ e) else 1 # Z.to_pos (2 ^ (- e)).

Definition Qltb' (x y : Q) : bool :=
  match (x ?= y)%Q with Lt => true | _ => false end.
Definition Qleb' (x y : Q) : bool :=
  match (x ?= y)%Q with Gt => false | _ => true end.

(** The [n] with [10^(n-1) <= x < 10^n], searched from an estimate [est]
    that is not above it. *)
Fixpoint magnitude (fuel : nat) (x : Q) (est : Z) : Z :=
  match fuel with
  | O => est
  | S fuel => if Qltb' x (pow10 est) then est else magnitude fuel x (est + 1)
  end.

(** The decimal of [k] digits nearest to [x] among those that round to
    [x]: its digits as an integer [s] and its exponent [n], the value being
    [s * 10^(n - k)]. *)
Definition nearest_decimal (m u n0 k : Z) : option (Z * Z) :=
  let x := (inject_Z m * pow2 u)%Q in
  let below := if (m =? 2 ^ 52) && (- 1074 <? u) then pow2 (u - 2)
               else pow2 (u - 1) in
  let lo := (x - below)%Q in
  let hi := (x + pow2 (u - 1))%Q in
  let inside v := if Z.even m then Qleb' lo v && Qleb' v hi
                  else Qltb' lo v && Qltb' v hi in
  let scale := pow10 (n0 - k) in
  let s := Qfloor (x / scale) in
  let v0 := (inject_Z s * scale)%Q in
  let v1 := (inject_Z (s + 1) * scale)%Q in
  let pick :=
    match inside v0, inside v1 with
    | true, true =>
      match ((x - v0) ?= (v1 - x))%Q with
      | Lt => Some s
      | Gt => Some (s + 1)
      | Eq => Some (if Z.even s then s else s + 1)
      end
    | true, false => Some s
    | false, true => Some (s + 1)
    | false, false => None
    end in
  match pick with
  | Some s' => if s' =? 10 ^ k then Some (10 ^ (k - 1), n0 + 1)
               else Some (s', n0)
  | None => None
  end.

Fixpoint shortest (fuel : nat) (m u n0 k : Z) : Z * Z * Z :=
  match fuel with
  | O => (m, 17, n0)
  | S fuel =>
    match nearest_decimal m u n0 k with
    | Some (s, n) => (s, k, n)
    | None => shortest fuel m u n0 (k + 1)
    end
  end.

Definition decimal (z : Z) : string := NilZero.string_of_uint (N.to_uint (Z.to_N z)).

Fixpoint zeros (n : nat) : string :=
  match n with O => "" | S n => String "0" (zeros n) end.

Definition take_string (n : Z) (s : string) : string :=
  String.substring 0 (Z.to_nat n) s.
Definition drop_string (n : Z) (s : string) : string :=
  String.substring (Z.to_nat n) (String.length s - Z.to_nat n) s.

(** The digits [ds] of [s], [k] of them, and the exponent [n], laid out as
    Number::toString does. *)
Definition layout (ds : string) (k n : Z) : string :=
  if (k <=? n) && (n <=? 21) then ds +:+ zeros (Z.to_nat (n - k))
  else if (0 <? n) && (n <=? 21)
    then take_string n ds +:+ "." +:+ drop_string n ds
  else if (- 6 <? n) && (n <=? 0)
    then "0." +:+ zeros (Z.to_nat (- n)) +:+ ds
  else
    let e := (if 0 <=? n - 1 then "+" else "-") +:+ decimal (Z.abs (n - 1)) in
    if k =? 1 then ds +:+ "e" +:+ e
    else take_string 1 ds +:+ "." +:+ drop_string 1 ds +:+ "e" +:+ e.

Definition positive_to_string (m u : Z) : string :=
  let '(m, u) := if m =? 2 ^ 53 then (2 ^ 52, u + 1) else (m, u) in
  let est := (Z.log2 m + u) * 30103 / 100000 - 1 in
  let n0 := magnitude 4 (inject_Z m * pow2 u)%Q est in
  let '(s, k, n) := shortest 17 m u n0 1 in
  layout (decimal s) k n.

Definition number_to_string (n : JsNum) : string :=
  match n with
  | NaN => "NaN"
  | Infinity s => if s then "-Infinity" else "Infinity"
  | Num q =>
    match binary64 (Z.abs (Qnum q)) (Z.pos (Qden q)) with
    | Overflow => if Qnum q <? 0 then "-Infinity" else "Infinity"
    | Finite m u =>
      if m =? 0 then "0"
      else (if Qnum q <? 0 then "-" else "") +:+ positive_to_string m u
    end
  end.

(** *** Case conversion

    The mappings of the Unicode Character Database, version 14.0, for the
    characters beyond ASCII: the simple mappings of UnicodeData.txt as
    ranges [(first, last, step, image of first)], the mappings of
    SpecialCasing.txt that hold in every language as lists, and the
    characters that are cased or case-ignorable, which decide the form of a
    final sigma. *)
Definition upper_ranges : list (N * N * N * N) :=
  [(181, 181, 1, 924); (224, 246, 1, 192); (248, 254, 1, 216);
   (255, 255, 1, 376); (257, 303, 2, 256); (305, 305, 1, 73);
   (307, 311, 2, 306); (314, 328, 2, 313); (331, 375, 2, 330);
   (378, 382, 2, 377); (383, 383, 1, 83); (384, 384, 1, 579);
   (387, 389, 2, 386); (392, 392, 1, 391); (396, 396, 1, 395);
   (402, 402, 1, 401); (405, 405, 1, 502); (409, 409, 1, 408);
   (410, 410, 1, 573); (414, 414, 1, 544); (417, 421, 2, 416);
   (424, 424, 1, 423); (429, 429, 1, 428); (432, 432, 1, 431);
   (436, 438, 2, 435); (441, 441, 1, 440); (445, 445, 1, 444);
   (447, 447, 1, 503); (453, 453, 1, 452); (454, 454, 1, 452);
   (456, 456, 1, 455); (457, 457, 1, 455); (459, 459, 1, 458);
   (460, 460, 1, 458); (462, 476, 2, 461); (477, 477, 1, 398);
   (479, 495, 2, 478); (498, 498, 1, 497); (499, 499, 1, 497);
   (501, 501, 1, 500); (505, 543, 2, 504); (547, 563, 2, 546);
   (572, 572, 1, 571); (575, 576, 1, 11390); (578, 578, 1, 577);
   (583, 591, 2, 582); (592, 592, 1, 11375); (593, 593, 1, 11373);
   (594, 594, 1, 11376); (595, 595, 1, 385); (596, 596, 1, 390);
   (598, 599, 1, 393); (601, 601, 1, 399); (603, 603, 1, 400);
   (604, 604, 1, 42923); (608, 608, 1, 403); (609, 609, 1, 42924);
   (611, 611, 1, 404); (613, 613, 1, 42893); (614, 614, 1, 42922);
   (616, 616, 1, 407); (617, 617, 1, 406); (618, 618, 1, 42926);
   (619, 619, 1, 11362); (620, 620, 1, 42925); (623, 623, 1, 412);
   (625, 625, 1, 11374); (626, 626, 1, 413); (629, 629, 1, 415);
   (637, 637, 1, 11364); (640, 640, 1, 422); (642, 642, 1, 42949);
   (643, 643, 1, 425); (647, 647, 1, 42929); (648, 648, 1, 430);
   (649, 649, 1, 580); (650, 651, 1, 433); (652, 652, 1, 581);
   (658, 658, 1, 439); (669, 669, 1, 42930); (670, 670, 1, 42928);
   (837, 837, 1, 921); (881, 883, 2, 880); (887, 887, 1, 886);
   (891, 893, 1, 1021); (940, 940, 1, 902); (941, 943, 1, 904);
   (945, 961, 1, 913); (962, 962, 1, 931); (963, 971, 1, 931);
   (972, 972, 1, 908); (973, 974, 1, 910); (976, 976, 1, 914);
   (977, 977, 1, 920); (981, 981, 1, 934); (982, 982, 1, 928);
   (983, 983, 1, 975); (985, 1007, 2, 984); (1008, 1008, 1, 922);
   (1009, 1009, 1, 929); (1010, 1010, 1, 1017); (1011, 1011, 1, 895);
   (1013, 1013, 1, 917); (1016, 1016, 1, 1015); (1019, 1019, 1, 1018);
   (1072, 1103, 1, 1040); (1104, 1119, 1, 1024); (1121, 1153, 2, 1120);
   (1163, 1215, 2, 1162); (1218, 1230, 2, 1217); (1231, 1231, 1, 1216);
   (1233, 1327, 2, 1232); (1377, 1414, 1, 1329); (4304, 4346, 1, 7312);
   (4349, 4351, 1, 7357); (5112, 5117, 1, 5104); (7296, 7296, 1, 1042);
   (7297, 7297, 1, 1044); (7298, 7298, 1, 1054); (7299, 7300, 1, 1057);
   (7301, 7301, 1, 1058); (7302, 7302, 1, 1066); (7303, 7303, 1, 1122);
   (7304, 7304, 1, 42570); (7545, 7545, 1, 42877); (7549, 7549, 1, 11363);
   (7566, 7566, 1, 42950); (7681, 7829, 2, 7680); (7835, 7835, 1, 7776);
   (7841, 7935, 2, 7840); (7936, 7943, 1, 7944); (7952, 7957, 1, 7960);
   (7968, 7975, 1, 7976); (7984, 7991, 1, 7992); (8000, 8005, 1, 8008);
   (8017, 8023, 2, 8025); (8032, 8039, 1, 8040); (8048, 8049, 1, 8122);
   (8050, 8053, 1, 8136); (8054, 8055, 1, 8154); (8056, 8057, 1, 8184);
   (8058, 8059, 1, 8170); (8060, 8061, 1, 8186); (8112, 8113, 1, 8120);
   (8126, 8126, 1, 921); (8144, 8145, 1, 8152); (8160, 8161, 1, 8168);
   (8165, 8165, 1, 8172); (8526, 8526, 1, 8498); (8560, 8575, 1, 8544);
   (8580, 8580, 1, 8579); (9424, 9449, 1, 9398); (11312, 11359, 1, 11264);
   (11361, 11361, 1, 11360); (11365, 11365, 1, 570); (11366, 11366, 1, 574);
   (11368, 11372, 2, 11367); (11379, 11379, 1, 11378); (11382, 11382, 1, 11381);
   (11393, 11491, 2, 11392); (11500, 11502, 2, 11499); (11507, 11507, 1, 11506);
   (11520, 11557, 1, 4256); (11559, 11559, 1, 4295); (11565, 11565, 1, 4301);
   (42561, 42605, 2, 42560); (42625, 42651, 2, 42624); (42787, 42799, 2, 42786);
   (42803, 42863, 2, 42802); (42874, 42876, 2, 42873); (42879, 42887, 2, 42878);
   (42892, 42892, 1, 42891); (42897, 42899, 2, 42896); (42900, 42900, 1, 42948);
   (42903, 42921, 2, 42902); (42933, 42947, 2, 42932); (42952, 42954, 2, 42951);
   (42961, 42961, 1, 42960); (42967, 42969, 2, 42966); (42998, 42998, 1, 42997);
   (43859, 43859, 1, 42931); (43888, 43967, 1, 5024); (65345, 65370, 1, 65313);
   (66600, 66639, 1, 66560); (66776, 66811, 1, 66736); (66967, 66977, 1, 66928);
   (66979, 66993, 1, 66940); (66995, 67001, 1, 66956); (67003, 67004, 1, 66964);
   (68800, 68850, 1, 68736); (71872, 71903, 1, 71840); (93792, 93823, 1, 93760);
   (125218, 125251, 1, 125184)]%N.

Definition upper_special : list (N * list N) :=
  [(223, [83; 83]); (329, [700; 78]); (496, [74; 780]);
   (912, [921; 776; 769]); (944, [933; 776; 769]); (1415, [1333; 1362]);
   (7830, [72; 817]); (7831, [84; 776]); (7832, [87; 778]);
   (7833, [89; 778]); (7834, [65; 702]); (8016, [933; 787]);
   (8018, [933; 787; 768]); (8020, [933; 787; 769]); (8022, [933; 787; 834]);
   (8064, [7944; 921]); (8065, [7945; 921]); (8066, [7946; 921]);
   (8067, [7947; 921]); (8068, [7948; 921]); (8069, [7949; 921]);
   (8070, [7950; 921]); (8071, [7951; 921]); (8072, [7944; 921]);
   (8073, [7945; 921]); (8074, [7946; 921]); (8075, [7947; 921]);
   (8076, [7948; 921]); (8077, [7949; 921]); (8078, [7950; 921]);
   (8079, [7951; 921]); (8080, [7976; 921]); (8081, [7977; 921]);
   (8082, [7978; 921]); (8083, [7979; 921]); (8084, [7980; 921]);
   (8085, [7981; 921]); (8086, [7982; 921]); (8087, [7983; 921]);
   (8088, [7976; 921]); (8089, [7977; 921]); (8090, [7978; 921]);
   (8091, [7979; 921]); (8092, [7980; 921]); (8093, [7981; 921]);
   (8094, [7982; 921]); (8095, [7983; 921]); (8096, [8040; 921]);
   (8097, [8041; 921]); (8098, [8042; 921]); (8099, [8043; 921]);
   (8100, [8044; 921]); (8101, [8045; 921]); (8102, [8046; 921]);
   (8103, [8047; 921]); (8104, [8040; 921]); (8105, [8041; 921]);
   (8106, [8042; 921]); (8107, [8043; 921]); (8108, [8044; 921]);
   (8109, [8045; 921]); (8110, [8046; 921]); (8111, [8047; 921]);
   (8114, [8122; 921]); (8115, [913; 921]); (8116, [902; 921]);
   (8118, [913; 834]); (8119, [913; 834; 921]); (8124, [913; 921]);
   (8130, [8138; 921]); (8131, [919; 921]); (8132, [905; 921]);
   (8134, [919; 834]); (8135, [919; 834; 921]); (8140, [919; 921]);
   (8146, [921; 776; 768]); (8147, [921; 776; 769]); (8150, [921; 834]);
   (8151, [921; 776; 834]); (8162, [933; 776; 768]); (8163, [933; 776; 769]);
   (8164, [929; 787]); (8166, [933; 834]); (8167, [933; 776; 834]);
   (8178, [8186; 921]); (8179, [937; 921]); (8180, [911; 921]);
   (8182, [937; 834]); (8183, [937; 834; 921]); (8188, [937; 921]);
   (64256, [70; 70]); (64257, [70; 73]); (64258, [70; 76]);
   (64259, [70; 70; 73]); (64260, [70; 70; 76]); (64261, [83; 84]);
   (64262, [83; 84]); (64275, [1348; 1350]); (64276, [1348; 1333]);
   (64277, [1348; 1339]); (64278, [1358; 1350]); (64279, [1348; 1341])]%N.

Definition lower_ranges : list (N * N * N * N) :=
  [(192, 214, 1, 224); (216, 222, 1, 248); (256, 302, 2, 257);
   (306, 310, 2, 307); (313, 327, 2, 314); (330, 374, 2, 331);
   (376, 376, 1, 255); (377, 381, 2, 378); (385, 385, 1, 595);
   (386, 388, 2, 387); (390, 390, 1, 596); (391, 391, 1, 392);
   (393, 394, 1, 598); (395, 395, 1, 396); (398, 398, 1, 477);
   (399, 399, 1, 601); (400, 400, 1, 603); (401, 401, 1, 402);
   (403, 403, 1, 608); (404, 404, 1, 611); (406, 406, 1, 617);
   (407, 407, 1, 616); (408, 408, 1, 409); (412, 412, 1, 623);
   (413, 413, 1, 626); (415, 415, 1, 629); (416, 420, 2, 417);
   (422, 422, 1, 640); (423, 423, 1, 424); (425, 425, 1, 643);
   (428, 428, 1, 429); (430, 430, 1, 648); (431, 431, 1, 432);
   (433, 434, 1, 650); (435, 437, 2, 436); (439, 439, 1, 658);
   (440, 440, 1, 441); (444, 444, 1, 445); (452, 452, 1, 454);
   (453, 453, 1, 454); (455, 455, 1, 457); (456, 456, 1, 457);
   (458, 458, 1, 460); (459, 475, 2, 460); (478, 494, 2, 479);
   (497, 497, 1, 499); (498, 500, 2, 499); (502, 502, 1, 405);
   (503, 503, 1, 447); (504, 542, 2, 505); (544, 544, 1, 414);
   (546, 562, 2, 547); (570, 570, 1, 11365); (571, 571, 1, 572);
   (573, 573, 1, 410); (574, 574, 1, 11366); (577, 577, 1, 578);
   (579, 579, 1, 384); (580, 580, 1, 649); (581, 581, 1, 652);
   (582, 590, 2, 583); (880, 882, 2, 881); (886, 886, 1, 887);
   (895, 895, 1, 1011); (902, 902, 1, 940); (904, 906, 1, 941);
   (908, 908, 1, 972); (910, 911, 1, 973); (913, 929, 1, 945);
   (931, 939, 1, 963); (975, 975, 1, 983); (984, 1006, 2, 985);
   (1012, 1012, 1, 952); (1015, 1015, 1, 1016); (1017, 1017, 1, 1010);
   (1018, 1018, 1, 1019); (1021, 1023, 1, 891); (1024, 1039, 1, 1104);
   (1040, 1071, 1, 1072); (1120, 1152, 2, 1121); (1162, 1214, 2, 1163);
   (1216, 1216, 1, 1231); (1217, 1229, 2, 1218); (1232, 1326, 2, 1233);
   (1329, 1366, 1, 1377); (4256, 4293, 1, 11520); (4295, 4295, 1, 11559);
   (4301, 4301, 1, 11565); (5024, 5103, 1, 43888); (5104, 5109, 1, 5112);
   (7312, 7354, 1, 4304); (7357, 7359, 1, 4349); (7680, 7828, 2, 7681);
   (7838, 7838, 1, 223); (7840, 7934, 2, 7841); (7944, 7951, 1, 7936);
   (7960, 7965, 1, 7952); (7976, 7983, 1, 7968); (7992, 7999, 1, 7984);
   (8008, 8013, 1, 8000); (8025, 8031, 2, 8017); (8040, 8047, 1, 8032);
   (8072, 8079, 1, 8064); (8088, 8095, 1, 8080); (8104, 8111, 1, 8096);
   (8120, 8121, 1, 8112); (8122, 8123, 1, 8048); (8124, 8124, 1, 8115);
   (8136, 8139, 1, 8050); (8140, 8140, 1, 8131); (8152, 8153, 1, 8144);
   (8154, 8155, 1, 8054); (8168, 8169, 1, 8160); (8170, 8171, 1, 8058);
   (8172, 8172, 1, 8165); (8184, 8185, 1, 8056); (8186, 8187, 1, 8060);
   (8188, 8188, 1, 8179); (8486, 8486, 1, 969); (8490, 8490, 1, 107);
   (8491, 8491, 1, 229); (8498, 8498, 1, 8526); (8544, 8559, 1, 8560);
   (8579, 8579, 1, 8580); (9398, 9423, 1, 9424); (11264, 11311, 1, 11312);
   (11360, 11360, 1, 11361); (11362, 11362, 1, 619); (11363, 11363, 1, 7549);
   (11364, 11364, 1, 637); (11367, 11371, 2, 11368); (11373, 11373, 1, 593);
   (11374, 11374, 1, 625); (11375, 11375, 1, 592); (11376, 11376, 1, 594);
   (11378, 11378, 1, 11379); (11381, 11381, 1, 11382); (11390, 11391, 1, 575);
   (11392, 11490, 2, 11393); (11499, 11501, 2, 11500); (11506, 11506, 1, 11507);
   (42560, 42604, 2, 42561); (42624, 42650, 2, 42625); (42786, 42798, 2, 42787);
   (42802, 42862, 2, 42803); (42873, 42875, 2, 42874); (42877, 42877, 1, 7545);
   (42878, 42886, 2, 42879); (42891, 42891, 1, 42892); (42893, 42893, 1, 613);
   (42896, 42898, 2, 42897); (42902, 42920, 2, 42903); (42922, 42922, 1, 614);
   (42923, 42923, 1, 604); (42924, 42924, 1, 609); (42925, 42925, 1, 620);
   (42926, 42926, 1, 618); (42928, 42928, 1, 670); (42929, 42929, 1, 647);
   (42930, 42930, 1, 669); (42931, 42931, 1, 43859); (42932, 42946, 2, 42933);
   (42948, 42948, 1, 42900); (42949, 42949, 1, 642); (42950, 42950, 1, 7566);
   (42951, 42953, 2, 42952); (42960, 42960, 1, 42961); (42966, 42968, 2, 42967);
   (42997, 42997, 1, 42998); (65313, 65338, 1, 65345); (66560, 66599, 1, 66600);
   (66736, 66771, 1, 66776); (66928, 66938, 1, 66967); (66940, 66954, 1, 66979);
   (66956, 66962, 1, 66995); (66964, 66965, 1, 67003); (68736, 68786, 1, 68800);
   (71840, 71871, 1, 71872); (93760, 93791, 1, 93792); (125184, 125217, 1, 125218)]%N.

Definition lower_special : list (N * list N) :=
  [(304, [105; 775])]%N.

Definition cased_ranges : list (N * N) :=
  [(65, 90); (97, 122); (170, 170); (181, 181); (186, 186);
   (192, 214); (216, 246); (248, 442); (444, 447); (452, 659);
   (661, 687); (880, 883); (886, 887); (891, 893); (895, 895);
   (902, 902); (904, 906); (908, 908); (910, 929); (931, 1013);
   (1015, 1153); (1162, 1327); (1329, 1366); (1376, 1416); (4256, 4293);
   (4295, 4295); (4301, 4301); (4304, 4346); (4349, 4351); (5024, 5109);
   (5112, 5117); (7296, 7304); (7312, 7354); (7357, 7359); (7424, 7467);
   (7531, 7543); (7545, 7578); (7680, 7957); (7960, 7965); (7968, 8005);
   (8008, 8013); (8016, 8023); (8025, 8025); (8027, 8027); (8029, 8029);
   (8031, 8061); (8064, 8116); (8118, 8124); (8126, 8126); (8130, 8132);
   (8134, 8140); (8144, 8147); (8150, 8155); (8160, 8172); (8178, 8180);
   (8182, 8188); (8450, 8450); (8455, 8455); (8458, 8467); (8469, 8469);
   (8473, 8477); (8484, 8484); (8486, 8486); (8488, 8488); (8490, 8493);
   (8495, 8500); (8505, 8505); (8508, 8511); (8517, 8521); (8526, 8526);
   (8544, 8575); (8579, 8580); (9398, 9449); (11264, 11387); (11390, 11492);
   (11499, 11502); (11506, 11507); (11520, 11557); (11559, 11559); (11565, 11565);
   (42560, 42605); (42624, 42651); (42786, 42863); (42865, 42887); (42891, 42894);
   (42896, 42954); (42960, 42961); (42963, 42963); (42965, 42969); (42997, 42998);
   (43002, 43002); (43824, 43866); (43872, 43880); (43888, 43967); (64256, 64262);
   (64275, 64279); (65313, 65338); (65345, 65370); (66560, 66639); (66736, 66771);
   (66776, 66811); (66928, 66938); (66940, 66954); (66956, 66962); (66964, 66965);
   (66967, 66977); (66979, 66993); (66995, 67001); (67003, 67004); (68736, 68786);
   (68800, 68850); (71840, 71903); (93760, 93823); (119808, 119892); (119894, 119964);
   (119966, 119967); (119970, 119970); (119973, 119974); (119977, 119980); (119982, 119993);
   (119995, 119995); (119997, 120003); (120005, 120069); (120071, 120074); (120077, 120084);
   (120086, 120092); (120094, 120121); (120123, 120126); (120128, 120132); (120134, 120134);
   (120138, 120144); (120146, 120485); (120488, 120512); (120514, 120538); (120540, 120570);
   (120572, 120596); (120598, 120628); (120630, 120654); (120656, 120686); (120688, 120712);
   (120714, 120744); (120746, 120770); (120772, 120779); (122624, 122633); (122635, 122654);
   (125184, 125251); (127280, 127305); (127312, 127337); (127344, 127369)]%N.

Definition case_ignorable_ranges : list (N * N) :=
  [(39, 39); (46, 46); (58, 58); (94, 94); (96, 96);
   (168, 168); (173, 173); (175, 175); (180, 180); (183, 184);
   (688, 879); (884, 885); (890, 890); (900, 901); (903, 903);
   (1155, 1161); (1369, 1369); (1375, 1375); (1425, 1469); (1471, 1471);
   (1473, 1474); (1476, 1477); (1479, 1479); (1524, 1524); (1536, 1541);
   (1552, 1562); (1564, 1564); (1600, 1600); (1611, 1631); (1648, 1648);
   (1750, 1757); (1759, 1768); (1770, 1773); (1807, 1807); (1809, 1809);
   (1840, 1866); (1958, 1968); (2027, 2037); (2042, 2042); (2045, 2045);
   (2070, 2093); (2137, 2139); (2184, 2184); (2192, 2193); (2200, 2207);
   (2249, 2306); (2362, 2362); (2364, 2364); (2369, 2376); (2381, 2381);
   (2385, 2391); (2402, 2403); (2417, 2417); (2433, 2433); (2492, 2492);
   (2497, 2500); (2509, 2509); (2530, 2531); (2558, 2558); (2561, 2562);
   (2620, 2620); (2625, 2626); (2631, 2632); (2635, 2637); (2641, 2641);
   (2672, 2673); (2677, 2677); (2689, 2690); (2748, 2748); (2753, 2757);
   (2759, 2760); (2765, 2765); (2786, 2787); (2810, 2815); (2817, 2817);
   (2876, 2876); (2879, 2879); (2881, 2884); (2893, 2893); (2901, 2902);
   (2914, 2915); (2946, 2946); (3008, 3008); (3021, 3021); (3072, 3072);
   (3076, 3076); (3132, 3132); (3134, 3136); (3142, 3144); (3146, 3149);
   (3157, 3158); (3170, 3171); (3201, 3201); (3260, 3260); (3263, 3263);
   (3270, 3270); (3276, 3277); (3298, 3299); (3328, 3329); (3387, 3388);
   (3393, 3396); (3405, 3405); (3426, 3427); (3457, 3457); (3530, 3530);
   (3538, 3540); (3542, 3542); (3633, 3633); (3636, 3642); (3654, 3662);
   (3761, 3761); (3764, 3772); (3782, 3782); (3784, 3789); (3864, 3865);
   (3893, 3893); (3895, 3895); (3897, 3897); (3953, 3966); (3968, 3972);
   (3974, 3975); (3981, 3991); (3993, 4028); (4038, 4038); (4141, 4144);
   (4146, 4151); (4153, 4154); (4157, 4158); (4184, 4185); (4190, 4192);
   (4209, 4212); (4226, 4226); (4229, 4230); (4237, 4237); (4253, 4253);
   (4348, 4348); (4957, 4959); (5906, 5908); (5938, 5939); (5970, 5971);
   (6002, 6003); (6068, 6069); (6071, 6077); (6086, 6086); (6089, 6099);
   (6103, 6103); (6109, 6109); (6155, 6159); (6211, 6211); (6277, 6278);
   (6313, 6313); (6432, 6434); (6439, 6440); (6450, 6450); (6457, 6459);
   (6679, 6680); (6683, 6683); (6742, 6742); (6744, 6750); (6752, 6752);
   (6754, 6754); (6757, 6764); (6771, 6780); (6783, 6783); (6823, 6823);
   (6832, 6862); (6912, 6915); (6964, 6964); (6966, 6970); (6972, 6972);
   (6978, 6978); (7019, 7027); (7040, 7041); (7074, 7077); (7080, 7081);
   (7083, 7085); (7142, 7142); (7144, 7145); (7149, 7149); (7151, 7153);
   (7212, 7219); (7222, 7223); (7288, 7293); (7376, 7378); (7380, 7392);
   (7394, 7400); (7405, 7405); (7412, 7412); (7416, 7417); (7468, 7530);
   (7544, 7544); (7579, 7679); (8125, 8125); (8127, 8129); (8141, 8143);
   (8157, 8159); (8173, 8175); (8189, 8190); (8203, 8207); (8216, 8217);
   (8228, 8228); (8231, 8231); (8234, 8238); (8288, 8292); (8294, 8303);
   (8305, 8305); (8319, 8319); (8336, 8348); (8400, 8432); (11388, 11389);
   (11503, 11505); (11631, 11631); (11647, 11647); (11744, 11775); (11823, 11823);
   (12293, 12293); (12330, 12333); (12337, 12341); (12347, 12347); (12441, 12446);
   (12540, 12542); (40981, 40981); (42232, 42237); (42508, 42508); (42607, 42610);
   (42612, 42621); (42623, 42623); (42652, 42655); (42736, 42737); (42752, 42785);
   (42864, 42864); (42888, 42890); (42994, 42996); (43000, 43001); (43010, 43010);
   (43014, 43014); (43019, 43019); (43045, 43046); (43052, 43052); (43204, 43205);
   (43232, 43249); (43263, 43263); (43302, 43309); (43335, 43345); (43392, 43394);
   (43443, 43443); (43446, 43449); (43452, 43453); (43471, 43471); (43493, 43494);
   (43561, 43566); (43569, 43570); (43573, 43574); (43587, 43587); (43596, 43596);
   (43632, 43632); (43644, 43644); (43696, 43696); (43698, 43700); (43703, 43704);
   (43710, 43711); (43713, 43713); (43741, 43741); (43756, 43757); (43763, 43764);
   (43766, 43766); (43867, 43871); (43881, 43883); (44005, 44005); (44008, 44008);
   (44013, 44013); (64286, 64286); (64434, 64450); (65024, 65039); (65043, 65043);
   (65056, 65071); (65106, 65106); (65109, 65109); (65279, 65279); (65287, 65287);
   (65294, 65294); (65306, 65306); (65342, 65342); (65344, 65344); (65392, 65392);
   (65438, 65439); (65507, 65507); (65529, 65531); (66045, 66045); (66272, 66272);
   (66422, 66426); (67456, 67461); (67463, 67504); (67506, 67514); (68097, 68099);
   (68101, 68102); (68108, 68111); (68152, 68154); (68159, 68159); (68325, 68326);
   (68900, 68903); (69291, 69292); (69446, 69456); (69506, 69509); (69633, 69633);
   (69688, 69702); (69744, 69744); (69747, 69748); (69759, 69761); (69811, 69814);
   (69817, 69818); (69821, 69821); (69826, 69826); (69837, 69837); (69888, 69890);
   (69927, 69931); (69933, 69940); (70003, 70003); (70016, 70017); (70070, 70078);
   (70089, 70092); (70095, 70095); (70191, 70193); (70196, 70196); (70198, 70199);
   (70206, 70206); (70367, 70367); (70371, 70378); (70400, 70401); (70459, 70460);
   (70464, 70464); (70502, 70508); (70512, 70516); (70712, 70719); (70722, 70724);
   (70726, 70726); (70750, 70750); (70835, 70840); (70842, 70842); (70847, 70848);
   (70850, 70851); (71090, 71093); (71100, 71101); (71103, 71104); (71132, 71133);
   (71219, 71226); (71229, 71229); (71231, 71232); (71339, 71339); (71341, 71341);
   (71344, 71349); (71351, 71351); (71453, 71455); (71458, 71461); (71463, 71467);
   (71727, 71735); (71737, 71738); (71995, 71996); (71998, 71998); (72003, 72003);
   (72148, 72151); (72154, 72155); (72160, 72160); (72193, 72202); (72243, 72248);
   (72251, 72254); (72263, 72263); (72273, 72278); (72281, 72283); (72330, 72342);
   (72344, 72345); (72752, 72758); (72760, 72765); (72767, 72767); (72850, 72871);
   (72874, 72880); (72882, 72883); (72885, 72886); (73009, 73014); (73018, 73018);
   (73020, 73021); (73023, 73029); (73031, 73031); (73104, 73105); (73109, 73109);
   (73111, 73111); (73459, 73460); (78896, 78904); (92912, 92916); (92976, 92982);
   (92992, 92995); (94031, 94031); (94095, 94111); (94176, 94177); (94179, 94180);
   (110576, 110579); (110581, 110587); (110589, 110590); (113821, 113822); (113824, 113827);
   (118528, 118573); (118576, 118598); (119143, 119145); (119155, 119170); (119173, 119179);
   (119210, 119213); (119362, 119364); (121344, 121398); (121403, 121452); (121461, 121461);
   (121476, 121476); (121499, 121503); (121505, 121519); (122880, 122886); (122888, 122904);
   (122907, 122913); (122915, 122916); (122918, 122922); (123184, 123197); (123566, 123566);
   (123628, 123631); (125136, 125142); (125252, 125259); (127995, 127999); (917505, 917505);
   (917536, 917631); (917760, 917999)]%N.

Definition in_range (c : N) (r : N * N * N * N) : bool :=
  let '(a, b, step, _) := r in
  ((a <=? c) && (c <=? b) && ((c - a) mod step =? 0))%N.

Definition mapping (ranges : list (N * N * N * N))
    (special : list (N * list N)) (c : N) : list N :=
  match find (fun e => (fst e =? c)%N) special with
  | Some e => snd e
  | None =>
    match find (in_range c) ranges with
    | Some (a, _, _, image) => [(image + (c - a))%N]
    | None => [c]
    end
  end.

Definition ascii_upper_cp (c : N) : N :=
  (if (97 <=? c) && (c <=? 122) then c - 32 else c)%N.
Definition ascii_lower_cp (c : N) : N :=
  (if (65 <=? c) && (c <=? 90) then c + 32 else c)%N.

Definition uppercase_mapping (c : N) : list N :=
  if (c <? 128)%N then [ascii_upper_cp c]
  else mapping upper_ranges upper_special c.

Definition lowercase_mapping (c : N) : list N :=
  if (c <? 128)%N then [ascii_lower_cp c]
  else mapping lower_ranges lower_special c.

Definition in_ranges (l : list (N * N)) (c : N) : bool :=
  existsb (fun r => (fst r <=? c) && (c <=? snd r))%N l.

(** Whether the first character of [l] that is not case-ignorable is
    cased. *)
Fixpoint cased_first (l : list N) : bool :=
  match l with
  | [] => false
  | c :: r =>
    if in_ranges case_ignorable_ranges c then cased_first r
    else in_ranges cased_ranges c
  end.

(** Lower case, character by character; a capital sigma that ends a word
    (a cased letter before it, none after it) becomes the final sigma.
    [before] holds the characters already passed, the nearest first. *)
Fixpoint lower_from (before l : list N) : list N :=
  match l with
  | [] => []
  | c :: r =>
    (if (c =? 931)%N
     then if cased_first before && negb (cased_first r) then [962%N]
          else [963%N]
     else lowercase_mapping c)
    ++ lower_from (c :: before) r
  end.

Definition to_upper_case (s : string) : string :=
  string_of_code_points (flat_map uppercase_mapping (code_points s)).

Definition to_lower_case (s : string) : string :=
  string_of_code_points (lower_from [] (code_points s)).

End Ecma.

#[global] Instance ecma_host : Host :=
  {| StringToNumber := Ecma.string_to_number;
     NumberToString := Ecma.number_to_string;
     UnicodeUpperCase := Ecma.to_upper_case;
     UnicodeLowerCase := Ecma.to_lower_case |}.

(** A clock that reads [t0] for its first [n] readings and [t1] from then
    on. *)
Definition jump_clock (n : nat) (t0 t1 : Z) : Clock :=
  {| readings := fun i => if (i <? n)%nat then t0 else t1; cursor := 0 |}.

(** Whether the empty-order guard of the copy that has it fires. *)
Definition empty_guard_fires (v : Variant) (arg : OrderArg) : bool :=
  match v with
  | GateJs => false
  | GuardedCopy => empty_or_missing arg
  end.

Definition settled_reason (s : Settled) : option string :=
  match s with
  | Resolved d => Some (reason_code d)
  | Rejected_TypeError => None
  end.

(** A gate built at [c]'s first readings, then two evaluations. *)
Definition build_then_evaluate_twice `{Host} (v : Variant)
    (cfg : option Config) (arg : OrderArg) : Clk (Settled * Settled) :=
  g <- new_PolicyGate cfg ;;
  r1 <- canExecute_in v g arg ;;
  r2 <- canExecute_in v (snd r1) arg ;;
  ret (fst r1, fst r2).

Definition config_of (kill rate cap stale : JsVal) : Config :=
  {| kill_switch := kill; rate_per_sec := rate;
     max_order_usdt := cap; max_staleness_ms := stale |}.

(** A gate built at [c]'s first readings, one evaluation, a replacement of
    the configuration, one more evaluation. *)
Definition replace_between `{Host} (v : Variant) (cfg1 cfg2 : option Config)
    (arg : OrderArg) : Clk (Settled * Settled) :=
  g <- new_PolicyGate cfg1 ;;
  r1 <- canExecute_in v g arg ;;
  g' <- updateConfig (snd r1) cfg2 ;;
  r2 <- canExecute_in v g' arg ;;
  ret (fst r1, fst r2).

(** A gate built at [c]'s first readings, then one evaluation. *)
Definition build_then_evaluate `{Host} (v : Variant) (cfg : option Config)
    (arg : OrderArg) : Clk (Settled * PolicyGate) :=
  g <- new_PolicyGate cfg ;;
  canExecute_in v g arg.

(** A gate whose rate limiter has used up the window of second [s]. *)
Definition exhausted_gate (s : Z) : PolicyGate :=
  {| config := empty_config; version := pg 0; symbolHalt := ∅;
     globalHalt := false; safeMode := false;
     rateLimiter := {| maxPerSec := Num 5; bucket := 5; ts := s |};
     lastSnapshotAt := 0; startedAt := 0 |}.

Definition buy_order : Order :=
  {[ "symbol" := JString "BTCUSDT"; "side" := JString "buy";
     "notional" := JNumber (num_of_Z 500) ]}.

Definition close_order : Order :=
  {[ "symbol" := JString "BTCUSDT"; "side" := JString "sell";
     "reduceOnly" := JBool true ]}.

(** ** More drivers *)

(** The order record [canExecute] works on: the default parameter turns a
    missing argument into [{}]. *)
Definition order_of (arg : OrderArg) : Order :=
  match arg with
  | ArgObject order => order
  | ArgUndefined | ArgNull => ∅
  end.

Definition big_order : Order :=
  {[ "symbol" := JString "ETHUSDT"; "side" := JString "buy";
     "notional" := JNumber (num_of_Z 5000) ]}.

(** A gate with the given configuration and nothing halted. *)
Definition idle_gate (cfg : Config) : PolicyGate :=
  {| config := cfg; version := pg 0; symbolHalt := ∅;
     globalHalt := false; safeMode := false;
     rateLimiter := {| maxPerSec := Num 5; bucket := 0; ts := 0 |};
     lastSnapshotAt := 0; startedAt := 0 |}.

(** The decision for the order number [i] (from 0) of a second, on a gate
    of version [ver] with ceiling [N] and nothing else in the way.  Each
    evaluation reads the clock three times, and the decision is stamped
    with the third reading. *)
Definition budget_decision (N : Z) (ver : Version) (c : Clock) (i : nat)
    (o : Order) : Settled :=
  let stamp := reading c (3 * i + 2) in
  Resolved
    (if Z.of_nat i <? N
     then Allowed (if _isCloseOnly o then "CLOSE_ONLY" else "PASS") ver
                  (stamp + 3000)
     else Denied "RATE_LIMIT" "Too many requests per second" ver stamp).

(** A gate with the kill switch off, no halt, no safe mode, no staleness
    limit and no cap: the rate limiter alone decides. *)
Definition unrestricted (g : PolicyGate) : Prop :=
  truthy (kill_switch (config g)) = false
  /\ truthy (max_staleness_ms (config g)) = false
  /\ truthy (max_order_usdt (config g)) = false
  /\ globalHalt g = false
  /\ safeMode g = false
  /\ symbolHalt g = ∅.

(** The counter of the limiter as a call in second [s] will see it. *)
Definition bucket_in (s : Z) (r : RateLimiter) : Z :=
  if ts r =? s then bucket r else 0.

(** ** The trade server (trade.js, lines 20-282)

    The configuration object of the server is the one handed to the gate:
    [policy] holds the fields the gate reads, the other fields are the
    server's.  The whitelist is an array of strings, or missing.  The
    environment maps a variable to its string; a variable that is not set is
    absent. *)

Record ServerConfig := {
  policy : Config;
  trade_port : JsVal;
  dry_run : JsVal;
  whitelist : option (list string);
  api_key : JsVal;
  api_secret : JsVal;
  passphrase : JsVal
}.

(** [s.split(",")]. *)
Fixpoint split_comma (s : string) : list string :=
  match s with
  | EmptyString => [EmptyString]
  | String c r =>
    if Ascii.eqb c "," then EmptyString :: split_comma r
    else match split_comma r with
         | h :: t => String c h :: t
         | [] => [String c EmptyString]
         end
  end.

(** [process.env.K] when it is truthy, a string that is set and not empty. *)
Definition env_set (env : gmap string string) (k : string) : option string :=
  match env !! k with
  | Some s => if str_truthy s then Some s else None
  | None => None
  end.

(** [String(s).toLowerCase() === "true"] *)
Definition env_flag `{Host} (s : string) : JsVal :=
  JBool (String.eqb (toLowerCase s) "true").

Section TradeServer.
Context `{Host}.

(** [loadConfig()], lines 22-35, from the parsed file [base] on. *)
Definition loadConfig (base : ServerConfig) (env : gmap string string)
  : ServerConfig :=
  {| policy :=
       {| kill_switch :=
            match env_set env "KILL_SWITCH" with
            | Some s => env_flag s
            | None => kill_switch (policy base)
            end;
          rate_per_sec := rate_per_sec (policy base);
          max_order_usdt := max_order_usdt (policy base);
          max_staleness_ms := max_staleness_ms (policy base) |};
     trade_port :=
       match env_set env "TRADE_PORT" with
       | Some s => JNumber (ToNumber (JString s))
       | None => trade_port base
       end;
     dry_run :=
       match env_set env "DRY_RUN" with
       | Some s => env_flag s
       | None => dry_run base
       end;
     whitelist :=
       match env_set env "WHITELIST" with
       | Some s => Some (map trim (split_comma s))
       | None => whitelist base
       end;
     api_key :=
       match env_set env "API_KEY" with
       | Some s => JString s
       | None => api_key base
       end;
     api_secret :=
       match env_set env "API_SECRET" with
       | Some s => JString s
       | None => api_secret base
       end;
     passphrase :=
       match env_set env "PASSPHRASE" with
       | Some s => JString s
       | None => passphrase base
       end |}.

(** The module state of trade.js: [config] (line 36), [gate] (line 52) and
    [lastActivityAt] (line 53). *)
Record Server := {
  server_config : ServerConfig;
  server_gate : PolicyGate;
  lastActivityAt : Z
}.

Definition boot (base : ServerConfig) (env : gmap string string) : Clk Server :=
  let config := loadConfig base env in
  gate <- new_PolicyGate (Some (policy config)) ;;
  t <- Date_now ;;
  ret {| server_config := config; server_gate := gate; lastActivityAt := t |}.

(** What a route handler answers.  [CallExchange] stands for the point
    where the handler hands [bodyObj] to [bitgetPrivateCall]; what comes
    back from the network is not modelled. *)
Inductive Response :=
| BadRequest (error : string)
| Blocked (decision : Decision)
| DryRun (body : gmap string JsVal)
| CallExchange (pathOnly : string) (bodyObj : gmap string JsVal)
| ServerError (status : Z).

(** [a ?? b] *)
Definition nullish_or (a b : JsVal) : JsVal :=
  match a with
  | JUndefined | JNull => b
  | _ => a
  end.

(** [quantity ?? size ?? quote] *)
Definition normalizedSize (body : gmap string JsVal) : JsVal :=
  nullish_or (nullish_or (prop body "quantity") (prop body "size"))
             (prop body "quote").

(** [a <= b] on numbers. *)
Definition num_le (a b : JsNum) : bool :=
  match a, b with
  | Num x, Num y => Qleb x y
  | Num _, Infinity false => true
  | Infinity _, Infinity false => true
  | Infinity true, Num _ => true
  | Infinity true, Infinity true => true
  | _, _ => false
  end.

(** [!symbol || !side] *)
Definition missing_symbol_or_side (body : gmap string JsVal) : bool :=
  negb (truthy (prop body "symbol")) || negb (truthy (prop body "side")).

(** [normalizedSize === undefined || normalizedSize === null ||
    Number(normalizedSize) <= 0] *)
Definition bad_size (n : JsVal) : bool :=
  match n with
  | JUndefined | JNull => true
  | _ => num_le (ToNumber n) (Num 0)
  end.

(** [decision.reason_code || "pass"] *)
Definition gate_result (d : Decision) : JsVal :=
  js_or (JString (reason_code d)) (JString "pass").

(** The order the mix route and the spot route show to the gate. *)
Definition mix_order (body : gmap string JsVal) : Order :=
  {[ "symbol" := prop body "symbol";
     "side" := prop body "side";
     "notional" := normalizedSize body;
     "reduceOnly" := prop body "reduceOnly";
     "intent" := prop body "intent" ]}.

Definition spot_order (body : gmap string JsVal) : Order :=
  {[ "symbol" := prop body "symbol";
     "side" := prop body "side";
     "notional" := normalizedSize body ]}.

(** [gate.lastSnapshotAt = Date.now(); lastActivityAt = Date.now();] *)
Definition touch (srv : Server) : Clk Server :=
  t1 <- Date_now ;;
  t2 <- Date_now ;;
  ret {| server_config := server_config srv;
         server_gate := set_lastSnapshotAt t1 (server_gate srv);
         lastActivityAt := t2 |}.

Definition with_gate (g : PolicyGate) (srv : Server) : Server :=
  {| server_config := server_config srv;
     server_gate := g;
     lastActivityAt := lastActivityAt srv |}.

(** The answer of the mix route once the gate has decided, lines 164-205. *)
Definition mix_reply (config : ServerConfig) (body : gmap string JsVal)
    (decision : Decision) : Response :=
  let _productType := js_or (prop body "productType") (JString "USDT-FUTURES") in
  let _marginMode := js_or (prop body "marginMode") (JString "crossed") in
  if negb (decision_allow decision) then Blocked decision
  else if truthy (prop body "dryRun") || truthy (dry_run config) then
    DryRun
      {[ "ok" := JBool true;
         "dryRun" := JBool true;
         "gate_result" := gate_result decision;
         "symbol" := prop body "symbol";
         "side" := prop body "side";
         "productType" := _productType;
         "marginMode" := _marginMode;
         "size" := JNumber (ToNumber (normalizedSize body));
         "reduceOnly" := JBool (truthy (prop body "reduceOnly"));
         "intent" := js_or (prop body "intent") (JString "open") ]}
  else
    CallExchange "/api/v2/mix/order/place-order"
      {[ "symbol" := prop body "symbol";
         "productType" := _productType;
         "marginMode" := _marginMode;
         "marginCoin" := JString "USDT";
         "size" := JNumber (ToNumber (normalizedSize body));
         "side" := prop body "side";
         "orderType" := JString "market";
         "tradeSide" :=
           JString (if is_string (prop body "intent") "close"
                    then "close" else "open") ]}.

(** [POST /mix/market-order], lines 114-212; [None] is a request without a
    body.  A rejection of [canExecute] lands in the [catch], which answers
    with [err.status || 500]. *)
Definition mix_market_order (srv : Server)
    (req_body : option (gmap string JsVal)) : Clk (Response * Server) :=
  let body := default ∅ req_body in
  if missing_symbol_or_side body then
    ret (BadRequest "symbol/side required", srv)
  else if bad_size (normalizedSize body) then
    ret (BadRequest "quantity/size/quote required (>0)", srv)
  else
  srv <- touch srv ;;
  r <- canExecute (server_gate srv) (ArgObject (mix_order body)) ;;
  let srv := with_gate (snd r) srv in
  match fst r with
  | Rejected_TypeError => ret (ServerError 500, srv)
  | Resolved decision => ret (mix_reply (server_config srv) body decision, srv)
  end.

(** The answer of the spot route once the gate has decided, lines 241-271. *)
Definition spot_reply (config : ServerConfig) (body : gmap string JsVal)
    (decision : Decision) : Response :=
  if negb (decision_allow decision) then Blocked decision
  else if truthy (prop body "dryRun") || truthy (dry_run config) then
    DryRun
      {[ "ok" := JBool true;
         "dryRun" := JBool true;
         "gate_result" := gate_result decision;
         "symbol" := prop body "symbol";
         "side" := prop body "side";
         "size" := JNumber (ToNumber (normalizedSize body)) ]}
  else
    CallExchange "/api/v2/spot/order/place-order"
      {[ "symbol" := prop body "symbol";
         "side" := prop body "side";
         "size" := JNumber (ToNumber (normalizedSize body));
         "orderType" := JString "market" ]}.

(** [POST /spot/market-order], lines 215-278: the timestamps are refreshed
    before the size is checked. *)
Definition spot_market_order (srv : Server)
    (req_body : option (gmap string JsVal)) : Clk (Response * Server) :=
  let body := default ∅ req_body in
  if missing_symbol_or_side body then
    ret (BadRequest "symbol/side required", srv)
  else
  srv <- touch srv ;;
  if bad_size (normalizedSize body) then
    ret (BadRequest "quantity/size/quote required (>0)", srv)
  else
  r <- canExecute (server_gate srv) (ArgObject (spot_order body)) ;;
  let srv := with_gate (snd r) srv in
  match fst r with
  | Rejected_TypeError => ret (ServerError 500, srv)
  | Resolved decision => ret (spot_reply (server_config srv) body decision, srv)
  end.
End TradeServer.

(** The two routes. *)
Inductive Route := Mix | Spot.

Definition route_order (r : Route) (body : gmap string JsVal) : Order :=
  match r with Mix => mix_order body | Spot => spot_order body end.

Definition route_reply `{Host} (r : Route)
  : ServerConfig -> gmap string JsVal -> Decision -> Response :=
  match r with Mix => mix_reply | Spot => spot_reply end.

Definition handle `{Host} (r : Route)
  : Server -> option (gmap string JsVal) -> Clk (Response * Server) :=
  match r with Mix => mix_market_order | Spot => spot_market_order end.

(** Inputs for the routes. *)
Definition plain_server_config : ServerConfig :=
  {| policy := empty_config; trade_port := JUndefined; dry_run := JUndefined;
     whitelist := None; api_key := JUndefined; api_secret := JUndefined;
     passphrase := JUndefined |}.

Definition server_of (g : PolicyGate) : Server :=
  {| server_config := plain_server_config; server_gate := g;
     lastActivityAt := 0 |}.

Definition touched (srv : Server) (c : Clock) : Server :=
  {| server_config := server_config srv;
     server_gate := set_lastSnapshotAt (reading c 0) (server_gate srv);
     lastActivityAt := reading c 1 |}.

(** Whether the request is one the gate takes for close-only when it comes
    through the mix route. *)
Definition asks_to_close (body : gmap string JsVal) : bool :=
  truthy (prop body "reduceOnly") || is_string (prop body "intent") "close".

Definition is_exchange_call (r : Response) : bool :=
  match r with CallExchange _ _ => true | _ => false end.

Definition is_order_through (r : Response) : bool :=
  match r with CallExchange _ _ | DryRun _ => true | _ => false end.

Definition is_nullish (v : JsVal) : bool :=
  match v with JUndefined | JNull => true | _ => false end.

Definition with_dry_run (v : JsVal) (srv : Server) : Server :=
  {| server_config :=
       {| policy := policy (server_config srv);
          trade_port := trade_port (server_config srv);
          dry_run := v;
          whitelist := whitelist (server_config srv);
          api_key := api_key (server_config srv);
          api_secret := api_secret (server_config srv);
          passphrase := passphrase (server_config srv) |};
     server_gate := server_gate srv;
     lastActivityAt := lastActivityAt srv |}.

(** The message of a 400 answer. *)
Definition bad_request_message (body : gmap string JsVal) : string :=
  if missing_symbol_or_side body then "symbol/side required"
  else "quantity/size/quote required (>0)".

Definition reduce_only_request : gmap string JsVal :=
  {[ "symbol" := JString "BTCUSDT"; "side" := JString "sell";
     "quantity" := JNumber (num_of_Z 1); "reduceOnly" := JBool true ]}.


(** * Properties *)

(** ** Numbers and letters *)

Lemma num_ge_of_Z (a b : Z) : num_ge (num_of_Z a) (num_of_Z b) = (b <=? a).
Proof.
  unfold num_ge, num_of_Z, Qleb, inject_Z. simpl.
  now rewrite !Z.mul_1_r.
Qed.

Lemma num_gt_of_Z (a b : Z) : num_gt (num_of_Z a) (num_of_Z b) = (b <? a).
Proof.
  unfold num_gt, num_of_Z, Qltb, inject_Z. simpl.
  now rewrite !Z.mul_1_r.
Qed.

Lemma Qzerob_iff (q : Q) : Qzerob q = true <-> (q == 0)%Q.
Proof.
  unfold Qzerob, Qeq. simpl. rewrite Z.eqb_eq. lia.
Qed.

Lemma num_ge_nonpositive (b : Z) (q : Q) :
  0 <= b -> (q <= 0)%Q -> num_ge (num_of_Z b) (Num q) = true.
Proof.
  intros Hb Hq. unfold num_ge, num_of_Z, Qleb, inject_Z. simpl.
  unfold Qle in Hq. simpl in Hq. apply Z.leb_le. nia.
Qed.




Lemma same_letter_ascii (a b : ascii) :
  same_letter a b = true -> is_ascii b = is_ascii a.
Proof.
  unfold same_letter. intros E.
  apply orb_true_iff in E as [E | E]; [apply orb_true_iff in E as [E | E] |].
  - apply Ascii.eqb_eq in E. now subst.
  - apply andb_true_iff in E as [L E]. apply Ascii.eqb_eq in E. subst b.
    revert L. destruct a as [[|] [|] [|] [|] [|] [|] [|] [|]];
      vm_compute; intros L; first [reflexivity | discriminate L].
  - apply andb_true_iff in E as [U E]. apply Ascii.eqb_eq in E. subst b.
    revert U. destruct a as [[|] [|] [|] [|] [|] [|] [|] [|]];
      vm_compute; intros U; first [reflexivity | discriminate U].
Qed.

Lemma same_up_to_ascii_case_ascii (s t : string) :
  same_up_to_ascii_case s t = true -> ascii_only t = ascii_only s.
Proof.
  revert t. induction s as [|a s IH]; intros [|b t] E; simpl in *;
    try discriminate; [reflexivity |].
  apply andb_true_iff in E as [Eab Est].
  now rewrite (same_letter_ascii _ _ Eab), (IH _ Est).
Qed.


Lemma map_string_truthy (f : ascii -> ascii) (s : string) :
  str_truthy (map_string f s) = str_truthy s.
Proof. now destruct s. Qed.

Section CaseFacts.
Context `{Host}.

Lemma toUpperCase_ascii (s : string) :
  ascii_only s = true -> toUpperCase s = map_string upper_ascii s.
Proof. intros A. unfold toUpperCase. now rewrite A. Qed.

Lemma toUpperCase_empty : toUpperCase "" = "".
Proof. reflexivity. Qed.


Lemma toUpperCase_ascii_truthy (s : string) :
  ascii_only s = true -> str_truthy (toUpperCase s) = str_truthy s.
Proof.
  intros A. rewrite toUpperCase_ascii by exact A. apply map_string_truthy.
Qed.

(** A string whose upper-case form is not empty is not empty. *)
Lemma toUpperCase_truthy (s : string) :
  str_truthy (toUpperCase s) = true -> str_truthy s = true.
Proof. now destruct s. Qed.
End CaseFacts.

(** In the host of ECMAScript the upper-case form of a string is empty
    only for the empty string: a string that is not empty has a first
    character, every character has at least one character as its upper
    case, and every character takes at least one byte. *)
Lemma code_points_truthy (s : string) :
  str_truthy s = true -> code_points s <> [].
Proof.
  destruct s as [| b r]; [discriminate |]. intros _. cbn [code_points].
  repeat match goal with
         | |- context [if ?b then _ else _] => destruct b
         | |- context [match ?x with EmptyString => _ | String _ _ => _ end] =>
           destruct x
         end; discriminate.
Qed.

Lemma string_of_code_points_truthy (l : list N) :
  l <> [] -> str_truthy (string_of_code_points l) = true.
Proof.
  destruct l as [| c l]; [contradiction |]. intros _.
  unfold string_of_code_points. cbn [flat_map].
  assert (U : exists b bs, utf8 c = b :: bs).
  { unfold utf8.
    repeat match goal with
           | |- context [if ?b then _ else _] => destruct b
           end; eauto. }
  destruct U as (b & bs & ->). reflexivity.
Qed.

Lemma uppercase_mapping_nonempty (c : N) : Ecma.uppercase_mapping c <> [].
Proof.
  unfold Ecma.uppercase_mapping, Ecma.mapping.
  destruct (c <? 128)%N; [discriminate |].
  destruct (find _ Ecma.upper_special) as [e |] eqn:F.
  - apply find_some in F as [I _].
    assert (A : forallb (fun e => match snd e with [] => false | _ => true end)
                        Ecma.upper_special = true)
      by (vm_compute; reflexivity).
    rewrite forallb_forall in A. specialize (A e I).
    now destruct (snd e).
  - destruct (find _ Ecma.upper_ranges) as [[[[a b] st] im] |]; discriminate.
Qed.

Lemma ecma_toUpperCase_truthy (s : string) :
  str_truthy (@toUpperCase ecma_host s) = str_truthy s.
Proof.
  unfold toUpperCase. destruct (ascii_only s); [apply map_string_truthy |].
  destruct s as [| b r]; [reflexivity |].
  cbn [UnicodeUpperCase ecma_host str_truthy]. unfold Ecma.to_upper_case.
  apply string_of_code_points_truthy.
  pose proof (code_points_truthy (String b r) eq_refl) as P.
  destruct (code_points (String b r)) as [| c l]; [contradiction |].
  cbn [flat_map]. pose proof (uppercase_mapping_nonempty c) as Q.
  destruct (Ecma.uppercase_mapping c); [contradiction | discriminate].
Qed.

(** ** RateLimiter *)

Section RateLimiterFacts.
Context `{Host}.

(** One call, in terms of the reading it consumes. *)
Lemma RateLimiter_allow_eq (r : RateLimiter) (c : Clock) :
  RateLimiter_allow r c =
  let now := second_of (readings c (cursor c)) in
  let b := if (ts r =? now) then bucket r else 0 in
  (if num_ge (num_of_Z b) (maxPerSec r)
   then (false, {| maxPerSec := maxPerSec r; bucket := b; ts := now |})
   else (true, {| maxPerSec := maxPerSec r; bucket := b + 1; ts := now |}),
   {| readings := readings c; cursor := S (cursor c) |}).
Proof.
  unfold RateLimiter_allow, bind, ret, Date_now, second_of. simpl.
  destruct (ts r =? readings c (cursor c) / 1000) eqn:E; simpl.
  - apply Z.eqb_eq in E. destruct r as [m b t]; simpl in *. subst t.
    now destruct (num_ge (num_of_Z b) m).
  - now destruct (num_ge (num_of_Z 0) (maxPerSec r)).
Qed.

(** A denied call in the current window leaves the limiter as it was. *)
Lemma RateLimiter_allow_denied (r : RateLimiter) (c : Clock) :
  ts r = second_of (readings c (cursor c)) ->
  fst (fst (RateLimiter_allow r c)) = false ->
  snd (fst (RateLimiter_allow r c)) = r.
Proof.
  rewrite RateLimiter_allow_eq. simpl. intros E.
  rewrite <- E, Z.eqb_refl.
  destruct (num_ge (num_of_Z (bucket r)) (maxPerSec r)); simpl;
    [now destruct r | discriminate].
Qed.

Lemma within_second_S (c : Clock) (k : nat) (s : Z) :
  within_second c (S k) s ->
  second_of (readings c (cursor c)) = s
  /\ within_second {| readings := readings c; cursor := S (cursor c) |} k s.
Proof.
  intros W. split.
  - rewrite <- (W 0%nat); [now rewrite Nat.add_0_r | lia].
  - intros i Hi. simpl. rewrite <- (W (S i)); [| lia].
    do 2 f_equal. lia.
Qed.

Lemma allow_times_S (k : nat) (r : RateLimiter) (c : Clock) :
  allow_times (S k) r c
  = let ar := RateLimiter_allow r c in
    let rest := allow_times k (snd (fst ar)) (snd ar) in
    (fst (fst ar) :: fst (fst rest), snd (fst rest), snd rest).
Proof.
  simpl. unfold bind, ret.
  destruct (RateLimiter_allow r c) as [[b r1] c1]. simpl.
  now destruct (allow_times k r1 c1) as [[bs r2] c2].
Qed.

Lemma allow_times_cursor (k : nat) (r : RateLimiter) (c : Clock) :
  snd (allow_times k r c)
  = {| readings := readings c; cursor := (cursor c + k)%nat |}.
Proof.
  revert r c. induction k as [|k IH]; intros r c.
  - simpl. destruct c. simpl. f_equal. lia.
  - rewrite allow_times_S. cbv zeta. cbn [snd].
    rewrite IH, RateLimiter_allow_eq. simpl. f_equal. lia.
Qed.

(** [k] calls inside an open window of ceiling [N]: the call number [i]
    (from 0) is admitted iff the counter is still below [N]. *)
Lemma allow_times_open_window (N : Z) (k : nat) (r : RateLimiter) (c : Clock) :
  maxPerSec r = num_of_Z N ->
  bucket r <= N ->
  within_second c k (ts r) ->
  fst (allow_times k r c)
  = (map (fun i => bucket r + Z.of_nat i <? N) (seq 0 k),
     {| maxPerSec := maxPerSec r;
        bucket := Z.min (bucket r + Z.of_nat k) N;
        ts := ts r |}).
Proof.
  revert r c. induction k as [|k IH]; intros r c Hm Hb W.
  - simpl. destruct r as [m b t]; simpl in *. f_equal. f_equal. lia.
  - apply within_second_S in W as [W0 W].
    rewrite allow_times_S. cbv zeta. cbn [fst].
    rewrite RateLimiter_allow_eq. cbv zeta.
    rewrite W0, Z.eqb_refl, Hm, num_ge_of_Z.
    destruct (N <=? bucket r) eqn:E; cbn [fst snd].
    + apply Z.leb_le in E.
      rewrite IH; [| reflexivity | simpl; lia | exact W].
      cbn [fst snd maxPerSec bucket ts]. f_equal.
      * simpl. f_equal; [symmetry; apply Z.ltb_ge; lia |].
        rewrite <- seq_shift, map_map. apply map_ext. intros i.
        transitivity false; [| symmetry]; apply Z.ltb_ge; lia.
      * f_equal. lia.
    + apply Z.leb_gt in E.
      rewrite IH; [| reflexivity | simpl; lia | exact W].
      cbn [fst snd maxPerSec bucket ts]. f_equal.
      * simpl. f_equal; [symmetry; apply Z.ltb_lt; lia |].
        rewrite <- seq_shift, map_map. apply map_ext. intros i. f_equal. lia.
      * f_equal. lia.
Qed.

(** The first call of a second opens the window, whatever the counter of
    the previous window was. *)
Lemma allow_times_fresh_window (N : Z) (k : nat) (r : RateLimiter)
    (c : Clock) (s : Z) :
  0 <= N ->
  maxPerSec r = num_of_Z N ->
  ts r <> s \/ bucket r = 0 ->
  within_second c k s ->
  fst (fst (allow_times k r c))
  = map (fun i => Z.of_nat i <? N) (seq 0 k)
  /\ ((0 < k)%nat ->
      snd (fst (allow_times k r c))
      = {| maxPerSec := num_of_Z N;
           bucket := Z.min (Z.of_nat k) N;
           ts := s |}).
Proof.
  intros HN Hm Hfresh W.
  destruct k as [|k]; [split; [reflexivity | lia] |].
  assert (E : allow_times (S k) r c
              = allow_times (S k)
                  {| maxPerSec := num_of_Z N; bucket := 0; ts := s |} c).
  { apply within_second_S in W as [W0 _].
    rewrite !allow_times_S. cbv zeta. rewrite !RateLimiter_allow_eq. cbv zeta.
    rewrite W0. cbn [maxPerSec bucket ts]. rewrite Z.eqb_refl, Hm.
    destruct (ts r =? s) eqn:E; [|reflexivity].
    apply Z.eqb_eq in E. destruct Hfresh as [Hne | Hb]; [contradiction |].
    now rewrite Hb. }
  rewrite E.
  rewrite (allow_times_open_window N (S k)
             {| maxPerSec := num_of_Z N; bucket := 0; ts := s |} c
             eq_refl HN W).
  simpl fst; simpl snd. split; [reflexivity | intros _; reflexivity].
Qed.
End RateLimiterFacts.

(** A ceiling that is zero or negative, once stored, shuts the limiter:
    a counter that never went below zero has always reached it. *)
Lemma nonpositive_ceiling_denies (q : Q) (r : RateLimiter) (c : Clock) :
  maxPerSec r = Num q -> (q <= 0)%Q -> 0 <= bucket r ->
  fst (fst (RateLimiter_allow r c)) = false.
Proof.
  intros Hm Hq Hb. rewrite RateLimiter_allow_eq. cbv zeta. rewrite Hm.
  destruct (ts r =? second_of (readings c (cursor c)));
    now rewrite num_ge_nonpositive.
Qed.

(** C5: for a positive ceiling N, of the calls of [allow()] that fall in one
    wall-clock second exactly the first N return true; every later call of
    that second returns false and leaves the counter where it was; the first
    call of another second resets the counter and is admitted. *)
Theorem RateLimiter_admits_first_N
    (N : Z) (r : RateLimiter) (c : Clock) (s : Z) (k : nat) :
  0 < N ->
  maxPerSec r = num_of_Z N ->
  ts r <> s \/ bucket r = 0 ->
  within_second c k s ->
  let r' := snd (fst (allow_times k r c)) in
  let c' := snd (allow_times k r c) in
  fst (fst (allow_times k r c)) = map (fun i => Z.of_nat i <? N) (seq 0 k)
  /\ ((0 < k)%nat -> bucket r' = Z.min (Z.of_nat k) N /\ ts r' = s)
  /\ (forall j, (j < k)%nat -> N <= Z.of_nat j ->
        snd (fst (allow_times (S j) r c)) = snd (fst (allow_times j r c)))
  /\ ((0 < k)%nat -> second_of (readings c' (cursor c')) <> s ->
        fst (RateLimiter_allow r' c')
        = (true, {| maxPerSec := num_of_Z N; bucket := 1;
                    ts := second_of (readings c' (cursor c')) |})).
Proof.
  intros HN Hm Hfresh W r' c'.
  destruct (allow_times_fresh_window N k r c s ltac:(lia) Hm Hfresh W)
    as [Hres Hst].
  split; [exact Hres |].
  split; [intros Hk; subst r'; rewrite (Hst Hk); simpl; auto |].
  split.
  - intros j Hj HNj.
    assert (Wj : within_second c j s) by (intros i Hi; apply W; lia).
    assert (WSj : within_second c (S j) s) by (intros i Hi; apply W; lia).
    destruct (allow_times_fresh_window N j r c s ltac:(lia) Hm Hfresh Wj)
      as [_ Hj0].
    destruct (allow_times_fresh_window N (S j) r c s ltac:(lia) Hm Hfresh WSj)
      as [_ Hj1].
    rewrite Hj0, Hj1 by lia. f_equal. lia.
  - intros Hk Hs. subst r'. rewrite (Hst Hk), RateLimiter_allow_eq. cbv zeta.
    cbn [maxPerSec bucket ts].
    destruct (s =? second_of (readings c' (cursor c'))) eqn:E;
      [apply Z.eqb_eq in E; congruence |].
    rewrite num_ge_of_Z.
    destruct (N <=? 0) eqn:E0; [apply Z.leb_le in E0; lia | reflexivity].
Qed.

Lemma RateLimiter_admits_first_N_witness :
  fst (fst (allow_times 3 (new_RateLimiter (JNumber (num_of_Z 2)))
                        (ticking_clock 5000 100)))
  = [true; true; false].
Proof.
  refine (proj1 (RateLimiter_admits_first_N 2
                   (new_RateLimiter (JNumber (num_of_Z 2)))
                   (ticking_clock 5000 100) 5 3 _ _ _ _)).
  - lia.
  - reflexivity.
  - right. reflexivity.
  - intros i Hi. destruct i as [|[|[|i]]]; [reflexivity .. | lia].
Defined.

(** C6 (as amended): a configured ceiling equal to zero is replaced by the
    default ceiling 5, both by the [|| 5] of the gate and by the [|| 5] of
    the constructor, so the limiter admits exactly the first five calls of a
    second: it is neither unlimited nor closed. *)
Theorem zero_ceiling_is_default `{Host} (q : Q) :
  (q == 0)%Q ->
  new_RateLimiter (JNumber (Num q)) = new_RateLimiter (JNumber (Num 5))
  /\ new_RateLimiter (js_or (JNumber (Num q)) (JNumber (Num 5)))
     = new_RateLimiter (JNumber (Num 5))
  /\ forall c s k, within_second c k s ->
       fst (fst (allow_times k (new_RateLimiter (JNumber (Num q))) c))
       = map (fun i => Z.of_nat i <? 5) (seq 0 k).
Proof.
  intros Hq. apply Qzerob_iff in Hq.
  assert (E : new_RateLimiter (JNumber (Num q))
              = new_RateLimiter (JNumber (Num 5))).
  { unfold new_RateLimiter, num_or. simpl. now rewrite Hq. }
  split; [exact E |]. split.
  - unfold js_or. simpl. now rewrite Hq.
  - intros c s k W. rewrite E.
    apply (allow_times_fresh_window 5 k _ c s);
      [lia | reflexivity | right; reflexivity | exact W].
Qed.

Lemma zero_ceiling_is_default_witness :
  new_RateLimiter (JNumber (Num (0 # 3))) = new_RateLimiter (JNumber (Num 5)).
Proof.
  refine (proj1 (zero_ceiling_is_default (0 # 3) _)). reflexivity.
Defined.

(** C6, the claim as written fails below zero: a ceiling of -1 is kept as
    it is, and the limiter then denies every call, where the default
    limiter admits. *)
Lemma negative_ceiling_is_not_default :
  fst (fst (allow_times 3 (new_RateLimiter (JNumber (num_of_Z (-1))))
                        (frozen_clock 5000)))
  = [false; false; false]
  /\ fst (fst (allow_times 3 (new_RateLimiter (JNumber (Num 5)))
                           (frozen_clock 5000)))
     = [true; true; true].
Proof. split; reflexivity. Qed.

Lemma new_RateLimiter_positive `{Host} (N : Z) :
  0 < N ->
  new_RateLimiter (JNumber (num_of_Z N))
  = {| maxPerSec := num_of_Z N; bucket := 0; ts := 0 |}.
Proof.
  intros HN. unfold new_RateLimiter, num_or. simpl.
  unfold Qzerob. simpl.
  destruct (N =? 0) eqn:E; [apply Z.eqb_eq in E; lia | reflexivity].
Qed.

(** ** The rules of [canExecute] *)

Section RulesFacts.
Context `{Host}.

Lemma allow_eq (g : PolicyGate) (reason : string) (c : Clock) :
  allow g reason c
  = (Allowed reason (version g) (readings c (cursor c) + 3000),
     {| readings := readings c; cursor := S (cursor c) |}).
Proof. reflexivity. Qed.

Lemma deny_eq (g : PolicyGate) (code detail : string) (c : Clock) :
  deny g code detail c
  = (Denied code detail (version g) (readings c (cursor c)),
     {| readings := readings c; cursor := S (cursor c) |}).
Proof. reflexivity. Qed.

Lemma RateLimiter_allow_maxPerSec (r : RateLimiter) (c : Clock) :
  maxPerSec (snd (fst (RateLimiter_allow r c))) = maxPerSec r.
Proof.
  rewrite RateLimiter_allow_eq. cbv zeta.
  now destruct (num_ge _ _).
Qed.

(** Under the kill switch the first rule decides, and nothing else of
    the gate is consulted. *)
Lemma rules_kill_switch (g : PolicyGate) (o : Order) (c : Clock) :
  truthy (kill_switch (config g)) = true ->
  fst (rules g o c)
  = (if _isCloseOnly o
     then Allowed "KILL_SWITCH_CLOSE_ONLY" (version g) (reading c 0 + 3000)
     else Denied "KILL_SWITCH" "Global kill switch enabled" (version g)
                 (reading c 0),
     g).
Proof.
  intros K. unfold rules, reading. rewrite K, Nat.add_0_r.
  now destruct (_isCloseOnly o).
Qed.
End RulesFacts.

(** Case analysis along the rules: the clock monad is run, every test is
    split and the answer of the rate limiter is named. *)
Ltac run_rules :=
  unfold rules, allow, deny, bind, ret, Date_now;
  repeat first
    [ progress cbn [fst snd negb set_rateLimiter set_lastSnapshotAt config
                    version symbolHalt globalHalt safeMode rateLimiter
                    lastSnapshotAt startedAt readings cursor
                    policy_version reason_code decision_allow]
    | match goal with
      | |- context [RateLimiter_allow ?r ?c] =>
        let E := fresh "RL" in
        destruct (RateLimiter_allow r c) as [[? ?] ?] eqn:E
      | |- context [if ?b then _ else _] => destruct b eqn:?
      end ].

Section RulesCases.
Context `{Host}.

Lemma reading_0 (c : Clock) : reading c 0 = readings c (cursor c).
Proof. unfold reading. now rewrite Nat.add_0_r. Qed.

Lemma reading_tick (c : Clock) (i : nat) :
  reading (tick c) i = reading c (S i).
Proof. unfold reading, tick. simpl. f_equal. lia. Qed.

(** The rules leave the gate alone, up to the counter and the window of
    its rate limiter. *)
Lemma rules_frame (g : PolicyGate) (o : Order) (c : Clock) :
  exists b w,
    snd (fst (rules g o c))
    = set_rateLimiter
        {| maxPerSec := maxPerSec (rateLimiter g); bucket := b; ts := w |} g.
Proof.
  pose proof (RateLimiter_allow_maxPerSec (rateLimiter g) c) as M.
  assert (G : forall r, maxPerSec r = maxPerSec (rateLimiter g) ->
            exists b w, set_rateLimiter r g
            = set_rateLimiter {| maxPerSec := maxPerSec (rateLimiter g);
                                 bucket := b; ts := w |} g).
  { intros [m b w] E. simpl in E. subst m. now exists b, w. }
  assert (G0 : exists b w, g
            = set_rateLimiter {| maxPerSec := maxPerSec (rateLimiter g);
                                 bucket := b; ts := w |} g).
  { exists (bucket (rateLimiter g)), (ts (rateLimiter g)).
    now destruct g as [? ? ? ? ? [? ? ?] ? ?]. }
  run_rules; first [exact G0 | apply G; exact M].
Qed.

(** Every decision of the rules is stamped with the version of the gate. *)
Lemma rules_version (g : PolicyGate) (o : Order) (c : Clock) :
  policy_version (fst (fst (rules g o c))) = version g.
Proof. run_rules; reflexivity. Qed.

(** What the rules answer to a close-only order. *)
Lemma rules_close_only (g : PolicyGate) (o : Order) (c : Clock) :
  _isCloseOnly o = true ->
  reason_code (fst (fst (rules g o c)))
  = if truthy (kill_switch (config g)) then "KILL_SWITCH_CLOSE_ONLY"
    else if fst (fst (RateLimiter_allow (rateLimiter g) c)) then "CLOSE_ONLY"
    else "RATE_LIMIT".
Proof.
  intros C. unfold rules. rewrite C. cbn [negb].
  rewrite !andb_false_r.
  destruct (truthy (kill_switch (config g))); [reflexivity |].
  unfold bind at 1.
  destruct (RateLimiter_allow (rateLimiter g) c) as [[ok rl] c1].
  cbn [fst snd]. destruct ok; [| reflexivity].
  run_rules; try reflexivity; try discriminate;
    repeat match goal with
           | E : _ && false = true |- _ =>
             rewrite andb_false_r in E; discriminate E
           end.
Qed.

(** The decision itself: under the kill switch the allow is stamped at the
    first reading; otherwise the rate limiter takes the first reading, the
    staleness guard takes one if a limit is configured, and the decision is
    stamped at the next. *)
Lemma rules_close_only_decision (g : PolicyGate) (o : Order) (c : Clock) :
  _isCloseOnly o = true ->
  fst (fst (rules g o c))
  = if truthy (kill_switch (config g))
    then Allowed "KILL_SWITCH_CLOSE_ONLY" (version g) (reading c 0 + 3000)
    else if fst (fst (RateLimiter_allow (rateLimiter g) c))
    then Allowed "CLOSE_ONLY" (version g)
           (reading c (if num_gt (ToNumber (js_or (max_staleness_ms (config g))
                                                  (JNumber (Num 0))))
                                 (Num 0)
                       then 2 else 1) + 3000)
    else Denied "RATE_LIMIT" "Too many requests per second" (version g)
                (reading c 1).
Proof.
  intros C. unfold rules. rewrite C. cbn [negb].
  rewrite !andb_false_r.
  destruct (truthy (kill_switch (config g)));
    [unfold allow, bind, ret, Date_now; cbn; now rewrite reading_0 |].
  unfold bind at 1. rewrite RateLimiter_allow_eq. cbv zeta.
  assert (R1 : readings c (S (cursor c)) = reading c 1).
  { unfold reading. f_equal. lia. }
  assert (R2 : readings c (S (S (cursor c))) = reading c 2).
  { unfold reading. f_equal. lia. }
  destruct (num_ge _ _); cbn [fst snd negb].
  - unfold deny, bind, ret, Date_now.
    cbn [fst snd version set_rateLimiter readings cursor]. now rewrite R1.
  - cbn [safeMode set_rateLimiter config lastSnapshotAt].
    rewrite !andb_false_r.
    destruct (num_gt (ToNumber (js_or (max_staleness_ms (config g))
                                      (JNumber (Num 0)))) (Num 0));
      unfold allow, bind, ret, Date_now;
      cbn [fst snd version set_rateLimiter readings cursor];
      rewrite ?andb_false_r; cbn [fst snd version readings cursor];
      now rewrite ?R1, ?R2.
Qed.

Lemma canExecute_object (g : PolicyGate) (o : Order) (c : Clock) :
  canExecute g (ArgObject o) c
  = let r := rules (set_lastSnapshotAt (reading c 0) g) o (tick c) in
    (Resolved (fst (fst r)), snd (fst r), snd r).
Proof.
  unfold canExecute, bind, ret, Date_now. rewrite reading_0. fold (tick c).
  cbv zeta.
  now destruct (rules (set_lastSnapshotAt (readings c (cursor c)) g) o (tick c))
    as [[d g'] c'].
Qed.

Lemma canExecute_undefined (g : PolicyGate) (c : Clock) :
  canExecute g ArgUndefined c = canExecute g (ArgObject ∅) c.
Proof. reflexivity. Qed.

Lemma canExecute_null (g : PolicyGate) (c : Clock) :
  canExecute g ArgNull c
  = (Rejected_TypeError, set_lastSnapshotAt (reading c 0) g, tick c).
Proof. unfold canExecute, bind, ret, Date_now. now rewrite reading_0. Qed.

Lemma Guarded_canExecute_empty (g : PolicyGate) (arg : OrderArg) (c : Clock) :
  empty_or_missing arg = true ->
  Guarded.canExecute g arg c
  = (Resolved (Allowed "EMPTY_ORDER_PASS" (version g) (reading c 1 + 3000)),
     set_lastSnapshotAt (reading c 0) g, tick (tick c)).
Proof.
  intros E. unfold Guarded.canExecute, allow, bind, ret, Date_now, reading.
  rewrite Nat.add_0_r, Nat.add_1_r.
  destruct arg as [| |o]; simpl in *; try reflexivity.
  now rewrite E.
Qed.

Lemma Guarded_canExecute_object (g : PolicyGate) (o : Order) (c : Clock) :
  size o <> 0%nat ->
  Guarded.canExecute g (ArgObject o) c = canExecute g (ArgObject o) c.
Proof.
  intros E. unfold Guarded.canExecute, canExecute.
  destruct (size o =? 0)%nat eqn:Z; [apply Nat.eqb_eq in Z; lia | reflexivity].
Qed.

(** An order that is close-only, or has a symbol, is not empty. *)
Lemma prop_defined_size (o : Order) (k : string) :
  prop o k <> JUndefined -> size o <> 0%nat.
Proof.
  unfold prop. intros P E. apply map_size_empty_iff in E. subst o.
  now rewrite lookup_empty in P.
Qed.

Lemma close_only_size (o : Order) : _isCloseOnly o = true -> size o <> 0%nat.
Proof.
  unfold _isCloseOnly. intros C.
  destruct (prop o "reduceOnly") eqn:R;
    try (apply (prop_defined_size o "reduceOnly"); congruence).
  destruct (prop o "closeOnly") eqn:L;
    try (apply (prop_defined_size o "closeOnly"); congruence).
  destruct (prop o "intent") eqn:I;
    try (apply (prop_defined_size o "intent"); congruence).
  discriminate C.
Qed.
End RulesCases.

(** ** The claims about [canExecute] *)

Section CanExecuteFacts.
Context `{Host}.

Lemma canExecute_in_shape (v : Variant) (g : PolicyGate) (arg : OrderArg)
    (c : Clock) :
  exists b w,
    snd (fst (canExecute_in v g arg c))
    = set_lastSnapshotAt (reading c 0)
        (set_rateLimiter
           {| maxPerSec := maxPerSec (rateLimiter g); bucket := b; ts := w |}
           g).
Proof.
  assert (R : forall o,
    exists b w,
      snd (fst (canExecute g (ArgObject o) c))
      = set_lastSnapshotAt (reading c 0)
          (set_rateLimiter
             {| maxPerSec := maxPerSec (rateLimiter g); bucket := b; ts := w |}
             g)).
  { intros o. rewrite canExecute_object. cbv zeta. cbn [fst snd].
    destruct (rules_frame (set_lastSnapshotAt (reading c 0) g) o (tick c))
      as (b & w & E).
    exists b, w. rewrite E. reflexivity. }
  assert (N : exists b w,
    set_lastSnapshotAt (reading c 0) g
    = set_lastSnapshotAt (reading c 0)
        (set_rateLimiter
           {| maxPerSec := maxPerSec (rateLimiter g); bucket := b; ts := w |}
           g)).
  { exists (bucket (rateLimiter g)), (ts (rateLimiter g)).
    now destruct g as [? ? ? ? ? [? ? ?] ? ?]. }
  destruct v, arg as [| |o]; cbn [canExecute_in].
  - rewrite canExecute_undefined. apply R.
  - rewrite canExecute_null. exact N.
  - apply R.
  - rewrite Guarded_canExecute_empty by reflexivity. exact N.
  - rewrite Guarded_canExecute_empty by reflexivity. exact N.
  - destruct (size o =? 0)%nat eqn:E.
    + rewrite Guarded_canExecute_empty by exact E. exact N.
    + apply Nat.eqb_neq in E. rewrite Guarded_canExecute_object by exact E.
      apply R.
Qed.

Lemma canExecute_in_version (v : Variant) (g : PolicyGate) (arg : OrderArg)
    (c : Clock) (d : Decision) :
  fst (fst (canExecute_in v g arg c)) = Resolved d ->
  policy_version d = version g.
Proof.
  assert (R : forall o, fst (fst (canExecute g (ArgObject o) c)) = Resolved d ->
                        policy_version d = version g).
  { intros o. rewrite canExecute_object. cbv zeta. cbn [fst snd].
    intros E. inversion E. now rewrite rules_version. }
  destruct v, arg as [| |o]; cbn [canExecute_in].
  - rewrite canExecute_undefined. apply R.
  - rewrite canExecute_null. discriminate.
  - apply R.
  - rewrite Guarded_canExecute_empty by reflexivity.
    intros E. inversion E. reflexivity.
  - rewrite Guarded_canExecute_empty by reflexivity.
    intros E. inversion E. reflexivity.
  - destruct (size o =? 0)%nat eqn:E.
    + rewrite Guarded_canExecute_empty by exact E.
      intros E'. inversion E'. reflexivity.
    + apply Nat.eqb_neq in E. rewrite Guarded_canExecute_object by exact E.
      apply R.
Qed.

Lemma evaluate_all_version (v : Variant) (orders : list OrderArg)
    (g : PolicyGate) (c : Clock) :
  Forall (fun s => forall d, s = Resolved d -> policy_version d = version g)
         (fst (fst (evaluate_all v g orders c)))
  /\ version (snd (fst (evaluate_all v g orders c))) = version g.
Proof.
  revert g c. induction orders as [|o orders IH]; intros g c.
  - split; [constructor | reflexivity].
  - simpl. unfold bind, ret.
    destruct (canExecute_in v g o c) as [[s g1] c1] eqn:E. cbn [fst snd].
    specialize (IH g1 c1).
    destruct (evaluate_all v g1 orders c1) as [[ss g2] c2]. cbn [fst snd] in *.
    assert (V : version g1 = version g).
    { destruct (canExecute_in_shape v g o c) as (b & w & S).
      rewrite E in S. cbn [fst snd] in S. now rewrite S. }
    destruct IH as [IH1 IH2]. rewrite V in *. split; [| exact IH2].
    constructor; [| exact IH1].
    intros d Hd. apply (canExecute_in_version v g o c). now rewrite E.
Qed.
End CanExecuteFacts.

(** C10: an evaluation changes the gate in two places only, the
    last-evaluated timestamp and the counter and window of the rate limiter;
    the configuration, the version, the two flags, the halted symbols (and
    the ceiling of the limiter and the start instant) are what they were,
    whatever the order and whatever the decision. *)
Theorem canExecute_frame `{Host} (v : Variant) (g : PolicyGate)
    (arg : OrderArg) (c : Clock) :
  let g' := snd (fst (canExecute_in v g arg c)) in
  g' = set_lastSnapshotAt (lastSnapshotAt g')
         (set_rateLimiter
            {| maxPerSec := maxPerSec (rateLimiter g);
               bucket := bucket (rateLimiter g');
               ts := ts (rateLimiter g') |} g)
  /\ config g' = config g
  /\ version g' = version g
  /\ globalHalt g' = globalHalt g
  /\ safeMode g' = safeMode g
  /\ symbolHalt g' = symbolHalt g.
Proof.
  intros g'. destruct (canExecute_in_shape v g arg c) as (b & w & E).
  subst g'. rewrite E. cbn. repeat split; reflexivity.
Qed.

(** C7 (as amended): replacing the configuration stamps the gate with the
    version of the instant of the call, so the version changes exactly when
    that instant is not the one of the version in place; every decision
    carries the version of the gate that took it, and an evaluation does not
    touch the version, so all decisions between two replacements carry the
    same one. *)
Theorem version_follows_replacement `{Host} (v : Variant) (g : PolicyGate)
    (newCfg : option Config) (orders : list OrderArg) (c : Clock) :
  let g' := fst (updateConfig g newCfg c) in
  let c' := snd (updateConfig g newCfg c) in
  let run := fst (evaluate_all v g' orders c') in
  version g' = pg (reading c 0)
  /\ (version g' <> version g <-> reading c 0 <> instant (version g))
  /\ Forall (fun s => forall d, s = Resolved d -> policy_version d = version g')
            (fst run)
  /\ version (snd run) = version g'.
Proof.
  intros g' c' run.
  assert (V : version g' = pg (reading c 0)).
  { subst g'. unfold updateConfig, bind, ret, Date_now. cbn.
    now rewrite reading_0. }
  split; [exact V |]. split.
  - rewrite V. destruct (version g) as [t]. cbn. split.
    + intros N E. apply N. now rewrite E.
    + intros N E. apply N. now inversion E.
  - apply evaluate_all_version.
Qed.

(** C7, the claim as written fails when the replacement falls in the
    millisecond of the version in place: the decisions before and after it
    carry the same version. *)
Lemma replacement_in_same_millisecond :
  fst (replace_between GateJs (Some empty_config)
         (Some (config_of JUndefined (JNumber (num_of_Z 2)) JUndefined JUndefined))
         (ArgObject buy_order) (frozen_clock 1000))
  = (Resolved (Allowed "PASS" (pg 1000) 4000),
     Resolved (Allowed "PASS" (pg 1000) 4000)).
Proof. vm_compute. reflexivity. Qed.

(** ** Kill switch, close-only orders, halted symbols *)

Section PipelineFacts.
Context `{Host}.

Lemma canExecute_in_object (v : Variant) (g : PolicyGate) (o : Order)
    (c : Clock) :
  empty_guard_fires v (ArgObject o) = false ->
  canExecute_in v g (ArgObject o) c
  = let r := rules (set_lastSnapshotAt (reading c 0) g) o (tick c) in
    (Resolved (fst (fst r)), snd (fst r), snd r).
Proof.
  intros E. destruct v; cbn [canExecute_in].
  - apply canExecute_object.
  - cbn in E. apply Nat.eqb_neq in E.
    rewrite Guarded_canExecute_object by exact E. apply canExecute_object.
Qed.

Lemma close_only_guard (v : Variant) (o : Order) :
  _isCloseOnly o = true -> empty_guard_fires v (ArgObject o) = false.
Proof.
  intros C. destruct v; [reflexivity |]. cbn.
  apply Nat.eqb_neq. now apply close_only_size.
Qed.

Lemma setSymbolHalt_on (g : PolicyGate) (s : string) (on : JsVal) :
  str_truthy (toUpperCase s) = true -> truthy on = true ->
  setSymbolHalt g (JString s) on
  = set_symbolHalt ({[ toUpperCase s ]} ∪ symbolHalt g) g.
Proof.
  intros U O. pose proof (toUpperCase_truthy s U) as S.
  unfold setSymbolHalt, js_or. cbn [truthy]. rewrite S.
  cbn [ToString]. now rewrite U, O.
Qed.


Lemma RateLimiter_allow_clock (r : RateLimiter) (c : Clock) :
  snd (RateLimiter_allow r c) = tick c.
Proof. now rewrite RateLimiter_allow_eq. Qed.

(** The previous timestamp is overwritten before anything reads it. *)
Lemma canExecute_ignores_lastSnapshotAt (v : Variant) (g : PolicyGate)
    (t : Z) (arg : OrderArg) (c : Clock) :
  canExecute_in v (set_lastSnapshotAt t g) arg c = canExecute_in v g arg c.
Proof. destruct v, arg; reflexivity. Qed.

(** The age the staleness guard reports is measured inside the call, from
    its first reading of the clock to its third. *)
Lemma data_stale_age (g : PolicyGate) (o : Order) (c : Clock) :
  reason_code (fst (fst (rules (set_lastSnapshotAt (reading c 0) g) o (tick c))))
  = "DATA_STALE" ->
  let age := reading c 2 - Z_or (reading c 0) 0 in
  reason_detail (fst (fst (rules (set_lastSnapshotAt (reading c 0) g) o (tick c))))
  = Some ("Snapshot stale: " +:+ NumberToString (num_of_Z age) +:+ "ms")
  /\ num_gt (num_of_Z age)
       (ToNumber (js_or (max_staleness_ms (config g)) (JNumber (Num 0))))
     = true.
Proof.
  intros R age. revert R.
  run_rules; try discriminate. intros _.
  match goal with
  | RL : RateLimiter_allow _ _ = _ |- _ =>
    apply (f_equal snd) in RL; rewrite RateLimiter_allow_clock in RL;
    cbn [snd] in RL; subst
  end.
  assert (E : readings (tick (tick c)) (cursor (tick (tick c)))
              = reading c 2).
  { unfold reading, tick. cbn. f_equal. lia. }
  rewrite E in *. fold age in Heqb5 |- *.
  apply andb_true_iff in Heqb5 as [A _].
  split; [reflexivity | exact A].
Qed.

End PipelineFacts.

(** C2 (as amended): when the kill switch is on, an order that is not
    close-only is denied with [KILL_SWITCH] and a close-only order is allowed
    with [KILL_SWITCH_CLOSE_ONLY], whatever the halts, the safe mode, the
    rate limiter, the staleness guard and the notional cap would say, and
    the rate limiter is not consulted; in the copy with the empty-order
    guard this holds for the orders that have at least one key. *)
Theorem kill_switch_decides `{Host} (v : Variant) (g : PolicyGate) (o : Order)
    (c : Clock) :
  truthy (kill_switch (config g)) = true ->
  empty_guard_fires v (ArgObject o) = false ->
  fst (canExecute_in v g (ArgObject o) c)
  = (Resolved
       (if _isCloseOnly o
        then Allowed "KILL_SWITCH_CLOSE_ONLY" (version g) (reading c 1 + 3000)
        else Denied "KILL_SWITCH" "Global kill switch enabled" (version g)
                    (reading c 1)),
     set_lastSnapshotAt (reading c 0) g).
Proof.
  intros K E. rewrite canExecute_in_object by exact E. cbv zeta. cbn [fst snd].
  rewrite rules_kill_switch by exact K. cbn [fst snd].
  now rewrite reading_tick.
Qed.

Lemma kill_switch_decides_witness :
  fst (fst (canExecute_in GuardedCopy
              (set_globalHalt true
                 (fst (new_PolicyGate
                         (Some (config_of (JBool true) JUndefined JUndefined
                                          JUndefined))
                         (frozen_clock 1000))))
              (ArgObject buy_order) (frozen_clock 2000)))
  = Resolved (Denied "KILL_SWITCH" "Global kill switch enabled" (pg 1000) 2000).
Proof.
  refine (f_equal fst
            (kill_switch_decides GuardedCopy
               (set_globalHalt true
                  (fst (new_PolicyGate
                          (Some (config_of (JBool true) JUndefined JUndefined
                                           JUndefined))
                          (frozen_clock 1000))))
               buy_order (frozen_clock 2000) _ _)).
  - reflexivity.
  - vm_compute. reflexivity.
Defined.

(** C2, the claim as written fails in the copy with the empty-order guard:
    under the kill switch the order [{}], which is not close-only, is allowed
    with [EMPTY_ORDER_PASS]. *)
Lemma kill_switch_passes_empty_order :
  fst (fst (build_then_evaluate GuardedCopy
              (Some (config_of (JBool true) JUndefined JUndefined JUndefined))
              (ArgObject ∅) (frozen_clock 1000)))
  = Resolved (Allowed "EMPTY_ORDER_PASS" (pg 1000) 4000).
Proof. vm_compute. reflexivity. Qed.

(** C3: a close-only order is never answered [GLOBAL_HALT], [SYMBOL_HALT],
    [SAFE_MODE], [DATA_STALE] or [MAX_ORDER].  Under the kill switch it is
    allowed with [KILL_SWITCH_CLOSE_ONLY]; otherwise it is allowed with
    [CLOSE_ONLY] if the rate limiter admits the call, and denied with
    [RATE_LIMIT] if it does not: close-only status does not bypass the rate
    limit, and there is a gate state in which the order is so denied. *)
Theorem close_only_bypass `{Host} (v : Variant) (g : PolicyGate) (o : Order)
    (c : Clock) :
  _isCloseOnly o = true ->
  let stale_limit :=
    ToNumber (js_or (max_staleness_ms (config g)) (JNumber (Num 0))) in
  fst (fst (canExecute_in v g (ArgObject o) c))
  = Resolved
      (if truthy (kill_switch (config g))
       then Allowed "KILL_SWITCH_CLOSE_ONLY" (version g) (reading c 1 + 3000)
       else if fst (fst (RateLimiter_allow (rateLimiter g) (tick c)))
       then Allowed "CLOSE_ONLY" (version g)
              (reading c (if num_gt stale_limit (Num 0) then 3 else 2) + 3000)
       else Denied "RATE_LIMIT" "Too many requests per second" (version g)
                   (reading c 2))
  /\ (forall d,
        fst (fst (canExecute_in v g (ArgObject o) c)) = Resolved d ->
        ~ In (reason_code d)
             ["GLOBAL_HALT"; "SYMBOL_HALT"; "SAFE_MODE"; "DATA_STALE";
              "MAX_ORDER"])
  /\ (exists g' c',
         fst (fst (canExecute_in v g' (ArgObject o) c'))
         = Resolved (Denied "RATE_LIMIT" "Too many requests per second"
                            (version g') (reading c' 2))).
Proof.
  intros C stale_limit.
  assert (R : forall g c,
    fst (fst (canExecute_in v g (ArgObject o) c))
    = Resolved
        (if truthy (kill_switch (config g))
         then Allowed "KILL_SWITCH_CLOSE_ONLY" (version g) (reading c 1 + 3000)
         else if fst (fst (RateLimiter_allow (rateLimiter g) (tick c)))
         then Allowed "CLOSE_ONLY" (version g)
                (reading c (if num_gt (ToNumber (js_or (max_staleness_ms
                                                          (config g))
                                                       (JNumber (Num 0))))
                                      (Num 0)
                            then 3 else 2) + 3000)
         else Denied "RATE_LIMIT" "Too many requests per second" (version g)
                     (reading c 2))).
  { intros g0 c0.
    rewrite canExecute_in_object by now apply close_only_guard.
    cbv zeta. cbn [fst snd].
    rewrite rules_close_only_decision by exact C.
    cbn [config version rateLimiter set_lastSnapshotAt].
    rewrite !reading_tick.
    now destruct (num_gt _ _). }
  split; [apply R |]. split.
  - intros d. rewrite R. intros E. inversion E as [E']. clear E E'.
    destruct (truthy (kill_switch (config g)));
      [| destruct (fst (fst (RateLimiter_allow (rateLimiter g) (tick c))))];
      cbn; intuition discriminate.
  - exists (exhausted_gate 5), (frozen_clock 5000). now rewrite R.
Qed.

Lemma close_only_bypass_witness :
  fst (fst (canExecute_in GateJs
              (set_safeMode true (set_globalHalt true (exhausted_gate 5)))
              (ArgObject close_order) (frozen_clock 5000)))
  = Resolved (Denied "RATE_LIMIT" "Too many requests per second" (pg 0) 5000)
  /\ fst (fst (canExecute_in GateJs
                 (set_safeMode true (set_globalHalt true (exhausted_gate 5)))
                 (ArgObject close_order) (frozen_clock 9000)))
     = Resolved (Allowed "CLOSE_ONLY" (pg 0) 12000).
Proof.
  split.
  - exact (proj1 (close_only_bypass GateJs
                    (set_safeMode true (set_globalHalt true (exhausted_gate 5)))
                    close_order (frozen_clock 5000) eq_refl)).
  - exact (proj1 (close_only_bypass GateJs
                    (set_safeMode true (set_globalHalt true (exhausted_gate 5)))
                    close_order (frozen_clock 9000) eq_refl)).
Defined.




(** C9 (as amended): [setSymbolHalt] with an empty symbol, or with any
    other falsy value for the symbol, changes nothing in the gate, whether
    it is asked to halt or to lift the halt. *)
Theorem setSymbolHalt_empty_noop `{Host} (g : PolicyGate) (sym on : JsVal) :
  truthy sym = false ->
  setSymbolHalt g sym on = g.
Proof.
  intros F. unfold setSymbolHalt, js_or. now rewrite F.
Qed.

Lemma setSymbolHalt_empty_noop_witness :
  setSymbolHalt (exhausted_gate 5) (JString "") (JBool true) = exhausted_gate 5
  /\ setSymbolHalt (exhausted_gate 5) (JString "") (JBool false)
     = exhausted_gate 5.
Proof.
  split.
  - apply (setSymbolHalt_empty_noop (exhausted_gate 5) (JString "") (JBool true)).
    reflexivity.
  - apply (setSymbolHalt_empty_noop (exhausted_gate 5) (JString "") (JBool false)).
    reflexivity.
Defined.

(** C9, the claim as written fails at a blank symbol: three spaces are a
    non-empty string, and halting them adds them to the halted set. *)
Lemma blank_symbol_is_halted :
  ("   " ∉ symbolHalt (exhausted_gate 5))
  /\ ("   " ∈ symbolHalt (setSymbolHalt (exhausted_gate 5) (JString "   ")
                                        (JBool true))).
Proof.
  split.
  - cbn. set_solver.
  - rewrite setSymbolHalt_on by reflexivity. cbn. set_solver.
Qed.




(** C1, the code at the failing input.  The gate allows an age of 1000 ms.
    It is built and evaluates a first order at instant 1000; the next
    evaluation comes at instant 10000000, that is 9999000 ms after the
    previous one, and is answered [PASS]: the timestamp was refreshed before
    the guard read it. *)
Theorem stale_gate_passes :
  fst (build_then_evaluate_twice GateJs
         (Some (config_of JUndefined JUndefined JUndefined
                          (JNumber (num_of_Z 1000))))
         (ArgObject buy_order) (jump_clock 7 1000 10000000))
  = (Resolved (Allowed "PASS" (pg 1000) 4000),
     Resolved (Allowed "PASS" (pg 1000) 10003000)).
Proof. vm_compute. reflexivity. Qed.


(** ** The scenarios of the specification, run on the model *)

(** Ceiling 2 and cap 1000: two orders of 500 pass within one second, the
    third is rate-limited. *)
Example scenario_rate_limit :
  map settled_reason
      (fst (fst (evaluate_all GateJs
                   (fst (new_PolicyGate
                           (Some (config_of (JBool false)
                                            (JNumber (num_of_Z 2))
                                            (JNumber (num_of_Z 1000))
                                            JUndefined))
                           (frozen_clock 5000)))
                   [ArgObject buy_order; ArgObject buy_order;
                    ArgObject buy_order]
                   (frozen_clock 5000))))
  = [Some "PASS"; Some "PASS"; Some "RATE_LIMIT"].
Proof. vm_compute. reflexivity. Qed.

(** Same configuration, an order of 5000 against the cap of 1000. *)
Example scenario_max_order :
  fst (fst (build_then_evaluate GateJs
              (Some (config_of (JBool false) (JNumber (num_of_Z 2))
                               (JNumber (num_of_Z 1000)) JUndefined))
              (ArgObject {[ "symbol" := JString "ETHUSDT";
                            "side" := JString "buy";
                            "notional" := JNumber (num_of_Z 5000) ]})
              (frozen_clock 5000)))
  = Resolved (Denied "MAX_ORDER" "Notional 5000 > 1000" (pg 5000) 5000).
Proof. vm_compute. reflexivity. Qed.

(** A reduce-only order under a global halt is not denied. *)
Example scenario_global_halt_close_only :
  settled_reason
    (fst (fst (canExecute
                 (setGlobalHalt (fst (new_PolicyGate None (frozen_clock 5000)))
                                (JBool true))
                 (ArgObject {[ "symbol" := JString "X";
                               "side" := JString "sell";
                               "reduceOnly" := JBool true ]})
                 (frozen_clock 5000))))
  = Some "CLOSE_ONLY".
Proof. vm_compute. reflexivity. Qed.

(** Under the kill switch: an order with intent "close", then a plain buy. *)
Example scenario_kill_switch :
  map settled_reason
      (fst (fst (evaluate_all GateJs
                   (fst (new_PolicyGate
                           (Some (config_of (JBool true) JUndefined JUndefined
                                            JUndefined))
                           (frozen_clock 5000)))
                   [ArgObject {[ "symbol" := JString "X";
                                 "side" := JString "sell";
                                 "intent" := JString "close" ]};
                    ArgObject {[ "symbol" := JString "X";
                                 "side" := JString "buy" ]}]
                   (frozen_clock 5000))))
  = [Some "KILL_SWITCH_CLOSE_ONLY"; Some "KILL_SWITCH"].
Proof. vm_compute. reflexivity. Qed.

(** * Further properties of the gate *)

Section MoreGateFacts.
Context `{Host}.

(** The three ways an evaluation can go: the empty-order guard answers, the
    property read on [null] throws, or the rules decide. *)
Lemma canExecute_in_cases (v : Variant) (g : PolicyGate) (arg : OrderArg)
    (c : Clock) :
  (empty_guard_fires v arg = true
   /\ canExecute_in v g arg c
      = (Resolved (Allowed "EMPTY_ORDER_PASS" (version g) (reading c 1 + 3000)),
         set_lastSnapshotAt (reading c 0) g, tick (tick c)))
  \/ (v = GateJs /\ arg = ArgNull
      /\ canExecute_in v g arg c
         = (Rejected_TypeError, set_lastSnapshotAt (reading c 0) g, tick c))
  \/ (empty_guard_fires v arg = false /\ (v = GateJs -> arg <> ArgNull)
      /\ canExecute_in v g arg c
         = let r := rules (set_lastSnapshotAt (reading c 0) g) (order_of arg)
                          (tick c) in
           (Resolved (fst (fst r)), snd (fst r), snd r)).
Proof.
  destruct v, arg as [| |o]; cbn [canExecute_in empty_guard_fires order_of].
  - right; right. split; [reflexivity |]. split; [discriminate |].
    rewrite canExecute_undefined. apply canExecute_object.
  - right; left. repeat split. apply canExecute_null.
  - right; right. split; [reflexivity |]. split; [discriminate |].
    apply canExecute_object.
  - left. split; [reflexivity |]. now apply Guarded_canExecute_empty.
  - left. split; [reflexivity |]. now apply Guarded_canExecute_empty.
  - destruct (empty_or_missing (ArgObject o)) eqn:E.
    + left. split; [reflexivity |]. now apply Guarded_canExecute_empty.
    + right; right. split; [reflexivity |]. split; [discriminate |].
      cbn in E. apply Nat.eqb_neq in E.
      rewrite Guarded_canExecute_object by exact E. apply canExecute_object.
Qed.

Lemma rules_codes (g : PolicyGate) (o : Order) (c : Clock) :
  let d := fst (fst (rules g o c)) in
  (decision_allow d = true
   /\ In (reason_code d) ["PASS"; "CLOSE_ONLY"; "KILL_SWITCH_CLOSE_ONLY"])
  \/ (decision_allow d = false
      /\ In (reason_code d)
            ["KILL_SWITCH"; "GLOBAL_HALT"; "SYMBOL_HALT"; "RATE_LIMIT";
             "SAFE_MODE"; "DATA_STALE"; "MAX_ORDER"]).
Proof.
  cbv zeta. run_rules;
    first [ left; split; [reflexivity | simpl; tauto]
          | right; split; [reflexivity | simpl; tauto] ].
Qed.

(** Which decisions have consulted the rate limiter. *)
Lemma rules_budget (g : PolicyGate) (o : Order) (c : Clock) :
  let d := fst (fst (rules g o c)) in
  let g' := snd (fst (rules g o c)) in
  (In (reason_code d)
      ["KILL_SWITCH"; "KILL_SWITCH_CLOSE_ONLY"; "GLOBAL_HALT"; "SYMBOL_HALT"]
   /\ g' = g)
  \/ (In (reason_code d)
         ["RATE_LIMIT"; "SAFE_MODE"; "DATA_STALE"; "MAX_ORDER"; "CLOSE_ONLY";
          "PASS"]
      /\ g' = set_rateLimiter (snd (fst (RateLimiter_allow (rateLimiter g) c)))
                              g).
Proof.
  cbv zeta. unfold rules.
  destruct (truthy (kill_switch (config g)));
    [destruct (_isCloseOnly o); left; split; [simpl; tauto | reflexivity
                                              | simpl; tauto | reflexivity] |].
  destruct (globalHalt g && negb (_isCloseOnly o));
    [left; split; [simpl; tauto | reflexivity] |].
  match goal with |- context [if ?b then _ else _] => destruct b end;
    [left; split; [simpl; tauto | reflexivity] |].
  right. unfold bind.
  destruct (RateLimiter_allow (rateLimiter g) c) as [[ok rl] c1].
  cbn [fst snd].
  run_rules; split; first [reflexivity | simpl; tauto].
Qed.
End MoreGateFacts.

(** X1: an evaluation either settles with a decision whose reason is one of
    the eleven codes, an allow for [PASS], [CLOSE_ONLY],
    [KILL_SWITCH_CLOSE_ONLY] and [EMPTY_ORDER_PASS] and a deny for the seven
    others, or it is rejected, which happens only for a [null] order in
    gate.js; [EMPTY_ORDER_PASS] is the answer exactly when the empty-order
    guard fires. *)
Theorem decision_codes `{Host} (v : Variant) (g : PolicyGate) (arg : OrderArg)
    (c : Clock) :
  (exists d,
      fst (fst (canExecute_in v g arg c)) = Resolved d
      /\ ((decision_allow d = true
           /\ In (reason_code d)
                 ["PASS"; "CLOSE_ONLY"; "KILL_SWITCH_CLOSE_ONLY";
                  "EMPTY_ORDER_PASS"])
          \/ (decision_allow d = false
              /\ In (reason_code d)
                    ["KILL_SWITCH"; "GLOBAL_HALT"; "SYMBOL_HALT"; "RATE_LIMIT";
                     "SAFE_MODE"; "DATA_STALE"; "MAX_ORDER"]))
      /\ (reason_code d = "EMPTY_ORDER_PASS" <-> empty_guard_fires v arg = true))
  \/ (fst (fst (canExecute_in v g arg c)) = Rejected_TypeError
      /\ v = GateJs /\ arg = ArgNull).
Proof.
  destruct (canExecute_in_cases v g arg c)
    as [[E R] | [(Ev & Ea & R) | (E & _ & R)]]; rewrite R.
  - left. eexists. split; [reflexivity |]. split.
    + left. split; [reflexivity | simpl; tauto].
    + cbn. tauto.
  - right. auto.
  - left. cbv zeta. cbn [fst snd]. eexists. split; [reflexivity |].
    pose proof (rules_codes (set_lastSnapshotAt (reading c 0) g) (order_of arg)
                            (tick c)) as P.
    cbv zeta in P. split.
    + destruct P as [[A I] | [A I]]; [left | right];
        (split; [exact A | simpl in *; tauto]).
    + rewrite E. split; [| discriminate].
      intros Q. rewrite Q in P. simpl in P.
      destruct P as [[_ P] | [_ P]];
        repeat (destruct P as [P | P]; [discriminate P |]); contradiction.
Qed.

(** X2: a decision [KILL_SWITCH], [KILL_SWITCH_CLOSE_ONLY], [GLOBAL_HALT] or
    [SYMBOL_HALT] is taken without the rate limiter and leaves it as it was;
    every other decision of the rules, the denials [SAFE_MODE], [DATA_STALE]
    and [MAX_ORDER] included, comes after the limiter was asked, so these
    orders count against the budget of the second. *)
Theorem denied_orders_and_budget `{Host} (v : Variant) (g : PolicyGate)
    (arg : OrderArg) (c : Clock) (d : Decision) :
  empty_guard_fires v arg = false ->
  fst (fst (canExecute_in v g arg c)) = Resolved d ->
  (In (reason_code d)
      ["KILL_SWITCH"; "KILL_SWITCH_CLOSE_ONLY"; "GLOBAL_HALT"; "SYMBOL_HALT"]
   /\ rateLimiter (snd (fst (canExecute_in v g arg c))) = rateLimiter g)
  \/ (In (reason_code d)
         ["RATE_LIMIT"; "SAFE_MODE"; "DATA_STALE"; "MAX_ORDER"; "CLOSE_ONLY";
          "PASS"]
      /\ rateLimiter (snd (fst (canExecute_in v g arg c)))
         = snd (fst (RateLimiter_allow (rateLimiter g) (tick c)))).
Proof.
  intros E D.
  destruct (canExecute_in_cases v g arg c)
    as [[E' _] | [(Ev & Ea & R) | (_ & _ & R)]].
  - congruence.
  - rewrite R in D. discriminate D.
  - rewrite R in *. cbv zeta in *. cbn [fst snd] in *. inversion D as [D'].
    destruct (rules_budget (set_lastSnapshotAt (reading c 0) g) (order_of arg)
                           (tick c)) as [[I G] | [I G]]; cbv zeta in I, G.
    + left. split; [exact I |]. now rewrite G.
    + right. split; [exact I |]. now rewrite G.
Qed.

Lemma denied_orders_and_budget_witness :
  rateLimiter
    (snd (fst (canExecute_in GateJs (set_safeMode true (exhausted_gate 5))
                             (ArgObject buy_order) (frozen_clock 9000))))
  = {| maxPerSec := Num 5; bucket := 1; ts := 9 |}.
Proof.
  destruct (denied_orders_and_budget GateJs
              (set_safeMode true (exhausted_gate 5)) (ArgObject buy_order)
              (frozen_clock 9000)
              (Denied "SAFE_MODE" "Safe mode: close-only" (pg 0) 9000)
              eq_refl eq_refl) as [[I _] | [_ R]].
  - exfalso. simpl in I.
    repeat (destruct I as [I | I]; [discriminate I |]). exact I.
  - exact R.
Defined.

Section RuleSoundness.
Context `{Host}.

Lemma Qltb_trans_0 (a : Z) (m : Q) :
  Qltb 0 m = true -> Qltb m (inject_Z a) = true -> 0 < a.
Proof.
  unfold Qltb, inject_Z. simpl. intros P Q.
  apply Z.ltb_lt in P. apply Z.ltb_lt in Q. nia.
Qed.

(** Every denial of the rules is justified by the test of its own rule. *)
Lemma rules_sound (g : PolicyGate) (o : Order) (c : Clock) :
  let d := fst (fst (rules g o c)) in
  let sym := toUpperCase (ToString (js_or (prop o "symbol") (JString ""))) in
  let maxStale :=
    ToNumber (js_or (max_staleness_ms (config g)) (JNumber (Num 0))) in
  let age := reading c 1 - Z_or (lastSnapshotAt g) 0 in
  let notional :=
    ToNumber (js_or (js_or (prop o "notional") (prop o "quote"))
                    (JNumber (Num 0))) in
  let maxOrder :=
    ToNumber (js_or (max_order_usdt (config g)) (JNumber (Num 0))) in
  (reason_code d = "KILL_SWITCH" ->
     truthy (kill_switch (config g)) = true /\ _isCloseOnly o = false)
  /\ (reason_code d = "GLOBAL_HALT" ->
        globalHalt g = true /\ _isCloseOnly o = false)
  /\ (reason_code d = "SYMBOL_HALT" ->
        sym ∈ symbolHalt g /\ _isCloseOnly o = false
        /\ reason_detail d = Some ("Symbol " +:+ sym +:+ " halted"))
  /\ (reason_code d = "RATE_LIMIT" ->
        fst (fst (RateLimiter_allow (rateLimiter g) c)) = false)
  /\ (reason_code d = "SAFE_MODE" ->
        safeMode g = true /\ _isCloseOnly o = false)
  /\ (reason_code d = "DATA_STALE" ->
        num_gt maxStale (Num 0) = true
        /\ num_gt (num_of_Z age) maxStale = true
        /\ _isCloseOnly o = false)
  /\ (reason_code d = "MAX_ORDER" ->
        num_gt maxOrder (Num 0) = true
        /\ num_gt notional (Num 0) = true
        /\ num_gt notional maxOrder = true
        /\ _isCloseOnly o = false
        /\ reason_detail d
           = Some ("Notional " +:+ NumberToString notional +:+ " > "
                   +:+ NumberToString maxOrder)).
Proof.
  cbv zeta. unfold rules, allow, deny, bind, ret, Date_now.
  destruct (RateLimiter_allow (rateLimiter g) c) as [[ok rl] c1] eqn:RL.
  assert (C1 : c1 = tick c).
  { apply (f_equal snd) in RL. now rewrite RateLimiter_allow_clock in RL. }
  subst c1. unfold reading. rewrite Nat.add_1_r.
  repeat first
    [ progress cbn [fst snd negb set_rateLimiter set_lastSnapshotAt config
                    version symbolHalt globalHalt safeMode rateLimiter
                    lastSnapshotAt startedAt readings cursor tick
                    policy_version reason_code reason_detail decision_allow]
    | rewrite RL
    | match goal with
      | |- context [if ?b then _ else _] => destruct b eqn:?
      end ];
    repeat apply conj; intros Q; try discriminate Q;
    repeat match goal with
           | E : (_ && _)%bool = true |- _ => apply andb_true_iff in E as [? ?]
           | E : negb _ = true |- _ => apply negb_true_iff in E
           | E : bool_decide _ = true |- _ => apply bool_decide_eq_true in E
           end;
    repeat apply conj; try assumption; try reflexivity.
Qed.
End RuleSoundness.

(** A decision that is not the answer of the empty-order guard is the one
    the rules give. *)
Lemma settled_by_rules `{Host} (v : Variant) (g : PolicyGate) (arg : OrderArg)
    (c : Clock) (d : Decision) :
  fst (fst (canExecute_in v g arg c)) = Resolved d ->
  reason_code d = "EMPTY_ORDER_PASS"
  \/ d = fst (fst (rules (set_lastSnapshotAt (reading c 0) g) (order_of arg)
                         (tick c))).
Proof.
  intros D.
  destruct (canExecute_in_cases v g arg c)
    as [[_ R] | [(_ & _ & R) | (_ & _ & R)]]; rewrite R in D.
  - left. now inversion D.
  - discriminate D.
  - right. cbv zeta in D. cbn [fst snd] in D. now inversion D.
Qed.

(** The staleness rule of one call: the age is taken between the first and
    the third reading of the clock. *)
Lemma data_stale_sound `{Host} (v : Variant) (g : PolicyGate) (arg : OrderArg)
    (c : Clock) (d : Decision) :
  fst (fst (canExecute_in v g arg c)) = Resolved d ->
  reason_code d = "DATA_STALE" ->
  num_gt (ToNumber (js_or (max_staleness_ms (config g)) (JNumber (Num 0))))
         (Num 0) = true
  /\ num_gt (num_of_Z (reading c 2 - Z_or (reading c 0) 0))
            (ToNumber (js_or (max_staleness_ms (config g)) (JNumber (Num 0))))
     = true.
Proof.
  intros D R. destruct (settled_by_rules v g arg c d D) as [E | E].
  - rewrite E in R. discriminate R.
  - pose proof (rules_sound (set_lastSnapshotAt (reading c 0) g) (order_of arg)
                            (tick c)) as S.
    cbv zeta in S. rewrite <- E in S.
    destruct S as (_ & _ & _ & _ & _ & S & _).
    destruct (S R) as (P & A & _).
    cbn [config lastSnapshotAt set_lastSnapshotAt] in P, A.
    rewrite reading_tick in A. now split.
Qed.

(** The rate-limit rule of one call. *)
Lemma rate_limit_sound `{Host} (v : Variant) (g : PolicyGate) (arg : OrderArg)
    (c : Clock) (d : Decision) :
  fst (fst (canExecute_in v g arg c)) = Resolved d ->
  reason_code d = "RATE_LIMIT" ->
  fst (fst (RateLimiter_allow (rateLimiter g) (tick c))) = false.
Proof.
  intros D R. destruct (settled_by_rules v g arg c d D) as [E | E].
  - rewrite E in R. discriminate R.
  - pose proof (rules_sound (set_lastSnapshotAt (reading c 0) g) (order_of arg)
                            (tick c)) as S.
    cbv zeta in S. rewrite <- E in S.
    destruct S as (_ & _ & _ & S & _). exact (S R).
Qed.


(** X3: no denial without its cause.  Whatever the gate, the order and the
    clock, a deny [KILL_SWITCH] means the kill switch is on, [GLOBAL_HALT]
    that the global halt is on, [SYMBOL_HALT] that the upper-cased symbol of
    the order is in the halted set (and the detail names it), [RATE_LIMIT]
    that the rate limiter refused the call, [SAFE_MODE] that safe mode is
    on, [DATA_STALE] that a positive staleness limit is configured and
    exceeded by the measured age, [MAX_ORDER] that a positive cap is
    configured and exceeded by a positive notional (the detail gives both);
    and except for [RATE_LIMIT] the order is not close-only. *)
Theorem denials_are_justified `{Host} (v : Variant) (g : PolicyGate)
    (arg : OrderArg) (c : Clock) (d : Decision) :
  fst (fst (canExecute_in v g arg c)) = Resolved d ->
  let o := order_of arg in
  let sym := toUpperCase (ToString (js_or (prop o "symbol") (JString ""))) in
  let maxStale :=
    ToNumber (js_or (max_staleness_ms (config g)) (JNumber (Num 0))) in
  let age := reading c 2 - Z_or (reading c 0) 0 in
  let notional :=
    ToNumber (js_or (js_or (prop o "notional") (prop o "quote"))
                    (JNumber (Num 0))) in
  let maxOrder :=
    ToNumber (js_or (max_order_usdt (config g)) (JNumber (Num 0))) in
  (reason_code d = "KILL_SWITCH" ->
     truthy (kill_switch (config g)) = true /\ _isCloseOnly o = false)
  /\ (reason_code d = "GLOBAL_HALT" ->
        globalHalt g = true /\ _isCloseOnly o = false)
  /\ (reason_code d = "SYMBOL_HALT" ->
        sym ∈ symbolHalt g /\ _isCloseOnly o = false
        /\ reason_detail d = Some ("Symbol " +:+ sym +:+ " halted"))
  /\ (reason_code d = "RATE_LIMIT" ->
        fst (fst (RateLimiter_allow (rateLimiter g) (tick c))) = false)
  /\ (reason_code d = "SAFE_MODE" ->
        safeMode g = true /\ _isCloseOnly o = false)
  /\ (reason_code d = "DATA_STALE" ->
        num_gt maxStale (Num 0) = true
        /\ num_gt (num_of_Z age) maxStale = true
        /\ _isCloseOnly o = false)
  /\ (reason_code d = "MAX_ORDER" ->
        num_gt maxOrder (Num 0) = true
        /\ num_gt notional (Num 0) = true
        /\ num_gt notional maxOrder = true
        /\ _isCloseOnly o = false
        /\ reason_detail d
           = Some ("Notional " +:+ NumberToString notional +:+ " > "
                   +:+ NumberToString maxOrder)).
Proof.
  intros D. destruct (settled_by_rules v g arg c d D) as [E | E].
  - cbv zeta. rewrite E. repeat apply conj; discriminate.
  - pose proof (rules_sound (set_lastSnapshotAt (reading c 0) g) (order_of arg)
                            (tick c)) as S.
    cbv zeta in S. rewrite <- E in S.
    cbn [config globalHalt symbolHalt safeMode rateLimiter lastSnapshotAt
         set_lastSnapshotAt] in S.
    rewrite reading_tick in S. exact S.
Qed.

Lemma denials_are_justified_witness :
  reason_detail (Denied "MAX_ORDER" "Notional 5000 > 1000" (pg 0) 2000)
  = Some ("Notional " +:+ NumberToString (num_of_Z 5000) +:+ " > "
          +:+ NumberToString (num_of_Z 1000)).
Proof.
  pose proof (denials_are_justified GateJs
                (idle_gate (config_of JUndefined JUndefined
                                      (JNumber (num_of_Z 1000)) JUndefined))
                (ArgObject big_order) (frozen_clock 2000)
                (Denied "MAX_ORDER" "Notional 5000 > 1000" (pg 0) 2000)
                eq_refl) as S.
  cbv zeta in S.
  exact (proj2 (proj2 (proj2 (proj2
           (proj2 (proj2 (proj2 (proj2 (proj2 (proj2 S))))) eq_refl))))).
Defined.

(** X4: the staleness guard can only answer [DATA_STALE] if the clock has
    moved forward between the first and the third reading of the call
    itself; when the clock stands still during the call the answer is never
    [DATA_STALE], however long ago the gate was last consulted. *)
Theorem data_stale_needs_time `{Host} (v : Variant) (g : PolicyGate)
    (arg : OrderArg) (c : Clock) :
  settled_reason (fst (fst (canExecute_in v g arg c))) = Some "DATA_STALE" ->
  reading c 0 < reading c 2.
Proof.
  intros R.
  destruct (fst (fst (canExecute_in v g arg c))) as [d |] eqn:D;
    [| discriminate R].
  cbn in R. inversion R as [R'].
  destruct (data_stale_sound v g arg c d D R') as (P & A).
  assert (Z : Z_or (reading c 0) 0 = reading c 0).
  { unfold Z_or. destruct (reading c 0 =? 0) eqn:E; [| reflexivity].
    apply Z.eqb_eq in E. now rewrite E. }
  rewrite Z in A.
  destruct (ToNumber (js_or (max_staleness_ms (config g)) (JNumber (Num 0))))
    as [| m | [|]]; [discriminate P | | discriminate P | discriminate A].
  unfold num_gt, num_of_Z in *.
  pose proof (Qltb_trans_0 _ _ P A). lia.
Qed.

Lemma data_stale_needs_time_witness : 1000 < 2200.
Proof.
  exact (data_stale_needs_time GateJs
           (idle_gate (config_of JUndefined JUndefined JUndefined
                                 (JNumber (num_of_Z 1000))))
           (ArgObject buy_order) (ticking_clock 1000 600) eq_refl).
Defined.

Section HaltFacts.
Context `{Host}.

Lemma num_ge_0_positive (m : JsNum) :
  num_gt m (Num 0) = true -> num_ge (num_of_Z 0) m = false.
Proof.
  destruct m as [| q | [|]]; [discriminate | | discriminate | reflexivity].
  unfold num_gt, num_ge, num_of_Z, Qltb, Qleb, inject_Z. simpl.
  intros P. apply Z.ltb_lt in P. apply Z.leb_gt. lia.
Qed.

(** For a close-only order the rules read the configuration, the version
    and the rate limiter of the gate, and nothing else of it. *)
Lemma rules_close_only_reads (g g' : PolicyGate) (o : Order) (c : Clock) :
  _isCloseOnly o = true ->
  config g' = config g -> version g' = version g ->
  rateLimiter g' = rateLimiter g ->
  fst (fst (rules g' o c)) = fst (fst (rules g o c)).
Proof.
  intros C Ec Ev Er.
  destruct g as [cf ve sh gh sm rl ls st], g' as [cf' ve' sh' gh' sm' rl' ls' st'].
  cbn in Ec, Ev, Er. subst cf' ve' rl'.
  unfold rules. cbn [config globalHalt symbolHalt safeMode rateLimiter].
  rewrite C. cbn [negb]. rewrite !andb_false_r.
  destruct (truthy (kill_switch cf)); [reflexivity |].
  unfold allow, deny, bind, ret, Date_now.
  destruct (RateLimiter_allow rl c) as [[ok r1] c1].
  repeat first
    [ progress cbn [fst snd negb andb set_rateLimiter set_lastSnapshotAt config
                    version symbolHalt globalHalt safeMode rateLimiter
                    lastSnapshotAt startedAt readings cursor
                    policy_version reason_code decision_allow]
    | rewrite andb_false_r
    | match goal with
      | |- context [if ?b then _ else _] => destruct b eqn:?
      end ]; reflexivity.
Qed.
End HaltFacts.

(** X5: the three switches of the operator do not reach a close-only
    order.  Whatever [setGlobalHalt], [setSafeMode] and [setSymbolHalt] are
    called with, the decision a close-only order gets is the one it would
    have got without these calls. *)
Theorem close_only_ignores_switches `{Host} (v : Variant) (g : PolicyGate)
    (a b sym on : JsVal) (o : Order) (c : Clock) :
  _isCloseOnly o = true ->
  fst (fst (canExecute_in v
              (setSymbolHalt (setSafeMode (setGlobalHalt g a) b) sym on)
              (ArgObject o) c))
  = fst (fst (canExecute_in v g (ArgObject o) c)).
Proof.
  intros C.
  rewrite !canExecute_in_object by now apply close_only_guard.
  cbv zeta. cbn [fst snd]. f_equal.
  apply rules_close_only_reads; [exact C | | |];
    unfold setSymbolHalt, setSafeMode, setGlobalHalt;
    repeat match goal with
           | |- context [if ?b then _ else _] => destruct b
           end; reflexivity.
Qed.

Lemma close_only_ignores_switches_witness :
  fst (fst (canExecute_in GateJs
              (setSymbolHalt
                 (setSafeMode (setGlobalHalt (idle_gate empty_config)
                                             (JBool true))
                              (JBool true))
                 (JString "btcusdt") (JBool true))
              (ArgObject close_order) (frozen_clock 2000)))
  = Resolved (Allowed "CLOSE_ONLY" (pg 0) 5000).
Proof.
  rewrite (close_only_ignores_switches GateJs (idle_gate empty_config)
             (JBool true) (JBool true) (JString "btcusdt") (JBool true)
             close_order (frozen_clock 2000) eq_refl).
  vm_compute. reflexivity.
Defined.

(** X6: after [setGlobalHalt(on)] with a truthy [on], and with the kill
    switch off, every order that is not close-only is denied with
    [GLOBAL_HALT]; the rate limiter is not consulted, so the gate is left as
    it was but for the refreshed timestamp. *)
Theorem global_halt_blocks `{Host} (v : Variant) (g : PolicyGate) (on : JsVal)
    (o : Order) (c : Clock) :
  truthy on = true ->
  truthy (kill_switch (config g)) = false ->
  _isCloseOnly o = false ->
  empty_guard_fires v (ArgObject o) = false ->
  fst (canExecute_in v (setGlobalHalt g on) (ArgObject o) c)
  = (Resolved (Denied "GLOBAL_HALT" "Trading globally halted" (version g)
                      (reading c 1)),
     set_lastSnapshotAt (reading c 0) (setGlobalHalt g on)).
Proof.
  intros O K C E. rewrite canExecute_in_object by exact E.
  cbv zeta. unfold rules, setGlobalHalt.
  cbn [config globalHalt set_lastSnapshotAt set_globalHalt].
  rewrite K, O, C. cbn [negb andb]. unfold bind, ret. rewrite deny_eq.
  cbn [fst snd version set_lastSnapshotAt set_globalHalt].
  now rewrite <- reading_0, reading_tick.
Qed.

Lemma global_halt_blocks_witness :
  fst (fst (canExecute_in GateJs
              (setGlobalHalt (idle_gate empty_config) (JNumber (num_of_Z 1)))
              (ArgObject buy_order) (frozen_clock 2000)))
  = Resolved (Denied "GLOBAL_HALT" "Trading globally halted" (pg 0) 2000).
Proof.
  refine (f_equal fst
            (global_halt_blocks GateJs (idle_gate empty_config)
               (JNumber (num_of_Z 1)) buy_order (frozen_clock 2000) _ _ _ _));
    vm_compute; reflexivity.
Defined.

(** X7: after [setSafeMode(on)] with a truthy [on], an order that is not
    close-only and that neither the kill switch nor a halt stops is never
    allowed: it is denied with [SAFE_MODE] when the rate limiter admits the
    call, and with [RATE_LIMIT] when it does not, the rate limit being
    checked first. *)
Theorem safe_mode_blocks `{Host} (v : Variant) (g : PolicyGate) (on : JsVal)
    (o : Order) (c : Clock) :
  truthy on = true ->
  truthy (kill_switch (config g)) = false ->
  globalHalt g = false ->
  bool_decide
    (toUpperCase (ToString (js_or (prop o "symbol") (JString "")))
     ∈ symbolHalt g) = false ->
  _isCloseOnly o = false ->
  empty_guard_fires v (ArgObject o) = false ->
  fst (fst (canExecute_in v (setSafeMode g on) (ArgObject o) c))
  = Resolved
      (if fst (fst (RateLimiter_allow (rateLimiter g) (tick c)))
       then Denied "SAFE_MODE" "Safe mode: close-only" (version g)
                   (reading c 2)
       else Denied "RATE_LIMIT" "Too many requests per second" (version g)
                   (reading c 2)).
Proof.
  intros O K G Sy C E. rewrite canExecute_in_object by exact E.
  cbv zeta. cbn [fst snd]. unfold rules, setSafeMode.
  cbn [config globalHalt symbolHalt safeMode rateLimiter set_lastSnapshotAt
       set_safeMode].
  rewrite K, G, Sy, C, O. cbn [negb andb]. rewrite andb_false_r. cbn [andb].
  unfold bind at 1. rewrite RateLimiter_allow_eq. cbv zeta. cbn [fst snd].
  assert (R : readings (tick c) (S (cursor (tick c))) = reading c 2).
  { unfold reading, tick. cbn. f_equal. lia. }
  destruct (num_ge _ _);
    cbn [fst snd negb andb safeMode set_rateLimiter set_lastSnapshotAt
         set_safeMode];
    unfold bind, ret; rewrite deny_eq;
    cbn [fst snd version set_rateLimiter set_lastSnapshotAt set_safeMode
         readings cursor];
    now rewrite R.
Qed.

Lemma safe_mode_blocks_witness :
  fst (fst (canExecute_in GateJs
              (setSafeMode (exhausted_gate 2) (JBool true))
              (ArgObject buy_order) (frozen_clock 2000)))
  = Resolved (Denied "RATE_LIMIT" "Too many requests per second" (pg 0) 2000).
Proof.
  refine (safe_mode_blocks GateJs (exhausted_gate 2) (JBool true) buy_order
            (frozen_clock 2000) _ _ _ _ _ _); vm_compute; reflexivity.
Defined.



(** X9: replacing the configuration keeps the halted symbols, the global
    halt, the safe mode and the two timestamps, and starts a new rate
    limiter with an empty counter: if the new ceiling is positive, the next
    evaluation is never answered [RATE_LIMIT], even when the old limiter had
    used up the current second. *)
Theorem updateConfig_reopens_window `{Host} (v : Variant) (g : PolicyGate)
    (newCfg : option Config) (c : Clock) (arg : OrderArg) (c' : Clock) :
  let g' := fst (updateConfig g newCfg c) in
  num_gt (maxPerSec (rateLimiter g')) (Num 0) = true ->
  symbolHalt g' = symbolHalt g
  /\ globalHalt g' = globalHalt g
  /\ safeMode g' = safeMode g
  /\ lastSnapshotAt g' = lastSnapshotAt g
  /\ startedAt g' = startedAt g
  /\ bucket (rateLimiter g') = 0
  /\ settled_reason (fst (fst (canExecute_in v g' arg c'))) <> Some "RATE_LIMIT".
Proof.
  intros g' P. repeat apply conj; try reflexivity.
  intros R.
  destruct (fst (fst (canExecute_in v g' arg c'))) as [d |] eqn:D;
    [| discriminate R].
  cbn in R. inversion R as [R'].
  pose proof (rate_limit_sound v g' arg c' d D R') as S.
  rewrite RateLimiter_allow_eq in S. cbv zeta in S.
  assert (B : (if ts (rateLimiter g')
                     =? second_of (readings (tick c') (cursor (tick c')))
               then bucket (rateLimiter g') else 0) = 0)
    by (destruct (_ =? _); reflexivity).
  rewrite B, (num_ge_0_positive _ P) in S. discriminate S.
Qed.

Lemma updateConfig_reopens_window_witness :
  settled_reason
    (fst (fst (canExecute_in GateJs
                 (fst (updateConfig (exhausted_gate 2) None (frozen_clock 2000)))
                 (ArgObject buy_order) (frozen_clock 2000))))
  <> Some "RATE_LIMIT".
Proof.
  refine (proj2 (proj2 (proj2 (proj2 (proj2 (proj2
            (updateConfig_reopens_window GateJs (exhausted_gate 2) None
               (frozen_clock 2000) (ArgObject buy_order) (frozen_clock 2000)
               _))))))).
  reflexivity.
Defined.

Section BudgetFacts.
Context `{Host}.

Lemma rules_unrestricted (g : PolicyGate) (o : Order) (c : Clock) :
  unrestricted g ->
  rules g o c
  = let ar := fst (RateLimiter_allow (rateLimiter g) c) in
    (if fst ar
     then (if _isCloseOnly o
           then Allowed "CLOSE_ONLY" (version g) (reading c 1 + 3000)
           else Allowed "PASS" (version g) (reading c 1 + 3000))
     else Denied "RATE_LIMIT" "Too many requests per second" (version g)
                 (reading c 1),
     set_rateLimiter (snd ar) g,
     tick (tick c)).
Proof.
  intros (K & St & Cap & G & Sm & Sh). unfold rules.
  rewrite K, G, Sh. cbn [andb].
  rewrite bool_decide_eq_false_2 by apply not_elem_of_empty.
  rewrite andb_false_r. cbn [andb].
  unfold bind at 1. rewrite RateLimiter_allow_eq. cbv zeta.
  assert (R : readings c (S (cursor c)) = reading c 1).
  { unfold reading. f_equal. lia. }
  destruct (num_ge _ _);
    cbn [fst snd negb andb config safeMode lastSnapshotAt set_rateLimiter].
  - unfold bind, ret. rewrite deny_eq.
    cbn [fst snd version set_rateLimiter readings cursor].
    now rewrite R.
  - rewrite Sm. unfold js_or. rewrite St, Cap. cbn [andb ToNumber].
    change (num_gt (Num 0) (Num 0)) with false. cbn [andb].
    unfold allow, deny, bind, ret, Date_now.
    destruct (_isCloseOnly o);
      cbn [fst snd version set_rateLimiter readings cursor];
      now rewrite R.
Qed.

Lemma unrestricted_step (v : Variant) (g : PolicyGate) (o : Order) (c : Clock) :
  unrestricted g ->
  empty_guard_fires v (ArgObject o) = false ->
  canExecute_in v g (ArgObject o) c
  = let ar := fst (RateLimiter_allow (rateLimiter g) (tick c)) in
    (Resolved
       (if fst ar
        then (if _isCloseOnly o
              then Allowed "CLOSE_ONLY" (version g) (reading c 2 + 3000)
              else Allowed "PASS" (version g) (reading c 2 + 3000))
        else Denied "RATE_LIMIT" "Too many requests per second" (version g)
                    (reading c 2)),
     set_rateLimiter (snd ar) (set_lastSnapshotAt (reading c 0) g),
     tick (tick (tick c))).
Proof.
  intros U E.
  rewrite canExecute_in_object by exact E.
  rewrite (rules_unrestricted (set_lastSnapshotAt (reading c 0) g) o (tick c))
    by exact U.
  cbv zeta. cbn [fst snd rateLimiter version set_lastSnapshotAt].
  rewrite reading_tick.
  now destruct (fst (fst (RateLimiter_allow (rateLimiter g) (tick c)))).
Qed.

Lemma budget_run (v : Variant) (N : Z) (s : Z) (orders : list Order) :
  forall (g : PolicyGate) (c : Clock) (j : nat),
    unrestricted g ->
    maxPerSec (rateLimiter g) = num_of_Z N ->
    bucket_in s (rateLimiter g) = Z.min (Z.of_nat j) N ->
    Forall (fun o => empty_guard_fires v (ArgObject o) = false) orders ->
    (forall i, second_of (reading c i) = s) ->
    fst (fst (evaluate_all v g (map ArgObject orders) c))
    = imap (fun i o =>
              Resolved
                (if Z.of_nat (j + i) <? N
                 then Allowed (if _isCloseOnly o then "CLOSE_ONLY" else "PASS")
                              (version g) (reading c (3 * i + 2) + 3000)
                 else Denied "RATE_LIMIT" "Too many requests per second"
                             (version g) (reading c (3 * i + 2))))
           orders.
Proof.
  induction orders as [|o orders IH]; intros g c j U M B F W; [reflexivity |].
  inversion F as [| ? ? Fo Fr]; subst.
  cbn [map evaluate_all]. unfold bind at 1.
  rewrite (unrestricted_step v g o c U Fo). cbv zeta.
  rewrite RateLimiter_allow_eq. cbv zeta.
  assert (Now : second_of (readings (tick c) (cursor (tick c))) = s).
  { rewrite <- (W 1%nat). unfold reading, tick. cbn. do 2 f_equal. lia. }
  rewrite Now. fold (bucket_in s (rateLimiter g)). rewrite B, M, num_ge_of_Z.
  assert (W3 : forall i, second_of (reading (tick (tick (tick c))) i) = s).
  { intros i. rewrite !reading_tick. apply W. }
  assert (T : forall i, reading (tick (tick (tick c))) (3 * i + 2)
                        = reading c (3 * S i + 2)).
  { intros i. rewrite !reading_tick. f_equal. lia. }
  unfold bind, ret.
  destruct (N <=? Z.min (Z.of_nat j) N) eqn:E; cbn [fst snd].
  - apply Z.leb_le in E.
    match goal with |- context [evaluate_all v ?g1 _ ?c1] =>
      specialize (IH g1 c1 (S j));
      destruct (evaluate_all v g1 (map ArgObject orders) c1) as [[ss g2] c2]
    end.
    cbn [fst snd map] in *.
    rewrite IH; [| exact U | reflexivity | | exact Fr | exact W3].
    + cbn [imap]. f_equal.
      * rewrite Nat.add_0_r.
        destruct (Z.of_nat j <? N) eqn:L; [apply Z.ltb_lt in L; lia |].
        reflexivity.
      * apply imap_ext. intros i x _. cbn [compose version
          set_rateLimiter set_lastSnapshotAt].
        rewrite T. do 2 f_equal.
        replace (Z.of_nat (S j + i)) with (Z.of_nat (j + S i)) by lia.
        reflexivity.
    + unfold bucket_in. cbn [ts bucket rateLimiter set_rateLimiter].
      rewrite Z.eqb_refl. lia.
  - apply Z.leb_gt in E.
    match goal with |- context [evaluate_all v ?g1 _ ?c1] =>
      specialize (IH g1 c1 (S j));
      destruct (evaluate_all v g1 (map ArgObject orders) c1) as [[ss g2] c2]
    end.
    cbn [fst snd map] in *.
    rewrite IH; [| exact U | reflexivity | | exact Fr | exact W3].
    + cbn [imap]. f_equal.
      * rewrite Nat.add_0_r.
        destruct (Z.of_nat j <? N) eqn:L; [| apply Z.ltb_ge in L; lia].
        now destruct (_isCloseOnly o).
      * apply imap_ext. intros i x _. cbn [compose version
          set_rateLimiter set_lastSnapshotAt].
        rewrite T. do 2 f_equal.
        replace (Z.of_nat (S j + i)) with (Z.of_nat (j + S i)) by lia.
        reflexivity.
    + unfold bucket_in. cbn [ts bucket rateLimiter set_rateLimiter].
      rewrite Z.eqb_refl. lia.
Qed.
End BudgetFacts.

(** X10: on a gate where only the rate limiter is in the way (kill switch
    off, no halt, no safe mode, no staleness limit, no cap) and whose
    ceiling is a positive integer N, of the orders evaluated within one
    second exactly the first N are allowed ([CLOSE_ONLY] for a close-only
    order, [PASS] for the others) and every later one is denied with
    [RATE_LIMIT]; close-only orders use up the budget like the others.
    Every decision carries the version of the gate and the third reading
    the evaluation makes of the clock. *)
Theorem gate_admits_first_N_orders `{Host} (v : Variant) (N : Z) (s : Z)
    (orders : list Order) (g : PolicyGate) (c : Clock) :
  0 < N ->
  unrestricted g ->
  maxPerSec (rateLimiter g) = num_of_Z N ->
  bucket_in s (rateLimiter g) = 0 ->
  Forall (fun o => empty_guard_fires v (ArgObject o) = false) orders ->
  (forall i, second_of (reading c i) = s) ->
  fst (fst (evaluate_all v g (map ArgObject orders) c))
  = imap (budget_decision N (version g) c) orders.
Proof.
  intros HN U M B F W.
  rewrite (budget_run v N s orders g c 0 U M); [reflexivity | | exact F | exact W].
  rewrite B. cbn. lia.
Qed.

Lemma gate_admits_first_N_orders_witness :
  fst (fst (evaluate_all GateJs (idle_gate empty_config)
              (map ArgObject [buy_order; close_order; buy_order;
                              buy_order; close_order; buy_order;
                              close_order])
              (frozen_clock 7000)))
  = [Resolved (Allowed "PASS" (pg 0) 10000);
     Resolved (Allowed "CLOSE_ONLY" (pg 0) 10000);
     Resolved (Allowed "PASS" (pg 0) 10000);
     Resolved (Allowed "PASS" (pg 0) 10000);
     Resolved (Allowed "CLOSE_ONLY" (pg 0) 10000);
     Resolved (Denied "RATE_LIMIT" "Too many requests per second" (pg 0) 7000);
     Resolved (Denied "RATE_LIMIT" "Too many requests per second" (pg 0) 7000)].
Proof.
  refine (gate_admits_first_N_orders GateJs 5 7
            [buy_order; close_order; buy_order; buy_order; close_order;
             buy_order; close_order]
            (idle_gate empty_config) (frozen_clock 7000) _ _ _ _ _ _).
  - lia.
  - repeat split.
  - reflexivity.
  - reflexivity.
  - repeat constructor.
  - intros i. reflexivity.
Defined.

(** * The routes of the trade server *)

Section RouteFacts.
Context `{Host}.

Lemma touch_eq (srv : Server) (c : Clock) :
  touch srv c
  = ({| server_config := server_config srv;
        server_gate := set_lastSnapshotAt (reading c 0) (server_gate srv);
        lastActivityAt := reading c 1 |},
     tick (tick c)).
Proof.
  unfold touch, bind, ret, Date_now, reading, tick. cbn.
  now rewrite Nat.add_0_r, Nat.add_1_r.
Qed.

(** With the kill switch, the global halt or safe mode on, the rules allow
    close-only orders only. *)
Lemma rules_blocked (g : PolicyGate) (o : Order) (c : Clock) :
  truthy (kill_switch (config g)) || globalHalt g || safeMode g = true ->
  _isCloseOnly o = false ->
  decision_allow (fst (fst (rules g o c))) = false.
Proof.
  intros S C. unfold rules. rewrite C. cbn [negb]. rewrite !andb_true_r.
  destruct (truthy (kill_switch (config g))); [reflexivity |].
  destruct (globalHalt g); [reflexivity |]. cbn in S.
  match goal with |- context [if ?b then _ else _] => destruct b end;
    [reflexivity |].
  unfold bind at 1.
  destruct (RateLimiter_allow (rateLimiter g) c) as [[ok rl] c1].
  cbn [fst snd]. destruct ok; [| reflexivity]. cbn [negb safeMode set_rateLimiter].
  now rewrite S.
Qed.

(** A route whose request is valid: both timestamps are refreshed, the gate
    is asked once, and its decision picks the answer. *)
Lemma handle_valid (r : Route) (srv : Server)
    (req_body : option (gmap string JsVal)) (c : Clock) :
  let body := default ∅ req_body in
  missing_symbol_or_side body = false ->
  bad_size (normalizedSize body) = false ->
  handle r srv req_body c
  = let run := rules (set_lastSnapshotAt (reading c 2)
                        (server_gate srv))
                     (route_order r body) (tick (tick (tick c))) in
    (route_reply r (server_config srv) body (fst (fst run)),
     {| server_config := server_config srv;
        server_gate := snd (fst run);
        lastActivityAt := reading c 1 |},
     snd run).
Proof.
  intros body M B.
  destruct r; cbn [handle route_order route_reply];
    [unfold mix_market_order | unfold spot_market_order];
    fold body; rewrite M; [rewrite B |];
    unfold bind at 1; rewrite touch_eq; rewrite ?B;
    cbn [server_gate server_config];
    unfold bind at 1; rewrite canExecute_object; cbv zeta;
    rewrite !reading_tick;
    destruct (rules _ _ _) as [[d g'] c'];
    reflexivity.
Qed.
(** A route whose request is not valid. *)
Lemma handle_invalid (r : Route) (srv : Server)
    (req_body : option (gmap string JsVal)) (c : Clock) :
  let body := default ∅ req_body in
  missing_symbol_or_side body || bad_size (normalizedSize body) = true ->
  handle r srv req_body c
  = (BadRequest (bad_request_message body),
     match r with
     | Mix => srv
     | Spot => if missing_symbol_or_side body then srv else touched srv c
     end,
     match r with
     | Mix => c
     | Spot => if missing_symbol_or_side body then c else tick (tick c)
     end).
Proof.
  intros body I.
  destruct r; cbn [handle]; unfold mix_market_order, spot_market_order,
    bad_request_message; fold body;
    destruct (missing_symbol_or_side body) eqn:M; try reflexivity;
    cbn in I; rewrite I; try reflexivity.
  unfold bind. now rewrite touch_eq.
Qed.
End RouteFacts.

Section RouteOrders.
Context `{Host}.

Lemma prop_insert (k k' : string) (v : JsVal) (m : gmap string JsVal) :
  prop (<[k := v]> m) k' = if String.eqb k k' then v else prop m k'.
Proof.
  unfold prop. rewrite lookup_insert.
  destruct (String.eqb_spec k k') as [-> | N].
  - now rewrite decide_True.
  - now rewrite decide_False.
Qed.

Lemma prop_singleton (k k' : string) (v : JsVal) :
  prop ({[k := v]} : gmap string JsVal) k'
  = if String.eqb k k' then v else JUndefined.
Proof.
  unfold prop. rewrite lookup_singleton.
  destruct (String.eqb_spec k k') as [-> | N].
  - now rewrite decide_True.
  - now rewrite decide_False.
Qed.

Lemma spot_order_not_close (body : gmap string JsVal) :
  _isCloseOnly (spot_order body) = false.
Proof.
  unfold _isCloseOnly, spot_order.
  now rewrite !prop_insert, !prop_singleton.
Qed.

Lemma mix_order_close (body : gmap string JsVal) :
  _isCloseOnly (mix_order body) = asks_to_close body.
Proof.
  unfold _isCloseOnly, asks_to_close, mix_order.
  rewrite !prop_insert, !prop_singleton. cbn.
  now rewrite orb_false_r.
Qed.


Lemma route_order_close (r : Route) (body : gmap string JsVal) :
  _isCloseOnly (route_order r body)
  = match r with Mix => asks_to_close body | Spot => false end.
Proof.
  destruct r; [apply mix_order_close | apply spot_order_not_close].
Qed.

(** The decision of the gate for a request: [canExecute] on the server's
    gate at the clock the route has reached. *)
Lemma handle_valid_canExecute (r : Route) (srv : Server)
    (req_body : option (gmap string JsVal)) (c : Clock) :
  let body := default ∅ req_body in
  missing_symbol_or_side body = false ->
  bad_size (normalizedSize body) = false ->
  exists d,
    canExecute (server_gate srv) (ArgObject (route_order r body))
               (tick (tick c))
    = (Resolved d,
       server_gate (snd (fst (handle r srv req_body c))),
       snd (handle r srv req_body c))
    /\ fst (fst (handle r srv req_body c))
       = route_reply r (server_config srv) body d
    /\ lastActivityAt (snd (fst (handle r srv req_body c))) = reading c 1
    /\ server_config (snd (fst (handle r srv req_body c))) = server_config srv.
Proof.
  intros body M B. rewrite (handle_valid r srv req_body c M B). fold body.
  cbv zeta. cbn [fst snd server_gate lastActivityAt server_config].
  rewrite canExecute_object. cbv zeta. rewrite !reading_tick.
  eexists. repeat apply conj; reflexivity.
Qed.

Lemma route_reply_cases (r : Route) (cfg : ServerConfig)
    (body : gmap string JsVal) (d : Decision) :
  (decision_allow d = false /\ route_reply r cfg body d = Blocked d)
  \/ (decision_allow d = true
      /\ truthy (prop body "dryRun") || truthy (dry_run cfg) = true
      /\ exists b, route_reply r cfg body d = DryRun b)
  \/ (decision_allow d = true
      /\ truthy (prop body "dryRun") || truthy (dry_run cfg) = false
      /\ exists p b, route_reply r cfg body d = CallExchange p b).
Proof.
  destruct r; cbn [route_reply]; unfold mix_reply, spot_reply;
    (destruct (decision_allow d); cbn [negb];
     [| left; split; reflexivity]);
    (destruct (truthy (prop body "dryRun") || truthy (dry_run cfg));
     [right; left | right; right]);
    (split; [reflexivity | split; [reflexivity |]]);
    repeat eexists.
Qed.
End RouteOrders.



(** X12: a route hands an order to the exchange only when the request is
    valid, the gate has allowed it, and neither the request nor the
    configuration asks for a dry run. *)
Theorem exchange_call_needs_allow `{Host} (r : Route) (srv : Server)
    (req_body : option (gmap string JsVal)) (c : Clock) (p : string)
    (b : gmap string JsVal) :
  fst (fst (handle r srv req_body c)) = CallExchange p b ->
  let body := default ∅ req_body in
  missing_symbol_or_side body = false
  /\ bad_size (normalizedSize body) = false
  /\ truthy (prop body "dryRun") = false
  /\ truthy (dry_run (server_config srv)) = false
  /\ exists d,
       fst (fst (canExecute (server_gate srv) (ArgObject (route_order r body))
                            (tick (tick c))))
       = Resolved d
       /\ decision_allow d = true.
Proof.
  intros R body.
  destruct (missing_symbol_or_side body || bad_size (normalizedSize body))
    eqn:I.
  - rewrite (handle_invalid r srv req_body c I) in R. discriminate R.
  - apply orb_false_iff in I as [M B].
    destruct (handle_valid_canExecute r srv req_body c M B)
      as (d & G & Rp & _).
    fold body in G, Rp. rewrite Rp in R.
    destruct (route_reply_cases r (server_config srv) body d)
      as [[_ Q] | [(_ & _ & b' & Q) | (A & Dr & _)]];
      try (rewrite Q in R; discriminate R).
    apply orb_false_iff in Dr as [D1 D2].
    repeat apply conj; try assumption.
    exists d. now rewrite G.
Qed.

Lemma exchange_call_needs_allow_witness :
  exists d,
    fst (fst (canExecute (idle_gate empty_config)
                         (ArgObject (mix_order reduce_only_request))
                         (tick (tick (frozen_clock 9000)))))
    = Resolved d
    /\ decision_allow d = true.
Proof.
  refine (proj2 (proj2 (proj2 (proj2
            (exchange_call_needs_allow Mix (server_of (idle_gate empty_config))
               (Some reduce_only_request) (frozen_clock 9000)
               "/api/v2/mix/order/place-order"
               {[ "symbol" := JString "BTCUSDT";
                  "productType" := JString "USDT-FUTURES";
                  "marginMode" := JString "crossed";
                  "marginCoin" := JString "USDT";
                  "size" := JNumber (num_of_Z 1);
                  "side" := JString "sell";
                  "orderType" := JString "market";
                  "tradeSide" := JString "open" ]} _))))).
  vm_compute. reflexivity.
Defined.

(** With a switch on, a valid request that is not a close-only order for
    the gate is answered with the gate's denial. *)
Lemma blocked_under_switches `{Host} (r : Route) (srv : Server)
    (req_body : option (gmap string JsVal)) (c : Clock) :
  let body := default ∅ req_body in
  truthy (kill_switch (config (server_gate srv)))
  || globalHalt (server_gate srv) || safeMode (server_gate srv) = true ->
  missing_symbol_or_side body = false ->
  bad_size (normalizedSize body) = false ->
  _isCloseOnly (route_order r body) = false ->
  exists d, fst (fst (handle r srv req_body c)) = Blocked d.
Proof.
  intros body S M B C.
  rewrite (handle_valid r srv req_body c M B). fold body.
  cbv zeta. cbn [fst snd].
  pose proof (rules_blocked
                (set_lastSnapshotAt (reading c 2) (server_gate srv))
                (route_order r body) (tick (tick (tick c))) S C) as D.
  eexists. destruct r; cbn [route_reply]; unfold mix_reply, spot_reply;
    rewrite D; reflexivity.
Qed.

(** X13: when the kill switch, the global halt or safe mode is on, the spot
    route lets no order through, not even as a dry run, because it never
    shows the gate a close-only order; the mix route lets through only the
    requests with a truthy [reduceOnly] or the intent "close" (a
    [closeOnly] field in the request is not forwarded to the gate). *)
Theorem switches_stop_the_routes `{Host} (r : Route) (srv : Server)
    (req_body : option (gmap string JsVal)) (c : Clock) :
  truthy (kill_switch (config (server_gate srv)))
  || globalHalt (server_gate srv) || safeMode (server_gate srv) = true ->
  is_order_through (fst (fst (handle r srv req_body c))) = true ->
  r = Mix /\ asks_to_close (default ∅ req_body) = true.
Proof.
  intros S T. set (body := default ∅ req_body) in *.
  destruct (missing_symbol_or_side body || bad_size (normalizedSize body))
    eqn:I.
  - rewrite (handle_invalid r srv req_body c I) in T. discriminate T.
  - apply orb_false_iff in I as [M B].
    destruct (_isCloseOnly (route_order r body)) eqn:C.
    + rewrite route_order_close in C. destruct r; [auto | discriminate C].
    + destruct (blocked_under_switches r srv req_body c S M B C) as [d Q].
      rewrite Q in T. discriminate T.
Qed.

Lemma switches_stop_the_routes_witness :
  Mix = Mix /\ asks_to_close reduce_only_request = true.
Proof.
  refine (switches_stop_the_routes Mix
            (server_of (set_globalHalt true (idle_gate empty_config)))
            (Some reduce_only_request) (frozen_clock 9000) _ _);
    vm_compute; reflexivity.
Defined.

(** X14: whatever the request, the body the mix route hands to the
    exchange has no [reduceOnly] field, and its [tradeSide] is "close" when
    the intent of the request is the string "close" and "open" in every
    other case.  So a request that reaches the exchange without that
    intent leaves as an opening order; and if the kill switch, the global
    halt or safe mode was on, it got through the gate only because of its
    truthy [reduceOnly]. *)
Theorem reduce_only_leaves_as_open `{Host} (srv : Server)
    (req_body : option (gmap string JsVal)) (c : Clock) (p : string)
    (b : gmap string JsVal) :
  fst (fst (handle Mix srv req_body c)) = CallExchange p b ->
  let body := default ∅ req_body in
  p = "/api/v2/mix/order/place-order"
  /\ b !! "reduceOnly" = None
  /\ b !! "tradeSide"
     = Some (JString (if is_string (prop body "intent") "close"
                      then "close" else "open"))
  /\ (is_string (prop body "intent") "close" = false ->
      truthy (kill_switch (config (server_gate srv)))
      || globalHalt (server_gate srv) || safeMode (server_gate srv) = true ->
      truthy (prop body "reduceOnly") = true).
Proof.
  intros R body.
  assert (Sw : is_string (prop body "intent") "close" = false ->
               truthy (kill_switch (config (server_gate srv)))
               || globalHalt (server_gate srv) || safeMode (server_gate srv)
               = true -> truthy (prop body "reduceOnly") = true).
  { intros I S.
    destruct (truthy (prop body "reduceOnly")) eqn:Ro; [reflexivity |].
    exfalso.
    destruct (missing_symbol_or_side body || bad_size (normalizedSize body))
      eqn:V.
    - rewrite (handle_invalid Mix srv req_body c V) in R. discriminate R.
    - apply orb_false_iff in V as [M B].
      destruct (blocked_under_switches Mix srv req_body c S M B) as [d Q].
      + cbn [route_order]. rewrite mix_order_close. unfold asks_to_close.
        fold body. now rewrite Ro, I.
      + rewrite Q in R. discriminate R. }
  destruct (missing_symbol_or_side body || bad_size (normalizedSize body))
    eqn:V.
  - rewrite (handle_invalid Mix srv req_body c V) in R. discriminate R.
  - apply orb_false_iff in V as [M B].
    rewrite (handle_valid Mix srv req_body c M B) in R. fold body in R.
    cbv zeta in R. cbn [fst snd route_reply] in R. unfold mix_reply in R.
    destruct (negb _); [discriminate R |].
    destruct (_ || _); [discriminate R |].
    inversion R; subst.
    repeat apply conj; [reflexivity | | | exact Sw].
    + now simplify_map_eq.
    + now simplify_map_eq.
Qed.

Lemma reduce_only_leaves_as_open_witness :
  ({[ "symbol" := JString "BTCUSDT";
      "productType" := JString "USDT-FUTURES";
      "marginMode" := JString "crossed";
      "marginCoin" := JString "USDT";
      "size" := JNumber (num_of_Z 1);
      "side" := JString "sell";
      "orderType" := JString "market";
      "tradeSide" := JString "open" ]} : gmap string JsVal) !! "tradeSide"
  = Some (JString "open").
Proof.
  refine (proj1 (proj2 (proj2 (reduce_only_leaves_as_open
                   (server_of (set_safeMode true
                                 (set_globalHalt true (idle_gate empty_config))))
                   (Some reduce_only_request) (frozen_clock 9000)
                   "/api/v2/mix/order/place-order" _ _)))).
  vm_compute. reflexivity.
Defined.

Section DryRunFacts.
Context `{Host}.

Lemma prop_insert_other (k k' : string) (v : JsVal) (m : gmap string JsVal) :
  String.eqb k k' = false -> prop (<[k := v]> m) k' = prop m k'.
Proof. intros E. now rewrite prop_insert, E. Qed.

Lemma dryRun_not_read (x : JsVal) (body : gmap string JsVal) (r : Route) :
  missing_symbol_or_side (<["dryRun" := x]> body) = missing_symbol_or_side body
  /\ normalizedSize (<["dryRun" := x]> body) = normalizedSize body
  /\ route_order r (<["dryRun" := x]> body) = route_order r body.
Proof.
  unfold missing_symbol_or_side, normalizedSize.
  destruct r; unfold route_order, mix_order, spot_order, normalizedSize;
    now rewrite !prop_insert_other by reflexivity.
Qed.
End DryRunFacts.

(** X15: a dry run is invisible to the gate.  Whatever the [dryRun] field
    of the request and the [dry_run] of the configuration are set to, the
    gate, both timestamps and the clock end up exactly as for the same
    request without them: a dry run is rate limited and uses up the budget
    like a real order; and when either flag is truthy nothing is handed to
    the exchange. *)
Theorem dry_run_spends_budget `{Host} (r : Route) (srv : Server)
    (body : gmap string JsVal) (x y : JsVal) (c : Clock) :
  let dry := handle r (with_dry_run y srv) (Some (<["dryRun" := x]> body)) c in
  let real := handle r srv (Some body) c in
  server_gate (snd (fst dry)) = server_gate (snd (fst real))
  /\ lastActivityAt (snd (fst dry)) = lastActivityAt (snd (fst real))
  /\ snd dry = snd real
  /\ (truthy x || truthy y = true -> is_exchange_call (fst (fst dry)) = false).
Proof.
  cbv zeta.
  destruct (dryRun_not_read x body r) as (Em & En & Eo).
  destruct (missing_symbol_or_side body || bad_size (normalizedSize body))
    eqn:I.
  - pose proof (handle_invalid r srv (Some body) c I) as E.
    assert (E' := handle_invalid r (with_dry_run y srv)
                    (Some (<["dryRun" := x]> body)) c).
    cbv zeta in E'. cbn [default from_option id] in E'.
    unfold bad_request_message in E'. rewrite Em, En in E'.
    fold (bad_request_message body) in E'.
    specialize (E' I).
    rewrite E, E'. cbn [default from_option id fst snd].
    destruct r; [repeat split |];
      destruct (missing_symbol_or_side body); repeat split.
  - apply orb_false_iff in I as [M B].
    rewrite (handle_valid r srv (Some body) c M B).
    rewrite (handle_valid r (with_dry_run y srv)
               (Some (<["dryRun" := x]> body)) c)
      by (cbn [default from_option id]; congruence).
    cbv zeta. cbn [default from_option id fst snd server_gate lastActivityAt with_dry_run
                   server_config].
    rewrite Eo. repeat apply conj; try reflexivity.
    intros D.
    match goal with |- context [route_reply r ?cfg ?bd ?d] =>
      destruct (route_reply_cases r cfg bd d)
        as [[_ Q] | [(_ & _ & b' & Q) | (_ & Dr & _)]]
    end; try (rewrite Q; reflexivity).
    cbn [dry_run] in Dr. rewrite prop_insert in Dr. cbn in Dr.
    rewrite D in Dr. discriminate Dr.
Qed.



(** * The configuration loader *)

Lemma lower_ascii_idem (a : ascii) :
  lower_ascii (lower_ascii a) = lower_ascii a.
Proof.
  destruct a as [[|] [|] [|] [|] [|] [|] [|] [|]]; reflexivity.
Qed.

Lemma lower_upper_ascii (a : ascii) :
  is_lower a = true -> lower_ascii (upper_ascii a) = lower_ascii a.
Proof.
  destruct a as [[|] [|] [|] [|] [|] [|] [|] [|]];
    vm_compute; intros E; first [reflexivity | discriminate E].
Qed.

Lemma same_letter_lower (a b : ascii) :
  same_letter a b = true -> lower_ascii a = lower_ascii b.
Proof.
  unfold same_letter. intros E.
  apply orb_true_iff in E as [E | E]; [apply orb_true_iff in E as [E | E] |].
  - apply Ascii.eqb_eq in E. now subst.
  - apply andb_true_iff in E as [L E]. apply Ascii.eqb_eq in E. subst b.
    now rewrite lower_upper_ascii.
  - apply andb_true_iff in E as [_ E]. apply Ascii.eqb_eq in E. subst b.
    now rewrite lower_ascii_idem.
Qed.

Lemma same_letter_lowered (a : ascii) : same_letter a (lower_ascii a) = true.
Proof.
  destruct a as [[|] [|] [|] [|] [|] [|] [|] [|]]; reflexivity.
Qed.

Lemma same_up_to_ascii_case_map_lower (s t : string) :
  same_up_to_ascii_case s t = true ->
  map_string lower_ascii s = map_string lower_ascii t.
Proof.
  revert t. induction s as [|a s IH]; intros [|b t] E; simpl in *;
    try discriminate; [reflexivity |].
  apply andb_true_iff in E as [Eab Est].
  now rewrite (same_letter_lower _ _ Eab), (IH _ Est).
Qed.

Lemma same_up_to_ascii_case_lowered (s : string) :
  same_up_to_ascii_case s (map_string lower_ascii s) = true.
Proof.
  induction s as [|a s IH]; [reflexivity |].
  simpl. now rewrite same_letter_lowered, IH.
Qed.

(** [String(s).toLowerCase() === "true"]: on a string of ASCII characters
    it holds for the spellings of "true" in any letter case, and for
    nothing else; a string with another character is lower-cased by the
    engine. *)
Lemma env_flag_cases `{Host} (s : string) :
  env_flag s
  = JBool (if ascii_only s then same_up_to_ascii_case s "true"
           else String.eqb (UnicodeLowerCase s) "true").
Proof.
  unfold env_flag, toLowerCase. f_equal.
  destruct (ascii_only s); [| reflexivity].
  destruct (String.eqb_spec (map_string lower_ascii s) "true") as [E | N].
  - symmetry. rewrite <- E. apply same_up_to_ascii_case_lowered.
  - destruct (same_up_to_ascii_case s "true") eqn:D; [| reflexivity].
    exfalso. apply N.
    now rewrite (same_up_to_ascii_case_map_lower s "true" D).
Qed.

Lemma env_flag_true `{Host} (s : string) :
  same_up_to_ascii_case s "true" = true -> env_flag s = JBool true.
Proof.
  intros D. rewrite env_flag_cases.
  pose proof (same_up_to_ascii_case_ascii s "true" D) as A. cbn in A.
  now rewrite <- A, D.
Qed.

(** X17: the environment decides the kill switch of the gate the server
    starts with.  A [KILL_SWITCH] variable that is set and not empty
    replaces the value of the configuration file by a boolean: for a value
    of ASCII characters, true when it spells "true" in any letter case and
    false for every other value ("1", "yes", "on"); for a value with a
    character beyond ASCII, whether the engine lower-cases it to "true".
    An unset or empty variable leaves the file's value.  The gate starts
    without halts, and when the variable spells "true" it denies every
    order that is not close-only with [KILL_SWITCH], without consulting the
    rate limiter. *)
Theorem env_kill_switch `{Host} (base : ServerConfig)
    (env : gmap string string) (c : Clock) :
  let g := server_gate (fst (boot base env c)) in
  kill_switch (config g)
  = match env !! "KILL_SWITCH" with
    | Some s => if str_truthy s
                then JBool (if ascii_only s
                            then same_up_to_ascii_case s "true"
                            else String.eqb (UnicodeLowerCase s) "true")
                else kill_switch (policy base)
    | None => kill_switch (policy base)
    end
  /\ globalHalt g = false /\ safeMode g = false /\ symbolHalt g = ∅
  /\ (forall s o c',
        env !! "KILL_SWITCH" = Some s ->
        same_up_to_ascii_case s "true" = true ->
        _isCloseOnly o = false ->
        fst (canExecute g (ArgObject o) c')
        = (Resolved (Denied "KILL_SWITCH" "Global kill switch enabled"
                            (version g) (reading c' 1)),
           set_lastSnapshotAt (reading c' 0) g)).
Proof.
  intros g.
  assert (K : kill_switch (config g)
              = match env !! "KILL_SWITCH" with
                | Some s => if str_truthy s
                            then JBool (if ascii_only s
                                        then same_up_to_ascii_case s "true"
                                        else String.eqb (UnicodeLowerCase s)
                                                        "true")
                            else kill_switch (policy base)
                | None => kill_switch (policy base)
                end).
  { subst g. unfold boot, new_PolicyGate, bind, ret, Date_now. cbn.
    unfold env_set. destruct (env !! "KILL_SWITCH") as [s |]; [| reflexivity].
    destruct (str_truthy s); [apply env_flag_cases | reflexivity]. }
  split; [exact K |]. repeat apply conj; try reflexivity.
  intros s o c' E D C.
  assert (T : truthy (kill_switch (config g)) = true).
  { rewrite K, E.
    pose proof (same_up_to_ascii_case_ascii s "true" D) as A. cbn in A.
    destruct s as [| a s]; [discriminate D |]. cbn [str_truthy].
    now rewrite <- A, D. }
  rewrite canExecute_object. cbv zeta. cbn [fst snd].
  rewrite rules_kill_switch by exact T. rewrite C. cbn [fst snd version].
  now rewrite reading_tick.
Qed.

Lemma env_kill_switch_witness :
  fst (fst (canExecute
              (server_gate
                 (fst (boot plain_server_config {[ "KILL_SWITCH" := "True" ]}
                            (frozen_clock 1000))))
              (ArgObject buy_order) (frozen_clock 2000)))
  = Resolved (Denied "KILL_SWITCH" "Global kill switch enabled" (pg 1000) 2000).
Proof.
  refine (f_equal fst
            (proj2 (proj2 (proj2 (proj2
               (env_kill_switch plain_server_config
                                {[ "KILL_SWITCH" := "True" ]}
                                (frozen_clock 1000)))))
               "True" buy_order (frozen_clock 2000) _ _ _));
    vm_compute; reflexivity.
Defined.

(** * The counter of the rate limiter, and two details of the routes *)

(** X18: the counter of a rate limiter with a positive integer ceiling N
    stays between 0 and N through any number of calls, whatever the clock
    does (standing still, jumping forward or back); the ceiling itself is
    never changed, and the window is always the second of the last call. *)
Theorem RateLimiter_counter_bounds (N : Z) (k : nat) (r : RateLimiter)
    (c : Clock) :
  0 < N ->
  maxPerSec r = num_of_Z N ->
  0 <= bucket r <= N ->
  let r' := snd (fst (allow_times k r c)) in
  0 <= bucket r' <= N
  /\ maxPerSec r' = num_of_Z N
  /\ ((0 < k)%nat -> ts r' = second_of (reading c (k - 1))).
Proof.
  intros HN. revert r c. induction k as [|k IH]; intros r c M B.
  - cbn. repeat split; try lia; try assumption.
  - rewrite allow_times_S. cbv zeta. cbn [fst snd].
    rewrite RateLimiter_allow_eq. cbv zeta. cbn [fst snd].
    rewrite M, num_ge_of_Z.
    set (b := if ts r =? second_of (readings c (cursor c))
              then bucket r else 0).
    assert (Bb : 0 <= b <= N) by (subst b; destruct (_ =? _); lia).
    destruct (N <=? b) eqn:E; cbn [fst snd].
    + match goal with |- context [allow_times k ?r1 ?c1] =>
        specialize (IH r1 c1 eq_refl Bb)
      end.
      cbv zeta in IH. destruct IH as (I1 & I2 & I3).
      repeat split; try assumption; try lia.
      intros _. destruct k as [|k].
      * cbn. unfold reading. now rewrite Nat.add_0_r.
      * rewrite I3 by lia. unfold reading. cbn. do 2 f_equal. lia.
    + apply Z.leb_gt in E.
      match goal with |- context [allow_times k ?r1 ?c1] =>
        specialize (IH r1 c1 eq_refl ltac:(cbn; lia))
      end.
      cbv zeta in IH. destruct IH as (I1 & I2 & I3).
      repeat split; try assumption; try lia.
      intros _. destruct k as [|k].
      * cbn. unfold reading. now rewrite Nat.add_0_r.
      * rewrite I3 by lia. unfold reading. cbn. do 2 f_equal. lia.
Qed.

Lemma RateLimiter_counter_bounds_witness :
  0 <= bucket (snd (fst (allow_times 7 (new_RateLimiter (JNumber (num_of_Z 2)))
                                     (ticking_clock 5000 400)))) <= 2.
Proof.
  refine (proj1 (RateLimiter_counter_bounds 2 7
                   (new_RateLimiter (JNumber (num_of_Z 2)))
                   (ticking_clock 5000 400) _ _ _)).
  - lia.
  - reflexivity.
  - cbn. lia.
Defined.

(** X19: the fallback of [decision.reason_code || "pass"] in the dry-run
    answer is never taken: every decision of the gate has a reason code that
    is not empty, so the answer reports the code itself. *)
Theorem gate_result_is_the_code `{Host} (v : Variant) (g : PolicyGate)
    (arg : OrderArg) (c : Clock) (d : Decision) :
  fst (fst (canExecute_in v g arg c)) = Resolved d ->
  gate_result d = JString (reason_code d).
Proof.
  intros D.
  assert (T : str_truthy (reason_code d) = true).
  { destruct (canExecute_in_cases v g arg c)
      as [[_ R] | [(_ & _ & R) | (_ & _ & R)]]; rewrite R in D.
    - inversion D. reflexivity.
    - discriminate D.
    - cbv zeta in D. cbn [fst snd] in D. inversion D as [D'].
      pose proof (rules_codes (set_lastSnapshotAt (reading c 0) g)
                              (order_of arg) (tick c)) as P.
      cbv zeta in P. simpl in P.
      destruct P as [[_ P] | [_ P]];
        repeat (destruct P as [P | P]; [now rewrite <- P |]);
        contradiction. }
  unfold gate_result, js_or. cbn [truthy]. now rewrite T.
Qed.

Lemma gate_result_is_the_code_witness :
  gate_result (Allowed "PASS" (pg 0) 12000) = JString "PASS".
Proof.
  exact (gate_result_is_the_code GateJs (idle_gate empty_config)
           (ArgObject buy_order) (frozen_clock 9000)
           (Allowed "PASS" (pg 0) 12000) eq_refl).
Defined.

(** X20: [quantity ?? size ?? quote] skips a quantity only when it is
    missing or null.  When the request carries a quantity, even zero or an
    empty string, the [size] and [quote] fields are not looked at: the
    answer and the server state are the same whatever they hold. *)
Theorem quantity_shadows_size_and_quote `{Host} (r : Route) (srv : Server)
    (body : gmap string JsVal) (x y : JsVal) (c : Clock) :
  is_nullish (prop body "quantity") = false ->
  handle r srv (Some (<["size" := x]> (<["quote" := y]> body))) c
  = handle r srv (Some body) c.
Proof.
  intros Q.
  assert (P : forall k, String.eqb "size" k = false ->
                        String.eqb "quote" k = false ->
                        prop (<["size" := x]> (<["quote" := y]> body)) k
                        = prop body k).
  { intros k E1 E2. now rewrite !prop_insert, E1, E2. }
  assert (Nz : normalizedSize (<["size" := x]> (<["quote" := y]> body))
               = normalizedSize body).
  { unfold normalizedSize. rewrite (P "quantity") by reflexivity.
    destruct (prop body "quantity"); try discriminate Q; reflexivity. }
  destruct r; cbn [handle default from_option id];
    unfold mix_market_order, spot_market_order, mix_reply, spot_reply,
      missing_symbol_or_side, mix_order, spot_order;
    cbn [default from_option id];
    rewrite Nz; rewrite !P by reflexivity; reflexivity.
Qed.

Lemma quantity_shadows_size_and_quote_witness :
  fst (fst (handle Mix (server_of (idle_gate empty_config))
              (Some (<["size" := JNumber (num_of_Z 5)]>
                       (<["quote" := JNumber (num_of_Z 7)]>
                          {[ "symbol" := JString "BTCUSDT";
                             "side" := JString "buy";
                             "quantity" := JNumber (num_of_Z 0) ]})))
              (frozen_clock 9000)))
  = BadRequest "quantity/size/quote required (>0)".
Proof.
  refine (eq_trans
            (f_equal (fun x => fst (fst x))
               (quantity_shadows_size_and_quote Mix
                  (server_of (idle_gate empty_config))
                  {[ "symbol" := JString "BTCUSDT"; "side" := JString "buy";
                     "quantity" := JNumber (num_of_Z 0) ]}
                  (JNumber (num_of_Z 5)) (JNumber (num_of_Z 7))
                  (frozen_clock 9000) _))
            _); vm_compute; reflexivity.
Defined.
